(** * Holiday calendar widget: normalization and week highlighting

    A shallow embedding of the two [CalendarView] components of the
    calendar widget (the remote-service view and the file-import view),
    together with the parts of the JavaScript [Date] object and of the
    date-fns helpers that they call.

    Conventions of the model
    - A [Date] is its local time value: the number of milliseconds between
      the local epoch and the instant, as the local accessors
      ([getFullYear], [getMonth], [getDate], [getDay]) see it.  The offset of
      the local zone from UTC is taken to be a constant [tza].  Where the
      offset changes (daylight saving, a local day that is skipped or
      repeated) [setDate] can land on another local day or time of day
      than this arithmetic gives; for the month grid the helpers are
      given once more in module [Zoned], with a [Date] as its UTC time
      value and a zone that changes its offset, and the two agree when
      the offset is constant.
    - The calendar arithmetic follows the abstract operations of ECMAScript
      ([Day], [YearFromTime], [MonthFromTime], [DateFromTime], [WeekDay],
      [MakeDay], [MakeDate]).
    - React state is an explicit record; an effect ([fetch], [alert]) is
      recorded in the state it acts on. *)

From Stdlib Require Import ZArith Lia Ascii String.
From stdpp Require Import base option list gmap pretty strings.

Local Open Scope string_scope.
Local Open Scope list_scope.
Local Open Scope Z_scope.

(* ================================================================== *)
(** ** ECMAScript time values *)
(* ================================================================== *)

Module JsDate.

Definition msPerDay : Z := 86400000.

Definition Day (t : Z) : Z := t / msPerDay.
Definition TimeWithinDay (t : Z) : Z := t mod msPerDay.

Definition DaysInYear (y : Z) : Z :=
  if negb (y mod 4 =? 0) then 365
  else if negb (y mod 100 =? 0) then 366
  else if negb (y mod 400 =? 0) then 365
  else 366.

Definition DayFromYear (y : Z) : Z :=
  365 * (y - 1970) + (y - 1969) / 4 - (y - 1901) / 100 + (y - 1601) / 400.

(** The largest [y] with [DayFromYear y <= Day t]: a first estimate from
    the mean length of a year, corrected by at most one year. *)
Definition YearFromTime (t : Z) : Z :=
  let d := Day t in
  let y := 1970 + (400 * d) / 146097 in
  if DayFromYear (y + 1) <=? d then y + 1
  else if DayFromYear y <=? d then y
  else y - 1.

Definition InLeapYear (t : Z) : Z :=
  if DaysInYear (YearFromTime t) =? 366 then 1 else 0.

Definition DayWithinYear (t : Z) : Z :=
  Day t - DayFromYear (YearFromTime t).

(** Number of days of the year before month [m] (0 = January). *)
Definition monthStart (leap m : Z) : Z :=
  match m with
  | 0 => 0
  | 1 => 31
  | 2 => 59 + leap
  | 3 => 90 + leap
  | 4 => 120 + leap
  | 5 => 151 + leap
  | 6 => 181 + leap
  | 7 => 212 + leap
  | 8 => 243 + leap
  | 9 => 273 + leap
  | 10 => 304 + leap
  | 11 => 334 + leap
  | _ => 365 + leap
  end.

Definition MonthFromTime (t : Z) : Z :=
  let d := DayWithinYear t in
  let leap := InLeapYear t in
  if d <? 31 then 0
  else if d <? 59 + leap then 1
  else if d <? 90 + leap then 2
  else if d <? 120 + leap then 3
  else if d <? 151 + leap then 4
  else if d <? 181 + leap then 5
  else if d <? 212 + leap then 6
  else if d <? 243 + leap then 7
  else if d <? 273 + leap then 8
  else if d <? 304 + leap then 9
  else if d <? 334 + leap then 10
  else 11.

Definition DateFromTime (t : Z) : Z :=
  DayWithinYear t - monthStart (InLeapYear t) (MonthFromTime t) + 1.

Definition WeekDay (t : Z) : Z := (Day t + 4) mod 7.

Definition MakeTime (hour min sec ms : Z) : Z :=
  hour * 3600000 + min * 60000 + sec * 1000 + ms.

Definition MakeDay (year month date : Z) : Z :=
  let ym := year + month / 12 in
  let mn := month mod 12 in
  let leap := if DaysInYear ym =? 366 then 1 else 0 in
  DayFromYear ym + monthStart leap mn + date - 1.

Definition MakeDate (day time : Z) : Z := day * msPerDay + time.

(** A [Date] object, identified with its local time value. *)
Definition Date : Type := Z.

Definition getFullYear (d : Date) : Z := YearFromTime d.
Definition getMonth (d : Date) : Z := MonthFromTime d.
Definition getDate (d : Date) : Z := DateFromTime d.
Definition getDay (d : Date) : Z := WeekDay d.

Definition setDate (d : Date) (dt : Z) : Date :=
  MakeDate (MakeDay (YearFromTime d) (MonthFromTime d) dt) (TimeWithinDay d).

Definition setHours (d : Date) (h m s ms : Z) : Date :=
  MakeDate (Day d) (MakeTime h m s ms).

Definition setFullYear (d : Date) (y m dt : Z) : Date :=
  MakeDate (MakeDay y m dt) (TimeWithinDay d).

Definition setMonth (d : Date) (m dt : Z) : Date :=
  MakeDate (MakeDay (YearFromTime d) m dt) (TimeWithinDay d).

(** The civil date [y]-[m]-[dt] (month 0-based) at local midnight. *)
Definition ofYMD (y m dt : Z) : Date := MakeDate (MakeDay y m dt) 0.

End JsDate.

Export JsDate.

(* ================================================================== *)
(** ** The date-fns helpers used by the components *)
(* ================================================================== *)

Module DateFns.

Definition startOfDay (d : Date) : Date := setHours d 0 0 0 0.

Definition startOfMonth (d : Date) : Date :=
  setHours (setDate d 1) 0 0 0 0.

Definition endOfMonth (d : Date) : Date :=
  let month := getMonth d in
  setHours (setFullYear d (getFullYear d) (month + 1) 0) 23 59 59 999.

Definition startOfWeek (d : Date) (weekStartsOn : Z) : Date :=
  let day := getDay d in
  let diff := (if day <? weekStartsOn then 7 else 0) + day - weekStartsOn in
  setHours (setDate d (getDate d - diff)) 0 0 0 0.

Definition endOfWeek (d : Date) (weekStartsOn : Z) : Date :=
  let day := getDay d in
  let diff :=
    (if day <? weekStartsOn then -7 else 0) + 6 - (day - weekStartsOn) in
  setHours (setDate d (getDate d + diff)) 23 59 59 999.

Definition addDays (d : Date) (amount : Z) : Date :=
  if amount =? 0 then d else setDate d (getDate d + amount).

Definition addMonths (d : Date) (amount : Z) : Date :=
  if amount =? 0 then d
  else
    let dayOfMonth := getDate d in
    let endOfDesiredMonth := setMonth d (getMonth d + amount + 1) 0 in
    let daysInMonth := getDate endOfDesiredMonth in
    if daysInMonth <=? dayOfMonth then endOfDesiredMonth
    else setFullYear d (getFullYear endOfDesiredMonth)
                       (getMonth endOfDesiredMonth) dayOfMonth.

Definition subMonths (d : Date) (amount : Z) : Date := addMonths d (- amount).

(** [isToday day]: same local calendar day as the clock reading [now]. *)
Definition isToday (now day : Date) : bool :=
  bool_decide (startOfDay day = startOfDay now).

(** [String.prototype.padStart(targetLength, "0")]. *)
Definition padStart0 (s : string) (targetLength : nat) : string :=
  String.string_of_list_ascii
    (replicate (targetLength - String.length s) "0"%char) +:+ s.

Definition addLeadingZeros (number : Z) (targetLength : nat) : string :=
  let sign := if number <? 0 then "-" else "" in
  sign +:+ padStart0 (pretty (Z.abs_N number)) targetLength.

(** [format(d, "yyyy-MM-dd")]: the year of the era on four digits, the
    month and the day of the month on two. *)
Definition format_yyyy_MM_dd (d : Date) : string :=
  let signedYear := getFullYear d in
  let year := if 0 <? signedYear then signedYear else 1 - signedYear in
  addLeadingZeros year 4 +:+ "-" +:+
  addLeadingZeros (getMonth d + 1) 2 +:+ "-" +:+
  addLeadingZeros (getDate d) 2.

(** [format(d, "d")]. *)
Definition format_d (d : Date) : string := addLeadingZeros (getDate d) 1.

End DateFns.

Export DateFns.

(* ================================================================== *)
(** ** Strings: trimming, and dates written as text *)
(* ================================================================== *)

Module JsString.

(** White space and line terminators that [trim] strips, as far as they
    are single bytes: TAB, LF, VT, FF, CR and SPACE. *)
Definition isWhiteSpace (c : ascii) : bool :=
  let n := nat_of_ascii c in
  ((9 <=? n)%nat && (n <=? 13)%nat) || (n =? 32)%nat.

Fixpoint trimStart (s : string) : string :=
  match s with
  | String c s' => if isWhiteSpace c then trimStart s' else s
  | EmptyString => EmptyString
  end.

Fixpoint trimEnd (s : string) : string :=
  match s with
  | String c s' =>
      match trimEnd s' with
      | EmptyString => if isWhiteSpace c then EmptyString
                       else String c EmptyString
      | r => String c r
      end
  | EmptyString => EmptyString
  end.

Definition trim (s : string) : string := trimEnd (trimStart s).

Definition digit (c : ascii) : option Z :=
  let n := nat_of_ascii c in
  if ((48 <=? n)%nat && (n <=? 57)%nat)%bool
  then Some (Z.of_nat n - 48) else None.

(** The date-only form [YYYY-MM-DD] of the ECMAScript date-time string
    format, with the month in 01..12 and the day in 01..31. *)
Definition parseDateOnly (s : string) : option (Z * Z * Z) :=
  match String.list_ascii_of_string s with
  | [y1; y2; y3; y4; s1; m1; m2; s2; d1; d2] =>
      y1 ← digit y1; y2 ← digit y2; y3 ← digit y3; y4 ← digit y4;
      m1 ← digit m1; m2 ← digit m2; d1 ← digit d1; d2 ← digit d2;
      let y := 1000 * y1 + 100 * y2 + 10 * y3 + y4 in
      let m := 10 * m1 + m2 in
      let d := 10 * d1 + d2 in
      if bool_decide (s1 = "-"%char) && bool_decide (s2 = "-"%char)
         && (1 <=? m) && (m <=? 12) && (1 <=? d) && (d <=? 31)
      then Some (y, m, d) else None
  | _ => None
  end.

(** [new Date(s)] for a date-only string: midnight UTC of that day, seen
    through a local zone [tza] milliseconds east of UTC.  [None] is the
    invalid date.  Strings in another form are not modelled and are
    taken as invalid. *)
Definition newDate (tza : Z) (s : string) : option Date :=
  '(y, m, d) ← parseDateOnly s;
  Some (MakeDate (MakeDay y (m - 1) d) 0 + tza).

End JsString.

Export JsString.

(* ================================================================== *)
(** ** Data model *)
(* ================================================================== *)

Inductive HolidayType : Type := regular | work.

Global Instance HolidayType_eq_dec : EqDecision HolidayType.
Proof. solve_decision. Defined.

Record Holiday : Type := mkHoliday {
  date : string;  (* 'yyyy-MM-dd' *)
  name : string;
  type : HolidayType
}.

Global Instance Holiday_eq_dec : EqDecision Holiday.
Proof. solve_decision. Defined.

(* ================================================================== *)
(** ** The month grid (the same text in both components) *)
(* ================================================================== *)

(** The [while (day <= end)] loop of [getMonthDays]; [None] when the
    iteration budget is used up before the loop exits. *)
Fixpoint getMonthDays_loop (fuel : nat) (day end_ : Date) (days : list Date)
  : option (list Date) :=
  match fuel with
  | O => None
  | S fuel' =>
      if day <=? end_
      then getMonthDays_loop fuel' (addDays day 1) end_ (days ++ [day])
      else Some days
  end.

Definition getMonthDays_fuel (fuel : nat) (baseDate : Date)
  : option (list Date) :=
  let start := startOfWeek (startOfMonth baseDate) 0 in
  let end_ := endOfWeek (endOfMonth baseDate) 0 in
  getMonthDays_loop fuel start end_ [].

(** Forty-three turns of the loop are always enough (see
    [getMonthDays_fuel_enough]); with them [getMonthDays] is total. *)
Definition getMonthDays (baseDate : Date) : list Date :=
  default [] (getMonthDays_fuel 43 baseDate).

Definition months (baseDate : Date) : list Date :=
  [subMonths baseDate 1; baseDate; addMonths baseDate 1].

Section GetWeeks.
Context {A : Type}.

(** One turn of [days.forEach]: the state is [(weeks, week)]. *)
Definition getWeeks_step (st : list (list A) * list A) (day : A)
  : list (list A) * list A :=
  let '(weeks, week) := st in
  let week := week ++ [day] in
  if (List.length week =? 7)%nat then (weeks ++ [week], []) else (weeks, week).

Definition getWeeks (days : list A) : list (list A) :=
  let '(weeks, week) := fold_left getWeeks_step days ([], []) in
  if (List.length week =? 0)%nat then weeks else weeks ++ [week].

(** The contract of [toWeeks] as the specification words it: groups of
    seven in order, and a failure when the length is not a multiple of
    seven. *)
Fixpoint chunks7 (n : nat) (days : list A) : list (list A) :=
  match n with
  | O => []
  | S n' => take 7 days :: chunks7 n' (drop 7 days)
  end.

Definition toWeeks_spec (days : list A) : option (list (list A)) :=
  if (List.length days mod 7 =? 0)%nat
  then Some (chunks7 (List.length days / 7) days)
  else None.

End GetWeeks.

(** Exceptions inside a [try] block: [Throw] carries what [catch] logs. *)
Inductive Exn (A : Type) : Type :=
| Throw (e : string)
| Return (a : A).
Arguments Throw {A} e.
Arguments Return {A} a.

Global Instance Exn_ret : MRet Exn := fun A a => Return a.
Global Instance Exn_bind : MBind Exn := fun A B k m =>
  match m with
  | Throw e => Throw e
  | Return a => k a
  end.

(** [Array.prototype.join]. *)
Definition join (sep : string) (l : list string) : string :=
  String.concat sep l.

(** What a day of the grid is rendered as. *)
Record Badge : Type := mkBadge {
  badgeClass : string;
  icon : string
}.

Record DayCell : Type := mkDayCell {
  bgColor : string;
  textColor : string;
  title : option string;
  label : string;
  badge : option Badge
}.

(** [Blank] is the empty [<div />] that stands in for a filtered-out day. *)
Inductive Cell : Type :=
| Blank
| Shown (c : DayCell).

(* ================================================================== *)
(** ** The remote-service view (holidays fetched per country and year) *)
(* ================================================================== *)

Module RemoteView.

(** One element of the service's answer, [h : any].  A field that is
    absent (or, for [localName], not a string) is [None]. *)
Record RawHoliday : Type := mkRaw {
  raw_date : option string;
  localName : option string
}.

Inductive RawItem : Type :=
| RawNull
| RawObj (h : RawHoliday).

Inductive Body : Type :=
| BodyInvalid                       (* res.json() rejects *)
| BodyNotArray                      (* JSON, but no array *)
| BodyArray (items : list RawItem).

Inductive FetchOutcome : Type :=
| FetchRejected                     (* network failure *)
| FetchResponse (ok : bool) (body : Body).

Record State : Type := mkState {
  baseDate : Date;
  countryCode : string;
  holidays : list Holiday;
  showOnlyHolidays : bool;
  errorMessage : option string;
  requests : list string;           (* URLs handed to fetch, oldest first *)
  console : list string             (* console.error lines *)
}.

Definition setHolidays (v : list Holiday) (s : State) : State :=
  mkState (baseDate s) (countryCode s) v (showOnlyHolidays s)
          (errorMessage s) (requests s) (console s).

Definition setErrorMessage (v : option string) (s : State) : State :=
  mkState (baseDate s) (countryCode s) (holidays s) (showOnlyHolidays s)
          v (requests s) (console s).

Definition setShowOnlyHolidays (v : bool) (s : State) : State :=
  mkState (baseDate s) (countryCode s) (holidays s) v
          (errorMessage s) (requests s) (console s).

Definition logRequest (url : string) (s : State) : State :=
  mkState (baseDate s) (countryCode s) (holidays s) (showOnlyHolidays s)
          (errorMessage s) (requests s ++ [url]) (console s).

Definition consoleError (e : string) (s : State) : State :=
  mkState (baseDate s) (countryCode s) (holidays s) (showOnlyHolidays s)
          (errorMessage s) (requests s) (console s ++ [e]).

Definition msgDataUnavailable : string :=
  "Holiday data for India is not available from Nager API.".
Definition msgFetchFailed : string := "Failed to load holiday data.".

Section Fetch.
(** Offset of the local zone, in milliseconds east of UTC. *)
Variable tza : Z.

Definition isWeekend (dateStr : string) : bool :=
  match newDate tza dateStr with
  | Some d => let day := getDay d in (day =? 0) || (day =? 6)
  | None => false                 (* NaN is neither 0 nor 6 *)
  end.

(** The text of [h.date] and of [h.localName.trim()]; both are only
    taken of records that passed the first filter, where they are
    strings. *)
Definition dateOf (h : RawHoliday) : string := default "" (raw_date h).
Definition nameOf (h : RawHoliday) : string :=
  trim (default "" (localName h)).

(** The callback of the first [data.filter]. *)
Definition keepRecord (h : RawHoliday) : bool :=
  match raw_date h, localName h with
  | Some d, Some _ =>
      if bool_decide (d = "") then false
      else if isWeekend d then false
      else true
  | _, _ => false
  end.

(** [data.filter(...)]; reading a field of [null] throws. *)
Fixpoint filtered (data : list RawItem) : Exn (list RawHoliday) :=
  match data with
  | [] => Return []
  | RawNull :: _ =>
      Throw "TypeError: Cannot read properties of null (reading 'date')"
  | RawObj h :: rest =>
      r ← filtered rest;
      Return (if keepRecord h then h :: r else r)
  end.

Definition keyOf (h : RawHoliday) : string :=
  dateOf h +:+ "|" +:+ nameOf h.

(** One call of the second filter's callback; the state is the set
    [seen] and the records kept so far. *)
Definition unique_step (st : gset string * list RawHoliday)
  (h : RawHoliday) : gset string * list RawHoliday :=
  let '(seen, kept) := st in
  let key := keyOf h in
  if bool_decide (key ∈ seen) then (seen, kept)
  else ({[key]} ∪ seen, kept ++ [h]).

Definition uniqueHolidays (l : list RawHoliday) : list RawHoliday :=
  (fold_left unique_step l (∅, [])).2.

Definition parsed (l : list RawHoliday) : list Holiday :=
  map (fun h => mkHoliday (dateOf h) (nameOf h) regular) l.

(** The body of the [try] block once [fetch] has settled. *)
Definition tryBody (o : FetchOutcome) : Exn (list Holiday) :=
  match o with
  | FetchRejected => Throw "TypeError: Failed to fetch"
  | FetchResponse ok body =>
      if negb ok then Throw "Error: Failed to fetch holidays"
      else
        match body with
        | BodyInvalid => Throw "SyntaxError: Unexpected token"
        | BodyNotArray => Throw "TypeError: data.filter is not a function"
        | BodyArray data =>
            f ← filtered data;
            Return (parsed (uniqueHolidays f))
        end
  end.

(** The service, as a function from the URL asked to what comes back. *)
Variable net : string -> FetchOutcome.

Definition holidaysUrl (year : Z) (countryCode : string) : string :=
  "https://date.nager.at/api/v3/PublicHolidays/" +:+ pretty year
    +:+ "/" +:+ countryCode.

Definition fetchHolidays (s : State) : State :=
  let s := setErrorMessage None s in
  if bool_decide (countryCode s = "IN") then
    setErrorMessage (Some msgDataUnavailable) (setHolidays [] s)
  else
    let year := getFullYear (baseDate s) in
    let url := holidaysUrl year (countryCode s) in
    let s := logRequest url s in
    match tryBody (net url) with
    | Return parsed => setHolidays parsed s
    | Throw error =>
        setErrorMessage (Some msgFetchFailed)
          (setHolidays [] (consoleError error s))
    end.

(** Normalizing a list that is already canonical: each record goes
    back in as the service would have sent it. *)
Definition toRaw (h : Holiday) : RawItem :=
  RawObj (mkRaw (Some (date h)) (Some (name h))).

Definition normalize (data : list RawItem) : Exn (list Holiday) :=
  tryBody (FetchResponse true (BodyArray data)).

End Fetch.

(** One row of a month panel: the two counts, the override flag, the
    class of the row and its seven cells. *)
Record WeekRow : Type := mkWeekRow {
  workCount : nat;
  regularCount : nat;
  overrideWeekDarkGrey : bool;
  className : string;
  cells : list Cell
}.

Section Render.
Variable holidays_ : list Holiday.

Definition matchesDay (dateStr : string) (ty : HolidayType) (h : Holiday)
  : bool :=
  bool_decide (date h = dateStr) && bool_decide (type h = ty).

Definition countStep (ty : HolidayType) (currentMonth : Z)
  (uniqueDates : gset string) (day : Date) : gset string :=
  let dateStr := format_yyyy_MM_dd day in
  let isInCurrentMonth := getMonth day =? currentMonth in
  if negb isInCurrentMonth then uniqueDates
  else
    let matching := filter (fun h => matchesDay dateStr ty h) holidays_ in
    if (0 <? List.length matching)%nat
    then {[dateStr]} ∪ uniqueDates   (* count only once per date *)
    else uniqueDates.

Definition countHolidaysInWeekByMonth (week : list Date)
  (ty : HolidayType) (currentMonth : Z) : nat :=
  size (fold_left (countStep ty currentMonth) week ∅).

Definition weekClass (regularCount workCount : nat) : string :=
  let weekClass := "mb-1 rounded " in
  let overrideWeekDarkGrey := (2 <=? regularCount)%nat in
  if overrideWeekDarkGrey then weekClass +:+ "bg-gray-600 text-white "
  else if (1 <? workCount)%nat then weekClass +:+ "bg-green-200 "
  else if (workCount =? 1)%nat then weekClass +:+ "border-2 border-green-400 "
  else if (regularCount =? 1)%nat then weekClass +:+ "border-2 border-gray-300 "
  else weekClass.

Variable showOnlyHolidays_ : bool.
Variable now : Date.

Definition hasType (ty : HolidayType) (l : list Holiday) : bool :=
  existsb (fun h => bool_decide (type h = ty)) l.

Definition renderDay (monthDate : Date) (overrideWeekDarkGrey : bool)
  (day : Date) : Cell :=
  let dayStr := format_yyyy_MM_dd day in
  let isCurrentMonth := getMonth monthDate =? getMonth day in
  let dayHolidays :=
    if isCurrentMonth
    then filter (fun h => bool_decide (date h = dayStr)) holidays_
    else [] in
  if showOnlyHolidays_ && (List.length dayHolidays =? 0)%nat then Blank
  else
    let hasWorkHoliday := hasType work dayHolidays in
    let hasRegularHoliday := hasType regular dayHolidays in
    let bgColor :=
      if negb overrideWeekDarkGrey then
        if isToday now day then "bg-blue-300"
        else if hasWorkHoliday then "bg-green-300"
        else if hasRegularHoliday then "bg-yellow-200"
        else ""
      else "" in
    let textColor :=
      if overrideWeekDarkGrey then "text-white"
      else if isCurrentMonth then "text-gray-900"
      else "text-gray-400" in
    Shown (mkDayCell bgColor textColor
      (Some (join ", " (map name dayHolidays)))
      (format_d day)
      (if (0 <? List.length dayHolidays)%nat then
         Some (mkBadge
           ("text-[10px] mt-1 " +:+
              (if overrideWeekDarkGrey then "text-white"
               else "text-gray-700"))
           (if hasType work dayHolidays then "🏢"
            else if hasType regular dayHolidays then "🎉"
            else ""))
       else None)).

Definition renderWeek (monthDate : Date) (week : list Date) : WeekRow :=
  let workCount :=
    countHolidaysInWeekByMonth week work (getMonth monthDate) in
  let regularCount :=
    countHolidaysInWeekByMonth week regular (getMonth monthDate) in
  let overrideWeekDarkGrey := (2 <=? regularCount)%nat in
  mkWeekRow workCount regularCount overrideWeekDarkGrey
    ("grid grid-cols-7 gap-1 " +:+ trim (weekClass regularCount workCount))
    (map (renderDay monthDate overrideWeekDarkGrey) week).

Definition renderMonth (monthDate : Date) : list WeekRow :=
  let days := getMonthDays monthDate in
  let weeks := getWeeks days in
  map (renderWeek monthDate) weeks.

End Render.

(** The three month panels for a state, with the clock reading [now]. *)
Definition render (now : Date) (s : State) : list (list WeekRow) :=
  map (renderMonth (holidays s) (showOnlyHolidays s) now)
      (months (baseDate s)).

End RemoteView.

(* ================================================================== *)
(** ** The file-import view (mock data, replaced by an imported file) *)
(* ================================================================== *)

Module ImportView.

(** What the component reads of one [VEVENT]: [event.startDate] ([None]
    when the event has no [DTSTART], so that [toJSDate] is called on
    [null]) and [event.summary]. *)
Record VEvent : Type := mkVEvent {
  startDate : option Date;
  summary : option string
}.

Record State : Type := mkState {
  baseDate : Date;
  holidays : list Holiday;
  showOnlyHolidays : bool;
  alerts : list string;             (* alert() boxes shown, oldest first *)
  console : list string             (* console.error lines *)
}.

(** Initial mock data. *)
Definition initialHolidays : list Holiday :=
  [ mkHoliday "2025-06-10" "Company Retreat" work;
    mkHoliday "2025-06-10" "National Day" regular;
    mkHoliday "2025-07-04" "Independence Day" regular ].

Definition initialState (now : Date) : State :=
  mkState now initialHolidays false [] [].

Definition setHolidays (v : list Holiday) (s : State) : State :=
  mkState (baseDate s) v (showOnlyHolidays s) (alerts s) (console s).

Definition setShowOnlyHolidays (v : bool) (s : State) : State :=
  mkState (baseDate s) (holidays s) v (alerts s) (console s).

Definition alert (msg : string) (s : State) : State :=
  mkState (baseDate s) (holidays s) (showOnlyHolidays s)
          (alerts s ++ [msg]) (console s).

Definition consoleError (e : string) (s : State) : State :=
  mkState (baseDate s) (holidays s) (showOnlyHolidays s)
          (alerts s) (console s ++ [e]).

Definition msgImportFailed : string :=
  "Failed to parse ICS file. Please check console.".

(** The callback of [vevents.map]. *)
Definition toHoliday (vevent : VEvent) : Exn Holiday :=
  match startDate vevent with
  | None =>
      Throw "TypeError: Cannot read properties of null (reading 'toJSDate')"
  | Some d =>
      let date := format_yyyy_MM_dd d in
      Return (mkHoliday date
        (match summary vevent with
         | Some s => if bool_decide (s = "") then "Unnamed Event" else s
         | None => "Unnamed Event"
         end)
        regular)
  end.

Fixpoint mapExn {A B : Type} (f : A -> Exn B) (l : list A) : Exn (list B) :=
  match l with
  | [] => Return []
  | x :: rest => y ← f x; ys ← mapExn f rest; Return (y :: ys)
  end.

Section IcsImport.
(** [ICAL.parse] followed by [getAllSubcomponents("vevent")]: the events
    of a calendar text, or the exception the parser raises. *)
Variable ICAL_vevents : string -> Exn (list VEvent).

(** [file] is [event.target.files?.[0]], read as text. *)
Definition handleICSFile (file : option string) (s : State) : State :=
  match file with
  | None => s
  | Some text =>
      match vevents ← ICAL_vevents text; mapExn toHoliday vevents with
      | Return parsedHolidays =>
          setShowOnlyHolidays false (setHolidays parsedHolidays s)
      | Throw error =>
          alert msgImportFailed
            (consoleError ("Failed to parse ICS file: " +:+ error) s)
      end
  end.
End IcsImport.

Record WeekRow : Type := mkWeekRow {
  workHolidayCount : nat;
  className : string;
  cells : list Cell
}.

Section Render.
Variable holidays_ : list Holiday.

(** Count work holidays in a week. *)
Definition countWorkHolidaysInWeek (week : list Date) : nat :=
  fold_left
    (fun count day =>
       let dayStr := format_yyyy_MM_dd day in
       (count +
        List.length
          (filter (fun h => bool_decide (date h = dayStr)
                            && bool_decide (type h = work)) holidays_))%nat)
    week 0%nat.

Definition weekClass (workHolidayCount : nat) : string :=
  if (workHolidayCount =? 1)%nat then "border-2 border-green-400 rounded mb-1"
  else if (1 <? workHolidayCount)%nat then "bg-green-200 rounded mb-1"
  else "mb-1".

Variable showOnlyHolidays_ : bool.
Variable now : Date.

Definition hasType (ty : HolidayType) (l : list Holiday) : bool :=
  existsb (fun h => bool_decide (type h = ty)) l.

Definition renderDay (monthDate : Date) (day : Date) : Cell :=
  let dayStr := format_yyyy_MM_dd day in
  let dayHolidays :=
    filter (fun h => bool_decide (date h = dayStr)) holidays_ in
  if showOnlyHolidays_ && (List.length dayHolidays =? 0)%nat then Blank
  else
    let hasWorkHoliday := hasType work dayHolidays in
    let hasRegularHoliday := hasType regular dayHolidays in
    let isCurrentMonth := getMonth monthDate =? getMonth day in
    let bgColor :=
      if isToday now day then "bg-blue-300"
      else if hasWorkHoliday then "bg-green-300"
      else if hasRegularHoliday then "bg-yellow-200"
      else "" in
    let textColor :=
      if isCurrentMonth then "text-gray-900" else "text-gray-400" in
    Shown (mkDayCell bgColor textColor None (format_d day)
      (if (0 <? List.length dayHolidays)%nat then
         Some (mkBadge "text-[10px] mt-1 text-gray-700"
           (join " "
              (map (fun h => if bool_decide (type h = work)
                             then "🏢" else "🎉") dayHolidays)))
       else None)).

Definition renderWeek (monthDate : Date) (week : list Date) : WeekRow :=
  let workHolidayCount := countWorkHolidaysInWeek week in
  mkWeekRow workHolidayCount
    ("grid grid-cols-7 gap-1 " +:+ weekClass workHolidayCount)
    (map (renderDay monthDate) week).

Definition renderMonth (monthDate : Date) : list WeekRow :=
  let days := getMonthDays monthDate in
  let weeks := getWeeks days in
  map (renderWeek monthDate) weeks.

End Render.

Definition render (now : Date) (s : State) : list (list WeekRow) :=
  map (renderMonth (holidays s) (showOnlyHolidays s) now)
      (months (baseDate s)).

End ImportView.

(* ================================================================== *)
(** ** Derived notions used in the statements *)
(* ================================================================== *)

(** Day numbers of the first and of the last day of the month of [t]. *)
Definition firstDay (t : Date) : Z :=
  DayFromYear (YearFromTime t) + monthStart (InLeapYear t) (MonthFromTime t).

Definition lastDay (t : Date) : Z :=
  DayFromYear (YearFromTime t)
  + monthStart (InLeapYear t) (MonthFromTime t + 1) - 1.

(** Day numbers of the Sunday that opens and of the Saturday that closes
    the grid of the month of [t]. *)
Definition gridStart (t : Date) : Z := firstDay t - (firstDay t + 4) mod 7.
Definition gridEnd (t : Date) : Z := lastDay t + 6 - (lastDay t + 4) mod 7.

(** The month as a function of the day within the year. *)
Definition monthOf (leap d : Z) : Z :=
  if d <? 31 then 0
  else if d <? 59 + leap then 1
  else if d <? 90 + leap then 2
  else if d <? 120 + leap then 3
  else if d <? 151 + leap then 4
  else if d <? 181 + leap then 5
  else if d <? 212 + leap then 6
  else if d <? 243 + leap then 7
  else if d <? 273 + leap then 8
  else if d <? 304 + leap then 9
  else if d <? 334 + leap then 10
  else 11.

(** Whether a day of a week adds its date to [uniqueDates]: it is in the
    month being rendered and some holiday of the given type falls on it. *)
Definition countsDay (hs : list Holiday) (ty : HolidayType) (currentMonth : Z)
  (day : Date) : bool :=
  (getMonth day =? currentMonth)
  && (0 <? List.length
             (filter (fun h => RemoteView.matchesDay (format_yyyy_MM_dd day) ty h)
                     hs))%nat.

(** The number of work-holiday records that fall on a day. *)
Definition workRecordsOn (hs : list Holiday) (day : Date) : nat :=
  List.length
    (filter (fun h => bool_decide (date h = format_yyyy_MM_dd day)
                      && bool_decide (type h = work)) hs).

(** The holidays a cell of the remote-service view carries: those of the
    day when it lies in the month of the panel, none otherwise. *)
Definition remoteDayHolidays (hs : list Holiday) (monthDate day : Date)
  : list Holiday :=
  if getMonth monthDate =? getMonth day
  then filter (fun h => bool_decide (date h = format_yyyy_MM_dd day)) hs
  else [].

(** The holidays a cell of the file-import view carries. *)
Definition importDayHolidays (hs : list Holiday) (day : Date) : list Holiday :=
  filter (fun h => bool_decide (date h = format_yyyy_MM_dd day)) hs.

(** [n] consecutive days from [t] on, each at the time of day of [t]. *)
Fixpoint daysFrom (n : nat) (t : Date) : list Date :=
  match n with
  | O => []
  | S n' => t :: daysFrom n' (t + msPerDay)
  end.

(** Decimal digits, as [format] writes them. *)
Definition digitChar (k : Z) : ascii := ascii_of_nat (48 + Z.to_nat k).

Definition twoDigits (n : Z) : string :=
  String (digitChar (n / 10)) (String (digitChar (n mod 10)) EmptyString).

Definition fourDigits (n : Z) : string :=
  String (digitChar (n / 1000))
    (String (digitChar ((n / 100) mod 10))
       (String (digitChar ((n / 10) mod 10))
          (String (digitChar (n mod 10)) EmptyString))).

(** [countHolidaysInWeek] of the remote-service view: as
    [countHolidaysInWeekByMonth], without the test on the month.  The
    component defines it and no longer calls it. *)
Definition countStepAll (holidays_ : list Holiday) (ty : HolidayType)
  (uniqueDates : gset string) (day : Date) : gset string :=
  let dateStr := format_yyyy_MM_dd day in
  let matching :=
    filter (fun h => RemoteView.matchesDay dateStr ty h) holidays_ in
  if (0 <? List.length matching)%nat
  then {[dateStr]} ∪ uniqueDates   (* count only once per date *)
  else uniqueDates.

Definition countHolidaysInWeek (holidays_ : list Holiday) (week : list Date)
  (ty : HolidayType) : nat :=
  size (fold_left (countStepAll holidays_ ty) week ∅).

(** Whether some holiday of the type falls on the day. *)
Definition hasHolidayOn (hs : list Holiday) (ty : HolidayType) (day : Date)
  : bool :=
  (0 <? List.length
          (filter (fun h => RemoteView.matchesDay (format_yyyy_MM_dd day) ty h)
                  hs))%nat.

(* ================================================================== *)
(** ** The events of the file-import view *)
(* ================================================================== *)

(** What the user can do in the file-import view: choose a file (or
    dismiss the dialog), tick the filter, press one of the two buttons.
    [handleICSFile] writes the state in one stretch, after its [await],
    and reads nothing of the state; so a choice of file acts as one
    event, at the time the text of the file has been read. *)
Inductive ImportEvent : Type :=
| ChooseFile (file : option string)
| ToggleFilter
| PressPrevious
| PressNext.

Section ImportRun.
Variable ICAL_vevents : string -> Exn (list ImportView.VEvent).

Definition importStep (s : ImportView.State) (ev : ImportEvent)
  : ImportView.State :=
  match ev with
  | ChooseFile file => ImportView.handleICSFile ICAL_vevents file s
  | ToggleFilter =>
      ImportView.setShowOnlyHolidays (negb (ImportView.showOnlyHolidays s)) s
  | PressPrevious =>
      ImportView.mkState (subMonths (ImportView.baseDate s) 1)
        (ImportView.holidays s) (ImportView.showOnlyHolidays s)
        (ImportView.alerts s) (ImportView.console s)
  | PressNext =>
      ImportView.mkState (addMonths (ImportView.baseDate s) 1)
        (ImportView.holidays s) (ImportView.showOnlyHolidays s)
        (ImportView.alerts s) (ImportView.console s)
  end.

(** The state after a sequence of events, the component having been
    mounted when the clock read [now]. *)
Definition importRun (now : Date) (events : list ImportEvent)
  : ImportView.State :=
  fold_left importStep events (ImportView.initialState now).

End ImportRun.

(* ================================================================== *)
(** ** The two stretches of the fetch *)
(* ================================================================== *)

(** The country selector's [onChange]. *)
Definition setCountryCode (v : string) (s : RemoteView.State)
  : RemoteView.State :=
  RemoteView.mkState (RemoteView.baseDate s) v (RemoteView.holidays s)
    (RemoteView.showOnlyHolidays s) (RemoteView.errorMessage s)
    (RemoteView.requests s) (RemoteView.console s).

(** [fetchHolidays] runs in two synchronous stretches, with the [await]s
    between them.  The first one clears the message and either refuses
    the country or hands the request to [fetch]; its second component is
    the URL asked, if any. *)
Definition fetchHolidays_start (s : RemoteView.State)
  : RemoteView.State * option string :=
  let s := RemoteView.setErrorMessage None s in
  if bool_decide (RemoteView.countryCode s = "IN") then
    (RemoteView.setErrorMessage (Some RemoteView.msgDataUnavailable)
       (RemoteView.setHolidays [] s),
     None)
  else
    let year := getFullYear (RemoteView.baseDate s) in
    let url := RemoteView.holidaysUrl year (RemoteView.countryCode s) in
    (RemoteView.logRequest url s, Some url).

(** The second stretch runs when the request has settled with [o], on
    the state as it is by then. *)
Definition fetchHolidays_settle (tza : Z) (o : RemoteView.FetchOutcome)
  (s : RemoteView.State) : RemoteView.State :=
  match RemoteView.tryBody tza o with
  | Return parsed => RemoteView.setHolidays parsed s
  | Throw error =>
      RemoteView.setErrorMessage (Some RemoteView.msgFetchFailed)
        (RemoteView.setHolidays [] (RemoteView.consoleError error s))
  end.

(* ================================================================== *)
(** ** The grid in a zone whose offset changes *)
(* ================================================================== *)

(** A local zone whose offset from UTC changes at most once: the offsets
    before and after the change, in milliseconds east of UTC, and the
    UTC instant of the change. *)
Record Zone : Type := mkZone {
  zoneBefore : Z;
  zoneAfter : Z;
  zoneChange : Z
}.

(** The helpers of [getMonthDays] once more, with a [Date] identified
    with its UTC time value, as the engine stores it, and read through
    the zone. *)
Module Zoned.
Section InZone.
Variable z : Zone.

Definition offsetAt (tv : Z) : Z :=
  if tv <? zoneChange z then zoneBefore z else zoneAfter z.

Definition LocalTime (tv : Z) : Z := tv + offsetAt tv.

(** A local time that the change skips or repeats is read with the
    offset before the change. *)
Definition UTC (t : Z) : Z :=
  if t <? zoneChange z + Z.max (zoneBefore z) (zoneAfter z)
  then t - zoneBefore z else t - zoneAfter z.

Definition getFullYear (d : Date) : Z := JsDate.getFullYear (LocalTime d).
Definition getMonth (d : Date) : Z := JsDate.getMonth (LocalTime d).
Definition getDate (d : Date) : Z := JsDate.getDate (LocalTime d).
Definition getDay (d : Date) : Z := JsDate.getDay (LocalTime d).

Definition setDate (d : Date) (dt : Z) : Date :=
  UTC (JsDate.setDate (LocalTime d) dt).

Definition setHours (d : Date) (h m s ms : Z) : Date :=
  UTC (JsDate.setHours (LocalTime d) h m s ms).

Definition setFullYear (d : Date) (y m dt : Z) : Date :=
  UTC (JsDate.setFullYear (LocalTime d) y m dt).

Definition startOfMonth (d : Date) : Date :=
  setHours (setDate d 1) 0 0 0 0.

Definition endOfMonth (d : Date) : Date :=
  let month := getMonth d in
  setHours (setFullYear d (getFullYear d) (month + 1) 0) 23 59 59 999.

Definition startOfWeek (d : Date) (weekStartsOn : Z) : Date :=
  let day := getDay d in
  let diff := (if day <? weekStartsOn then 7 else 0) + day - weekStartsOn in
  setHours (setDate d (getDate d - diff)) 0 0 0 0.

Definition endOfWeek (d : Date) (weekStartsOn : Z) : Date :=
  let day := getDay d in
  let diff :=
    (if day <? weekStartsOn then -7 else 0) + 6 - (day - weekStartsOn) in
  setHours (setDate d (getDate d + diff)) 23 59 59 999.

Definition addDays (d : Date) (amount : Z) : Date :=
  if amount =? 0 then d else setDate d (getDate d + amount).

Fixpoint getMonthDays_loop (fuel : nat) (day end_ : Date) (days : list Date)
  : option (list Date) :=
  match fuel with
  | O => None
  | S fuel' =>
      if day <=? end_
      then getMonthDays_loop fuel' (addDays day 1) end_ (days ++ [day])
      else Some days
  end.

Definition getMonthDays (baseDate : Date) : list Date :=
  let start := startOfWeek (startOfMonth baseDate) 0 in
  let end_ := endOfWeek (endOfMonth baseDate) 0 in
  default [] (getMonthDays_loop 43 start end_ []).

End InZone.
End Zoned.

(** Samoa: ten hours behind UTC until the end of 29 December 2011, which
    was 10:00 UTC on the 30th, and fourteen hours ahead from then on; the
    local day 30 December 2011 does not exist. *)
Definition pacificApia : Zone :=
  mkZone (-36000000) 50400000 (ofYMD 2011 11 30 + 36000000).

(* ================================================================== *)
(** ** Facts about the calendar *)
(* ================================================================== *)

(** Linear arithmetic with the quotients and remainders spelled out. *)
Ltac zlia := Z.div_mod_to_equations; lia.

Lemma DaysInYear_cases y : DaysInYear y = 365 \/ DaysInYear y = 366.
Proof. unfold DaysInYear. repeat destruct (negb _); auto. Qed.

Lemma DayFromYear_succ y : DayFromYear (y + 1) = DayFromYear y + DaysInYear y.
Proof.
  unfold DayFromYear, DaysInYear.
  destruct (Z.eqb_spec (y mod 4) 0); simpl negb; cbv iota.
  2: zlia. 
  destruct (Z.eqb_spec (y mod 100) 0); simpl negb; cbv iota.
  2: zlia.
  destruct (Z.eqb_spec (y mod 400) 0); simpl negb; cbv iota; zlia.
Qed.

Lemma DayFromYear_mono y y' : y <= y' -> DayFromYear y <= DayFromYear y'.
Proof. unfold DayFromYear. zlia. Qed.

Lemma YearFromTime_spec t :
  DayFromYear (YearFromTime t) <= Day t < DayFromYear (YearFromTime t + 1).
Proof.
  unfold YearFromTime. generalize (Day t) as d. intros d. cbv zeta.
  destruct (Z.leb_spec (DayFromYear (1970 + 400 * d / 146097 + 1)) d).
  - split; [lia|]. unfold DayFromYear in *. zlia.
  - destruct (Z.leb_spec (DayFromYear (1970 + 400 * d / 146097)) d).
    + lia.
    + split; [|replace (1970 + 400 * d / 146097 - 1 + 1) with (1970 + 400 * d / 146097) by lia; lia].
      unfold DayFromYear in *. zlia.
Qed.

Lemma YearFromTime_unique t y :
  DayFromYear y <= Day t < DayFromYear (y + 1) -> YearFromTime t = y.
Proof.
  intros Hy. pose proof (YearFromTime_spec t) as Hs.
  destruct (Z.lt_trichotomy (YearFromTime t) y) as [Hlt | [Heq | Hgt]]; [|done|].
  - pose proof (DayFromYear_mono (YearFromTime t + 1) y ltac:(lia)). lia.
  - pose proof (DayFromYear_mono (y + 1) (YearFromTime t) ltac:(lia)). lia.
Qed.

Lemma InLeapYear_cases t :
  (InLeapYear t = 0 /\ DaysInYear (YearFromTime t) = 365) \/
  (InLeapYear t = 1 /\ DaysInYear (YearFromTime t) = 366).
Proof.
  unfold InLeapYear. destruct (DaysInYear_cases (YearFromTime t)) as [-> | ->]; auto.
Qed.

Lemma DayWithinYear_range t : 0 <= DayWithinYear t < 365 + InLeapYear t.
Proof.
  unfold DayWithinYear. pose proof (YearFromTime_spec t) as Hs.
  rewrite DayFromYear_succ in Hs.
  destruct (InLeapYear_cases t) as [[-> E] | [-> E]]; lia.
Qed.

Ltac case_ltb :=
  repeat match goal with
    | |- context [?a <? ?b] => destruct (Z.ltb_spec a b)
    end.

Lemma MonthFromTime_range t : 0 <= MonthFromTime t <= 11.
Proof. unfold MonthFromTime. case_ltb; lia. Qed.

Lemma month_bounds t :
  monthStart (InLeapYear t) (MonthFromTime t) <= DayWithinYear t
    < monthStart (InLeapYear t) (MonthFromTime t + 1).
Proof.
  pose proof (DayWithinYear_range t).
  unfold MonthFromTime. case_ltb; simpl; lia.
Qed.

Lemma DateFromTime_range t : 1 <= DateFromTime t <= 31.
Proof.
  pose proof (month_bounds t) as Hb. pose proof (MonthFromTime_range t) as Hr.
  unfold DateFromTime.
  destruct (InLeapYear_cases t) as [[E _] | [E _]]; rewrite E in *;
  assert (Hm : MonthFromTime t ∈ [0;1;2;3;4;5;6;7;8;9;10;11]) by
    (rewrite !elem_of_cons; lia);
  rewrite !elem_of_cons in Hm; 
  repeat (destruct Hm as [Hm | Hm]; [rewrite Hm in *; simpl in *; lia|]);
  by apply elem_of_nil in Hm.
Qed.

Lemma MakeDay_in_month y m dt :
  0 <= m <= 11 ->
  MakeDay y m dt =
  DayFromYear y + monthStart (if DaysInYear y =? 366 then 1 else 0) m + dt - 1.
Proof.
  intros Hm. unfold MakeDay.
  replace (m / 12) with 0 by zlia. replace (m mod 12) with m by zlia.
  by rewrite Z.add_0_r.
Qed.

Lemma MakeDay_rel t k :
  MakeDay (YearFromTime t) (MonthFromTime t) (DateFromTime t + k) = Day t + k.
Proof.
  rewrite MakeDay_in_month by apply MonthFromTime_range.
  unfold DateFromTime, DayWithinYear, InLeapYear. lia.
Qed.

Lemma Day_MakeDate d tm :
  0 <= tm < msPerDay -> Day (MakeDate d tm) = d.
Proof. unfold Day, MakeDate, msPerDay. intros. zlia. Qed.


Lemma setDate_rel t k : setDate t (getDate t + k) = t + k * msPerDay.
Proof.
  unfold setDate, getDate. rewrite MakeDay_rel.
  unfold MakeDate, Day, TimeWithinDay, msPerDay. zlia.
Qed.

Lemma addDays_eq t n : addDays t n = t + n * msPerDay.
Proof.
  unfold addDays. destruct (Z.eqb_spec n 0) as [-> | _]; [lia | apply setDate_rel].
Qed.

Lemma month_length t : 28 <= lastDay t - firstDay t + 1 <= 31.
Proof.
  unfold lastDay, firstDay. pose proof (MonthFromTime_range t) as Hr.
  destruct (InLeapYear_cases t) as [[E _] | [E _]]; rewrite E;
  assert (Hm : MonthFromTime t ∈ [0;1;2;3;4;5;6;7;8;9;10;11]) by
    (rewrite !elem_of_cons; lia);
  rewrite !elem_of_cons in Hm;
  repeat (destruct Hm as [Hm | Hm]; [rewrite Hm; simpl; lia|]);
  by apply elem_of_nil in Hm.
Qed.

Lemma Day_in_month t : firstDay t <= Day t <= lastDay t.
Proof.
  pose proof (month_bounds t). unfold firstDay, lastDay, DayWithinYear in *. lia.
Qed.

Lemma setHours_eq t h m s ms : setHours t h m s ms = Day t * msPerDay + MakeTime h m s ms.
Proof. reflexivity. Qed.

Lemma startOfMonth_eq t : startOfMonth t = firstDay t * msPerDay.
Proof.
  unfold startOfMonth. rewrite setHours_eq.
  replace (setDate t 1) with (setDate t (getDate t + (1 - getDate t))) by (f_equal; lia).
  rewrite setDate_rel. unfold getDate, DateFromTime, DayWithinYear, firstDay.
  unfold MakeTime, Day, msPerDay. zlia.
Qed.

Lemma endOfMonth_eq t : endOfMonth t = lastDay t * msPerDay + 86399999.
Proof.
  unfold endOfMonth, setFullYear, getFullYear, getMonth. cbv zeta.
  rewrite setHours_eq.
  assert (MakeDay (YearFromTime t) (MonthFromTime t + 1) 0 = lastDay t) as ->.
  { pose proof (MonthFromTime_range t) as Hr. unfold lastDay.
    destruct (Z.eq_dec (MonthFromTime t) 11) as [E | NE].
    - rewrite E. unfold MakeDay. simpl Z.add at 2.
      change (12 / 12) with 1. change (12 mod 12) with 0.
      rewrite DayFromYear_succ. unfold InLeapYear. simpl monthStart.
      destruct (DaysInYear_cases (YearFromTime t)) as [-> | ->]; simpl; lia.
    - rewrite MakeDay_in_month by lia. unfold InLeapYear. lia. }
  rewrite Day_MakeDate; [reflexivity|].
  unfold TimeWithinDay, msPerDay. zlia.
Qed.

Lemma startOfWeek_eq t : startOfWeek t 0 = (Day t - WeekDay t) * msPerDay.
Proof.
  unfold startOfWeek, getDay. cbv zeta.
  assert (0 <= WeekDay t < 7) by (unfold WeekDay; zlia).
  destruct (Z.ltb_spec (WeekDay t) 0); [lia|].
  rewrite setHours_eq.
  replace (getDate t - (0 + WeekDay t - 0)) with (getDate t + (- WeekDay t)) by lia.
  rewrite setDate_rel. unfold MakeTime, Day, msPerDay. zlia.
Qed.

Lemma endOfWeek_eq t : endOfWeek t 0 = (Day t + 6 - WeekDay t) * msPerDay + 86399999.
Proof.
  unfold endOfWeek, getDay. cbv zeta.
  assert (0 <= WeekDay t < 7) by (unfold WeekDay; zlia).
  destruct (Z.ltb_spec (WeekDay t) 0); [lia|].
  rewrite setHours_eq.
  replace (getDate t + (0 + 6 - (WeekDay t - 0))) with (getDate t + (6 - WeekDay t)) by lia.
  rewrite setDate_rel. unfold MakeTime, Day, msPerDay. zlia.
Qed.

Lemma Day_mul d : Day (d * msPerDay) = d.
Proof. unfold Day, msPerDay. zlia. Qed.

Lemma Day_mul_add d r : 0 <= r < msPerDay -> Day (d * msPerDay + r) = d.
Proof. unfold Day, msPerDay. intros. zlia. Qed.

Lemma grid_bounds_eq t :
  startOfWeek (startOfMonth t) 0 = gridStart t * msPerDay /\
  endOfWeek (endOfMonth t) 0 = gridEnd t * msPerDay + 86399999.
Proof.
  rewrite startOfWeek_eq, endOfWeek_eq, startOfMonth_eq, endOfMonth_eq.
  unfold WeekDay. rewrite Day_mul, Day_mul_add by (unfold msPerDay; lia).
  unfold gridStart, gridEnd. split; reflexivity.
Qed.

Lemma getMonthDays_loop_run (n : nat) : forall fuel d e acc,
  Z.of_nat n = e - d + 1 ->
  (n < fuel)%nat ->
  getMonthDays_loop fuel (d * msPerDay) (e * msPerDay + 86399999) acc
  = Some (acc ++ daysFrom n (d * msPerDay)).
Proof.
  induction n as [|n IH]; intros fuel d e acc Hn Hf.
  - destruct fuel as [|fuel]; [lia|]. cbn [getMonthDays_loop].
    destruct (Z.leb_spec (d * msPerDay) (e * msPerDay + 86399999)) as [H|H].
    + unfold msPerDay in H. lia.
    + by rewrite app_nil_r.
  - destruct fuel as [|fuel]; [lia|]. cbn [getMonthDays_loop].
    destruct (Z.leb_spec (d * msPerDay) (e * msPerDay + 86399999)) as [H|H].
    2: { unfold msPerDay in H. lia. }
    rewrite addDays_eq.
    replace (d * msPerDay + 1 * msPerDay) with ((d + 1) * msPerDay) by lia.
    rewrite (IH fuel (d + 1) e) by lia.
    rewrite <- app_assoc. cbn [daysFrom app].
    by replace (d * msPerDay + msPerDay) with ((d + 1) * msPerDay) by lia.
Qed.

Lemma daysFrom_length n t : List.length (daysFrom n t) = n.
Proof. revert t. induction n; intros; simpl; auto. Qed.

Lemma daysFrom_addDays n t :
  daysFrom n t = map (fun k => addDays t (Z.of_nat k)) (seq 0 n).
Proof.
  revert t. induction n as [|n IH]; intros t; [done|].
  cbn [daysFrom seq map]. rewrite addDays_eq, Z.add_0_r. f_equal.
  rewrite IH, <- seq_shift, map_map. apply map_ext. intros k.
  rewrite !addDays_eq. lia.
Qed.

Lemma grid_length t :
  exists n : nat, (n = 4 \/ n = 5 \/ n = 6)%nat /\
    gridEnd t - gridStart t + 1 = 7 * Z.of_nat n.
Proof.
  pose proof (month_length t) as Hl. unfold gridEnd, gridStart.
  assert (Hdiv : (lastDay t + 6 - (lastDay t + 4) mod 7
                  - (firstDay t - (firstDay t + 4) mod 7) + 1) mod 7 = 0) by zlia.
  set (x := lastDay t + 6 - (lastDay t + 4) mod 7
            - (firstDay t - (firstDay t + 4) mod 7) + 1) in *.
  assert (28 <= x <= 43) by (subst x; zlia).
  assert (x = 28 \/ x = 35 \/ x = 42) as [-> | [-> | ->]] by zlia.
  - exists 4%nat. lia.
  - exists 5%nat. lia.
  - exists 6%nat. lia.
Qed.

Lemma getMonthDays_fuel_run t fuel :
  (43 <= fuel)%nat ->
  getMonthDays_fuel fuel t =
  Some (daysFrom (Z.to_nat (gridEnd t - gridStart t + 1)) (gridStart t * msPerDay)).
Proof.
  intros Hf. unfold getMonthDays_fuel. cbv zeta.
  destruct (grid_bounds_eq t) as [-> ->].
  destruct (grid_length t) as (n & Hn & E).
  rewrite (getMonthDays_loop_run (Z.to_nat (gridEnd t - gridStart t + 1))); [done | lia | lia].
Qed.

Ltac month_chain :=
  repeat match goal with
    | |- context [if ?a <? ?b then _ else _] =>
        destruct (Z.ltb_spec a b); cbv iota
    end.

Lemma monthStart_range leap m :
  0 <= leap <= 1 -> 0 <= m <= 12 -> 0 <= monthStart leap m <= 365 + leap.
Proof.
  intros Hl Hm.
  assert (Hin : m ∈ [0;1;2;3;4;5;6;7;8;9;10;11;12]) by (rewrite !elem_of_cons; lia).
  rewrite !elem_of_cons in Hin.
  repeat (destruct Hin as [Hin | Hin]; [rewrite Hin; simpl; lia|]).
  by apply elem_of_nil in Hin.
Qed.

Lemma InLeapYear_range t : 0 <= InLeapYear t <= 1.
Proof. destruct (InLeapYear_cases t) as [[-> _] | [-> _]]; lia. Qed.

Lemma monthOf_unique leap w m :
  0 <= leap <= 1 -> 0 <= m <= 11 ->
  monthStart leap m <= w < monthStart leap (m + 1) ->
  monthOf leap w = m.
Proof.
  intros Hl Hr Hw. unfold monthOf.
  assert (Hin : m ∈ [0;1;2;3;4;5;6;7;8;9;10;11]) by (rewrite !elem_of_cons; lia).
  rewrite !elem_of_cons in Hin.
  repeat (destruct Hin as [Hin | Hin];
          [subst m; simpl in Hw; month_chain; lia|]).
  by apply elem_of_nil in Hin.
Qed.

Lemma firstDay_unfold t : firstDay t = DayFromYear (YearFromTime t) + monthStart (InLeapYear t) (MonthFromTime t).
Proof. reflexivity. Qed.
Lemma lastDay_unfold t : lastDay t = DayFromYear (YearFromTime t) + monthStart (InLeapYear t) (MonthFromTime t + 1) - 1.
Proof. reflexivity. Qed.
Lemma InLeapYear_unfold t : InLeapYear t = if DaysInYear (YearFromTime t) =? 366 then 1 else 0.
Proof. reflexivity. Qed.

Lemma YearFromTime_in_month a t :
  firstDay a <= Day t <= lastDay a -> YearFromTime t = YearFromTime a.
Proof.
  intros Hd. pose proof (MonthFromTime_range a) as Hr.
  pose proof (InLeapYear_range a) as Hl.
  pose proof (monthStart_range (InLeapYear a) (MonthFromTime a) Hl ltac:(lia)).
  pose proof (monthStart_range (InLeapYear a) (MonthFromTime a + 1) Hl ltac:(lia)).
  apply YearFromTime_unique. rewrite DayFromYear_succ.
  rewrite firstDay_unfold, lastDay_unfold in Hd.
  destruct (InLeapYear_cases a) as [[E1 E2] | [E1 E2]]; lia.
Qed.

Lemma InLeapYear_same_year a t :
  YearFromTime t = YearFromTime a -> InLeapYear t = InLeapYear a.
Proof. intros Hy. rewrite !InLeapYear_unfold. by rewrite Hy. Qed.

Lemma MonthFromTime_monthOf t :
  MonthFromTime t = monthOf (InLeapYear t) (DayWithinYear t).
Proof. reflexivity. Qed.

Lemma DayWithinYear_unfold t : DayWithinYear t = Day t - DayFromYear (YearFromTime t).
Proof. reflexivity. Qed.

Lemma same_month_iff a t :
  (getFullYear t = getFullYear a /\ getMonth t = getMonth a) <->
  firstDay a <= Day t <= lastDay a.
Proof.
  unfold getFullYear, getMonth. split.
  - intros [Hy Hm]. pose proof (Day_in_month t) as Hd.
    pose proof (InLeapYear_same_year a t Hy) as Hl.
    rewrite firstDay_unfold, lastDay_unfold in *.
    rewrite <- Hy, <- Hm, <- Hl. exact Hd.
  - intros Hd. pose proof (YearFromTime_in_month a t Hd) as Hy.
    split; [done|].
    pose proof (MonthFromTime_range a) as Hr.
    pose proof (InLeapYear_range a) as Hl.
    rewrite MonthFromTime_monthOf, (InLeapYear_same_year a t Hy).
    apply monthOf_unique; [lia | lia |].
    rewrite DayWithinYear_unfold, Hy.
    rewrite firstDay_unfold, lastDay_unfold in Hd. lia.
Qed.

(* ================================================================== *)
(** ** The month grid *)
(* ================================================================== *)

Lemma In_daysFrom n : forall t x,
  In x (daysFrom n t) <-> exists k : nat, (k < n)%nat /\ x = t + Z.of_nat k * msPerDay.
Proof.
  induction n as [|n IH]; intros t x; cbn [daysFrom In].
  - split; [done | intros (k & Hk & _); lia].
  - rewrite IH. split.
    + intros [<- | (k & Hk & ->)].
      * exists 0%nat. split; lia.
      * exists (S k). split; lia.
    + intros (k & Hk & ->). destruct k as [|k].
      * left. lia.
      * right. exists k. split; lia.
Qed.

Lemma head_daysFrom n t : (0 < n)%nat -> head (daysFrom n t) = Some t.
Proof. destruct n; [lia | done]. Qed.

Lemma last_daysFrom n : forall t,
  last (daysFrom (S n) t) = Some (t + Z.of_nat n * msPerDay).
Proof.
  induction n as [|n IH]; intros t.
  - cbn. f_equal. lia.
  - change (daysFrom (S (S n)) t) with (t :: daysFrom (S n) (t + msPerDay)).
    rewrite last_cons, IH. f_equal. lia.
Qed.

Lemma getMonthDays_eq t :
  getMonthDays t =
  daysFrom (Z.to_nat (gridEnd t - gridStart t + 1)) (gridStart t * msPerDay).
Proof. unfold getMonthDays. by rewrite getMonthDays_fuel_run. Qed.

Lemma WeekDay_mul d : WeekDay (d * msPerDay) = (d + 4) mod 7.
Proof. unfold WeekDay. by rewrite Day_mul. Qed.

Lemma grid_covers_month t :
  gridStart t <= firstDay t < gridStart t + 7 /\
  gridEnd t - 6 <= lastDay t <= gridEnd t /\
  (gridStart t + 4) mod 7 = 0 /\ (gridEnd t + 4) mod 7 = 6.
Proof. unfold gridStart, gridEnd. zlia. Qed.

Lemma startOfDay_eq t : startOfDay t = Day t * msPerDay.
Proof. unfold startOfDay. rewrite setHours_eq. unfold MakeTime. lia. Qed.

(** In a zone with one offset throughout, each helper on UTC time values
    is the helper on local time values, carried over by the offset. *)
Section ConstantZone.
Variable z : Zone.
Hypothesis Hconst : zoneBefore z = zoneAfter z.

Lemma LocalTime_const tv : Zoned.LocalTime z tv = tv + zoneBefore z.
Proof.
  unfold Zoned.LocalTime, Zoned.offsetAt. rewrite <- Hconst.
  by destruct (_ <? _).
Qed.

Lemma UTC_const t : Zoned.UTC z t = t - zoneBefore z.
Proof. unfold Zoned.UTC. rewrite <- Hconst. by destruct (_ <? _). Qed.

Lemma zoned_setDate_const d dt :
  Zoned.setDate z (d - zoneBefore z) dt = setDate d dt - zoneBefore z.
Proof.
  unfold Zoned.setDate. rewrite UTC_const, LocalTime_const.
  by replace (d - zoneBefore z + zoneBefore z) with d by lia.
Qed.

Lemma zoned_setHours_const d h m s ms :
  Zoned.setHours z (d - zoneBefore z) h m s ms = setHours d h m s ms - zoneBefore z.
Proof.
  unfold Zoned.setHours. rewrite UTC_const, LocalTime_const.
  by replace (d - zoneBefore z + zoneBefore z) with d by lia.
Qed.

Lemma zoned_setFullYear_const d y m dt :
  Zoned.setFullYear z (d - zoneBefore z) y m dt = setFullYear d y m dt - zoneBefore z.
Proof.
  unfold Zoned.setFullYear. rewrite UTC_const, LocalTime_const.
  by replace (d - zoneBefore z + zoneBefore z) with d by lia.
Qed.

Lemma zoned_accessors_const d :
  Zoned.getFullYear z (d - zoneBefore z) = getFullYear d /\
  Zoned.getMonth z (d - zoneBefore z) = getMonth d /\
  Zoned.getDate z (d - zoneBefore z) = getDate d /\
  Zoned.getDay z (d - zoneBefore z) = getDay d.
Proof.
  unfold Zoned.getFullYear, Zoned.getMonth, Zoned.getDate, Zoned.getDay.
  rewrite LocalTime_const.
  by replace (d - zoneBefore z + zoneBefore z) with d by lia.
Qed.

Lemma zoned_startOfMonth_const d :
  Zoned.startOfMonth z (d - zoneBefore z) = startOfMonth d - zoneBefore z.
Proof.
  unfold Zoned.startOfMonth. rewrite (zoned_setDate_const d 1).
  exact (zoned_setHours_const (setDate d 1) 0 0 0 0).
Qed.

Lemma zoned_endOfMonth_const d :
  Zoned.endOfMonth z (d - zoneBefore z) = endOfMonth d - zoneBefore z.
Proof.
  unfold Zoned.endOfMonth. cbv zeta.
  destruct (zoned_accessors_const d) as (-> & -> & _).
  rewrite (zoned_setFullYear_const d (getFullYear d) (getMonth d + 1) 0).
  exact (zoned_setHours_const _ 23 59 59 999).
Qed.

Lemma zoned_startOfWeek_const d w :
  Zoned.startOfWeek z (d - zoneBefore z) w = startOfWeek d w - zoneBefore z.
Proof.
  unfold Zoned.startOfWeek. cbv zeta.
  destruct (zoned_accessors_const d) as (_ & _ & -> & ->).
  rewrite (zoned_setDate_const d _).
  exact (zoned_setHours_const _ 0 0 0 0).
Qed.

Lemma zoned_endOfWeek_const d w :
  Zoned.endOfWeek z (d - zoneBefore z) w = endOfWeek d w - zoneBefore z.
Proof.
  unfold Zoned.endOfWeek. cbv zeta.
  destruct (zoned_accessors_const d) as (_ & _ & -> & ->).
  rewrite (zoned_setDate_const d _).
  exact (zoned_setHours_const _ 23 59 59 999).
Qed.

Lemma zoned_addDays_const d n :
  Zoned.addDays z (d - zoneBefore z) n = addDays d n - zoneBefore z.
Proof.
  unfold Zoned.addDays. unfold addDays. destruct (n =? 0); [reflexivity|].
  destruct (zoned_accessors_const d) as (_ & _ & -> & _).
  exact (zoned_setDate_const d _).
Qed.

Lemma zoned_loop_const (fuel : nat) : forall d e acc,
  Zoned.getMonthDays_loop z fuel (d - zoneBefore z) (e - zoneBefore z)
    (map (fun t => t - zoneBefore z) acc)
  = option_map (map (fun t => t - zoneBefore z)) (getMonthDays_loop fuel d e acc).
Proof.
  induction fuel as [|fuel IH]; intros d e acc; [done|].
  cbn [Zoned.getMonthDays_loop getMonthDays_loop].
  replace (d - zoneBefore z <=? e - zoneBefore z) with (d <=? e).
  2: { destruct (Z.leb_spec d e), (Z.leb_spec (d - zoneBefore z) (e - zoneBefore z));
       try reflexivity; lia. }
  destruct (d <=? e); [|done].
  rewrite (zoned_addDays_const d 1).
  change [d - zoneBefore z] with (map (fun t => t - zoneBefore z) [d]).
  rewrite <- List.map_app. apply IH.
Qed.

End ConstantZone.

(** With one offset throughout, [getMonthDays] on UTC time values is
    [getMonthDays] on local time values, carried over by the offset. *)
Lemma zoned_getMonthDays_const (z : Zone) (d : Date) :
  zoneBefore z = zoneAfter z ->
  Zoned.getMonthDays z (d - zoneBefore z)
  = map (fun t => t - zoneBefore z) (getMonthDays d).
Proof.
  intros Hc. unfold Zoned.getMonthDays. cbv zeta.
  rewrite (zoned_startOfMonth_const z Hc d), (zoned_endOfMonth_const z Hc d).
  rewrite (zoned_startOfWeek_const z Hc (startOfMonth d) 0).
  rewrite (zoned_endOfWeek_const z Hc (endOfMonth d) 0).
  change (@nil Date) with (map (fun t => t - zoneBefore z) (@nil Date)) at 2.
  rewrite (zoned_loop_const z Hc 43).
  unfold getMonthDays, getMonthDays_fuel.
  by destruct (getMonthDays_loop 43 _ _ _).
Qed.

Lemma zoned_getMonthDays_UTC (z : Zone) (d : Date) :
  zoneBefore z = zoneAfter z ->
  Zoned.getMonthDays z (Zoned.UTC z d) = map (Zoned.UTC z) (getMonthDays d).
Proof.
  intros Hc. rewrite (UTC_const z Hc d), (zoned_getMonthDays_const z d Hc).
  apply map_ext. intros t. symmetry. apply (UTC_const z Hc).
Qed.

(** C5 (as amended).  In a local zone whose offset from UTC does not
    change (so that no local day is skipped or repeated; this is how
    [Date] is modelled here), for every anchor date the loop of
    [getMonthDays] ends within forty-three turns and returns four, five
    or six complete weeks (28, 35 or 42 dates, not always 42):
    consecutive days in order, from the Sunday on or before the first day
    of the anchor's month to the Saturday on or after its last day, among
    them the day of every instant of the anchor's month.  The last part
    states the condition: on UTC time values, read through a zone with
    one offset, the loop returns this very grid, instant by instant. *)
Theorem getMonthDays_grid (anchor : Date) :
  exists n : nat,
    (n = 4 \/ n = 5 \/ n = 6)%nat /\
    (forall fuel, (43 <= fuel)%nat ->
       getMonthDays_fuel fuel anchor = Some (getMonthDays anchor)) /\
    List.length (getMonthDays anchor) = (7 * n)%nat /\
    getMonthDays anchor =
      map (fun k => addDays (startOfWeek (startOfMonth anchor) 0) (Z.of_nat k))
          (seq 0 (7 * n)) /\
    (exists first,
       head (getMonthDays anchor) = Some first /\ getDay first = 0 /\
       first <= startOfMonth anchor < addDays first 7) /\
    (exists last_,
       last (getMonthDays anchor) = Some last_ /\ getDay last_ = 6 /\
       addDays last_ (-6) <= startOfDay (endOfMonth anchor) <= last_) /\
    (forall t, getFullYear t = getFullYear anchor ->
               getMonth t = getMonth anchor ->
               In (startOfDay t) (getMonthDays anchor)) /\
    (forall z : Zone, zoneBefore z = zoneAfter z ->
       Zoned.getMonthDays z (Zoned.UTC z anchor)
       = map (Zoned.UTC z) (getMonthDays anchor)).
Proof.
  destruct (grid_length anchor) as (n & Hn & E).
  destruct (grid_covers_month anchor) as (Hs & He & Hsun & Hsat).
  assert (EN : Z.to_nat (gridEnd anchor - gridStart anchor + 1) = (7 * n)%nat) by lia.
  assert (Hzone : forall z : Zone, zoneBefore z = zoneAfter z ->
       Zoned.getMonthDays z (Zoned.UTC z anchor)
       = map (Zoned.UTC z) (getMonthDays anchor))
    by (intros z Hc; by apply zoned_getMonthDays_UTC).
  revert Hzone.
  exists n. split; [done|].
  split. { intros fuel Hf. by rewrite getMonthDays_fuel_run, getMonthDays_eq. }
  revert Hzone. rewrite getMonthDays_eq, EN. intros Hzone.
  split. { apply daysFrom_length. }
  split. { rewrite daysFrom_addDays. by destruct (grid_bounds_eq anchor) as [-> _]. }
  split.
  { exists (gridStart anchor * msPerDay).
    split; [apply head_daysFrom; lia|].
    split; [unfold getDay; by rewrite WeekDay_mul|].
    rewrite startOfMonth_eq, addDays_eq. unfold msPerDay. lia. }
  split.
  { exists (gridEnd anchor * msPerDay).
    split.
    - destruct (7 * n)%nat as [|m] eqn:Em; [lia|].
      rewrite last_daysFrom. f_equal. lia.
    - split; [unfold getDay; by rewrite WeekDay_mul|].
      rewrite startOfDay_eq, endOfMonth_eq, addDays_eq.
      rewrite Day_mul_add by (unfold msPerDay; lia).
      unfold msPerDay. lia. }
  split; [|exact Hzone].
  intros t Hy Hm.
  pose proof (proj1 (same_month_iff anchor t) (conj Hy Hm)) as Hd.
  apply In_daysFrom. exists (Z.to_nat (Day t - gridStart anchor)).
  split; [lia|]. rewrite startOfDay_eq, Z2Nat.id by lia. lia.
Qed.

(** C5, the claim at its failing inputs.  "Exactly 42 dates": June 2025
    begins on a Sunday and its grid, 1 June to 5 July, has 35 dates.
    "For every anchor date", when the zone changes its offset: in Samoa
    the grid of December 2011 has 34 dates, the 29th being followed by
    the 31st. *)
Lemma getMonthDays_june_2025_has_35 :
  List.length (getMonthDays (ofYMD 2025 5 10)) = 35%nat /\
  List.length (getMonthDays (ofYMD 2025 5 10)) <> 42%nat /\
  head (getMonthDays (ofYMD 2025 5 10)) = Some (ofYMD 2025 5 1) /\
  last (getMonthDays (ofYMD 2025 5 10)) = Some (ofYMD 2025 6 5) /\
  List.length (Zoned.getMonthDays pacificApia
                 (Zoned.UTC pacificApia (ofYMD 2011 11 15))) = 34%nat /\
  map (fun d => (Zoned.getMonth pacificApia d + 1, Zoned.getDate pacificApia d))
    (drop 28 (Zoned.getMonthDays pacificApia
                (Zoned.UTC pacificApia (ofYMD 2011 11 15))))
  = [(12, 25); (12, 26); (12, 27); (12, 28); (12, 29); (12, 31)].
Proof. vm_compute. repeat split; congruence. Qed.

Lemma firstDay_le_lastDay t : firstDay t <= lastDay t.
Proof. pose proof (month_length t). lia. Qed.

Lemma DateFromTime_unfold t :
  DateFromTime t =
  DayWithinYear t - monthStart (InLeapYear t) (MonthFromTime t) + 1.
Proof. reflexivity. Qed.

Lemma getFullYear_unfold d : getFullYear d = YearFromTime d.
Proof. reflexivity. Qed.

Lemma getMonth_unfold d : getMonth d = MonthFromTime d.
Proof. reflexivity. Qed.

Lemma getDate_unfold d : getDate d = DateFromTime d.
Proof. reflexivity. Qed.

(** The first instant of the month is its day 1, in the same month. *)
Lemma startOfMonth_civil a :
  getFullYear (startOfMonth a) = getFullYear a /\
  getMonth (startOfMonth a) = getMonth a /\
  getDate (startOfMonth a) = 1.
Proof.
  pose proof (firstDay_le_lastDay a) as Hle.
  assert (Hd : Day (startOfMonth a) = firstDay a)
    by (rewrite startOfMonth_eq; apply Day_mul).
  destruct (proj2 (same_month_iff a (startOfMonth a)) ltac:(lia)) as [Hy Hm].
  split; [done|]. split; [done|].
  rewrite (getFullYear_unfold (startOfMonth a)), (getFullYear_unfold a) in Hy.
  rewrite (getMonth_unfold (startOfMonth a)), (getMonth_unfold a) in Hm.
  rewrite getDate_unfold.
  rewrite DateFromTime_unfold, DayWithinYear_unfold, Hd, Hm, Hy.
  rewrite (InLeapYear_same_year a _ Hy), firstDay_unfold. lia.
Qed.

(** The last instant of the month is in the month; a day later is not. *)
Lemma endOfMonth_civil a :
  getFullYear (endOfMonth a) = getFullYear a /\
  getMonth (endOfMonth a) = getMonth a /\
  ~ (getFullYear (addDays (endOfMonth a) 1) = getFullYear a /\
     getMonth (addDays (endOfMonth a) 1) = getMonth a).
Proof.
  pose proof (firstDay_le_lastDay a) as Hle.
  assert (Hd : Day (endOfMonth a) = lastDay a)
    by (rewrite endOfMonth_eq; apply Day_mul_add; unfold msPerDay; lia).
  destruct (proj2 (same_month_iff a (endOfMonth a)) ltac:(lia)) as [Hy Hm].
  split; [done|]. split; [done|].
  rewrite same_month_iff, addDays_eq, endOfMonth_eq.
  replace (lastDay a * msPerDay + 86399999 + 1 * msPerDay)
    with ((lastDay a + 1) * msPerDay + 86399999) by lia.
  rewrite Day_mul_add by (unfold msPerDay; lia). lia.
Qed.

(* ================================================================== *)
(** ** Grouping the grid into weeks *)
(* ================================================================== *)

Section GetWeeksFacts.
Context {A : Type}.
Implicit Types (days week : list A) (weeks : list (list A)).

(** What [days.forEach] preserves: the closed weeks have seven days, the
    open week fewer, and nothing is lost or reordered. *)
Lemma getWeeks_step_eq weeks week d :
  getWeeks_step (weeks, week) d =
  if (List.length (week ++ [d]) =? 7)%nat
  then (weeks ++ [week ++ [d]], [])
  else (weeks, week ++ [d]).
Proof. reflexivity. Qed.

Lemma getWeeks_fold_inv days : forall weeks week,
  Forall (fun c => List.length c = 7%nat) weeks ->
  (List.length week < 7)%nat ->
  concat (fold_left getWeeks_step days (weeks, week)).1
    ++ (fold_left getWeeks_step days (weeks, week)).2
    = concat weeks ++ week ++ days /\
  Forall (fun c => List.length c = 7%nat)
    (fold_left getWeeks_step days (weeks, week)).1 /\
  (List.length (fold_left getWeeks_step days (weeks, week)).2 < 7)%nat.
Proof.
  induction days as [|d days IH]; intros weeks week Hw Hlt; cbn [fold_left].
  - cbn [fst snd]. by rewrite app_nil_r.
  - rewrite getWeeks_step_eq.
    destruct (Nat.eqb_spec (List.length (week ++ [d])) 7) as [E | NE].
    + destruct (IH (weeks ++ [week ++ [d]]) []) as (Hc & Hf & Hl).
      { apply Forall_app. split; [done | by constructor]. }
      { cbn. lia. }
      split; [|by split].
      rewrite Hc, concat_app. cbn [concat]. by rewrite !app_nil_r, <- !app_assoc.
    + rewrite length_app in NE. cbn [List.length] in NE.
      destruct (IH weeks (week ++ [d])) as (Hc & Hf & Hl); [done | |].
      { rewrite length_app. cbn [List.length]. lia. }
      split; [|by split].
      by rewrite Hc, <- !app_assoc.
Qed.

Lemma getWeeks_unfold days :
  getWeeks days =
  let st := fold_left getWeeks_step days ([], []) in
  if (List.length st.2 =? 0)%nat then st.1 else st.1 ++ [st.2].
Proof. unfold getWeeks. by destruct (fold_left _ _ _). Qed.

Lemma concat_getWeeks days : concat (getWeeks days) = days.
Proof.
  rewrite getWeeks_unfold. cbv zeta.
  destruct (getWeeks_fold_inv days [] []) as (Hc & _ & _); [constructor | cbn; lia |].
  cbn in Hc.
  destruct (Nat.eqb_spec (List.length (fold_left getWeeks_step days ([], [])).2) 0)
    as [E | NE].
  - apply nil_length_inv in E. rewrite E, app_nil_r in Hc. done.
  - rewrite concat_app. cbn. by rewrite app_nil_r.
Qed.

(** The shape of the result: full weeks, then at most one shorter, non-empty
    week. *)
Lemma getWeeks_shape days :
  exists full rest,
    Forall (fun c => List.length c = 7%nat) full /\
    (List.length rest < 7)%nat /\
    getWeeks days = (if (List.length rest =? 0)%nat then full else full ++ [rest]).
Proof.
  rewrite getWeeks_unfold. cbv zeta.
  destruct (getWeeks_fold_inv days [] []) as (_ & Hf & Hl); [constructor | cbn; lia |].
  by exists (fold_left getWeeks_step days ([], [])).1,
            (fold_left getWeeks_step days ([], [])).2.
Qed.

Lemma length_concat_full (full : list (list A)) :
  Forall (fun c => List.length c = 7%nat) full ->
  List.length (concat full) = (7 * List.length full)%nat.
Proof.
  induction 1 as [|c full Hc _ IH]; [done|].
  cbn [concat]. rewrite length_app, IH, Hc. cbn [List.length]. lia.
Qed.

(** Cutting sevens off the front recovers the full weeks, whatever
    follows them. *)
Lemma chunks7_concat_app (full : list (list A)) rest :
  Forall (fun c => List.length c = 7%nat) full ->
  chunks7 (List.length full) (concat full ++ rest) = full.
Proof.
  induction 1 as [|c full Hc _ IH]; [done|].
  cbn [List.length concat chunks7]. rewrite <- app_assoc.
  rewrite take_app_length' by done. rewrite drop_app_length' by done.
  by rewrite IH.
Qed.

(** The full weeks and the remainder, read off the input. *)
Lemma getWeeks_decompose days :
  exists full rest,
    getWeeks days = (if (List.length rest =? 0)%nat then full else full ++ [rest]) /\
    Forall (fun c => List.length c = 7%nat) full /\
    days = concat full ++ rest /\
    List.length full = (List.length days / 7)%nat /\
    List.length rest = (List.length days mod 7)%nat.
Proof.
  destruct (getWeeks_shape days) as (full & rest & Hf & Hl & E).
  exists full, rest.
  assert (Hd : days = concat full ++ rest).
  { rewrite <- (concat_getWeeks days) at 1. rewrite E.
    destruct (Nat.eqb_spec (List.length rest) 0) as [E0 | _].
    - apply nil_length_inv in E0. by rewrite E0, app_nil_r.
    - rewrite concat_app. cbn [concat]. by rewrite app_nil_r. }
  assert (Hlen : List.length days = (7 * List.length full + List.length rest)%nat).
  { rewrite Hd at 1. by rewrite length_app, length_concat_full. }
  repeat split; try done.
  - rewrite Hlen. apply (Nat.div_unique _ 7 _ (List.length rest)); lia.
  - rewrite Hlen. apply (Nat.mod_unique _ 7 (List.length full)); lia.
Qed.
End GetWeeksFacts.

(** C10.  [getWeeks] is total and lossless: for every list, of any length,
    the chunks it returns concatenate to the list itself, in order; they
    are [length / 7] chunks of seven, followed, when the length is not a
    multiple of seven, by one shorter chunk of the [length mod 7] elements
    left over, rather than a failure. *)
Theorem getWeeks_total_lossless {A : Type} (days : list A) :
  concat (getWeeks days) = days /\
  exists full rest,
    getWeeks days =
      (if (List.length rest =? 0)%nat then full else full ++ [rest]) /\
    Forall (fun c => List.length c = 7%nat) full /\
    List.length full = (List.length days / 7)%nat /\
    List.length rest = (List.length days mod 7)%nat.
Proof.
  split; [apply concat_getWeeks|].
  destruct (getWeeks_decompose days) as (full & rest & E & Hf & _ & Hn & Hr).
  by exists full, rest.
Qed.

(** C6 (as amended).  [getWeeks] never fails.  It returns the consecutive
    groups of seven, in the original order, and, when the length is not a
    multiple of seven, one more group holding the elements left over; so it
    meets the contract of [toWeeks] exactly on the lengths that are
    multiples of seven, where the contract asks for a failure otherwise. *)
Theorem getWeeks_chunks {A : Type} (days : list A) :
  getWeeks days =
    chunks7 (List.length days / 7) days ++
    (if (List.length days mod 7 =? 0)%nat then []
     else [drop (7 * (List.length days / 7)) days]) /\
  toWeeks_spec days =
    (if (List.length days mod 7 =? 0)%nat then Some (getWeeks days) else None).
Proof.
  destruct (getWeeks_decompose days) as (full & rest & E & Hf & Hd & Hn & Hr).
  assert (Hc : chunks7 (List.length days / 7) days = full).
  { rewrite <- Hn. rewrite Hd at 1. by apply chunks7_concat_app. }
  assert (Hdrop : drop (7 * (List.length days / 7)) days = rest).
  { rewrite <- Hn, <- (length_concat_full full Hf). rewrite Hd.
    by rewrite drop_app_length. }
  assert (Eq1 : getWeeks days =
    chunks7 (List.length days / 7) days ++
    (if (List.length days mod 7 =? 0)%nat then []
     else [drop (7 * (List.length days / 7)) days])).
  { rewrite Hc, Hdrop, E, Hr.
    destruct (List.length days mod 7 =? 0)%nat; [by rewrite app_nil_r | done]. }
  split; [done|].
  unfold toWeeks_spec. rewrite Eq1.
  destruct (List.length days mod 7 =? 0)%nat; [by rewrite app_nil_r | done].
Qed.

(** C6, counterexample: eight dates are not a multiple of seven, and
    [getWeeks] returns a week of seven and a week of one where the contract
    of [toWeeks] has a failure. *)
Lemma getWeeks_eight_does_not_fail :
  getWeeks [1; 2; 3; 4; 5; 6; 7; 8]%Z
    = [[1; 2; 3; 4; 5; 6; 7]; [8]]%Z /\
  toWeeks_spec [1; 2; 3; 4; 5; 6; 7; 8]%Z = None.
Proof. split; reflexivity. Qed.

(* ================================================================== *)
(** ** Week highlighting in the remote-service view *)
(* ================================================================== *)

(** The class of a week row, by cases on the two counts. *)
Lemma trim_weekClass (regularCount workCount : nat) :
  trim (RemoteView.weekClass regularCount workCount) =
    if (2 <=? regularCount)%nat then "mb-1 rounded bg-gray-600 text-white"
    else if (1 <? workCount)%nat then "mb-1 rounded bg-green-200"
    else if (workCount =? 1)%nat then "mb-1 rounded border-2 border-green-400"
    else if (regularCount =? 1)%nat then "mb-1 rounded border-2 border-gray-300"
    else "mb-1 rounded".
Proof.
  unfold RemoteView.weekClass.
  destruct (2 <=? regularCount)%nat; [reflexivity|].
  destruct (1 <? workCount)%nat; [reflexivity|].
  destruct (workCount =? 1)%nat; [reflexivity|].
  destruct (regularCount =? 1)%nat; reflexivity.
Qed.

(** In an override week no cell has a background, today and work days
    included; the text is white. *)
Lemma renderDay_override hs flt now monthDate day :
  RemoteView.renderDay hs flt now monthDate true day = Blank \/
  exists c, RemoteView.renderDay hs flt now monthDate true day = Shown c /\
            bgColor c = "" /\ textColor c = "text-white".
Proof.
  unfold RemoteView.renderDay. cbv zeta.
  destruct (flt && _); [by left | right].
  eexists. split; [reflexivity|]. by split.
Qed.

(** C1.  In the remote-service view the highlight of every week row is
    decided in strict priority order, first match winning: two or more
    regular-holiday days give the dark override; else more than one
    work-holiday day the filled highlight; else exactly one the green
    outline; else exactly one regular-holiday day the lighter outline; else
    nothing.  In an override week every rendered cell has an empty
    background.  Two regular days and three work days give the override. *)
Theorem weekClass_priority (hs : list Holiday) (flt : bool)
    (now monthDate : Date) (week : list Date) :
  RemoteView.className (RemoteView.renderWeek hs flt now monthDate week) =
    "grid grid-cols-7 gap-1 " +:+
    (if (2 <=? RemoteView.countHolidaysInWeekByMonth hs week regular
                 (getMonth monthDate))%nat
     then "mb-1 rounded bg-gray-600 text-white"
     else if (1 <? RemoteView.countHolidaysInWeekByMonth hs week work
                     (getMonth monthDate))%nat
     then "mb-1 rounded bg-green-200"
     else if (RemoteView.countHolidaysInWeekByMonth hs week work
                (getMonth monthDate) =? 1)%nat
     then "mb-1 rounded border-2 border-green-400"
     else if (RemoteView.countHolidaysInWeekByMonth hs week regular
                (getMonth monthDate) =? 1)%nat
     then "mb-1 rounded border-2 border-gray-300"
     else "mb-1 rounded") /\
  RemoteView.overrideWeekDarkGrey
      (RemoteView.renderWeek hs flt now monthDate week) =
    (2 <=? RemoteView.countHolidaysInWeekByMonth hs week regular
             (getMonth monthDate))%nat /\
  (RemoteView.overrideWeekDarkGrey
      (RemoteView.renderWeek hs flt now monthDate week) = true ->
   Forall (fun cell => cell = Blank \/
             exists c, cell = Shown c /\ bgColor c = "")
          (RemoteView.cells (RemoteView.renderWeek hs flt now monthDate week))) /\
  RemoteView.weekClass 2 3 = "mb-1 rounded bg-gray-600 text-white ".
Proof.
  unfold RemoteView.renderWeek. cbv zeta. cbn [RemoteView.className
    RemoteView.overrideWeekDarkGrey RemoteView.cells].
  generalize (RemoteView.countHolidaysInWeekByMonth hs week regular
                (getMonth monthDate)) as r.
  generalize (RemoteView.countHolidaysInWeekByMonth hs week work
                (getMonth monthDate)) as w.
  intros w r.
  split; [by rewrite trim_weekClass|].
  split; [done|].
  split; [|reflexivity].
  intros ->. apply Forall_forall. intros cell Hin.
  apply list_elem_of_In, in_map_iff in Hin as (day & <- & _).
  destruct (renderDay_override hs flt now monthDate day) as [-> | (c & -> & Hb & _)];
    [by left | right; by exists c].
Qed.

(** The week of 8 June 2025 with regular holidays on two days and work
    holidays on three, Wednesday the 11th being today: the row is dark, no
    cell has a background, and the badges are still there. *)
Example override_week_two_regular_three_work :
  let hs := [ mkHoliday "2025-06-09" "Whit Monday" regular;
              mkHoliday "2025-06-10" "National Day" regular;
              mkHoliday "2025-06-11" "Retreat 1" work;
              mkHoliday "2025-06-12" "Retreat 2" work;
              mkHoliday "2025-06-13" "Retreat 3" work ] in
  let row := RemoteView.renderWeek hs false (ofYMD 2025 5 11)
               (ofYMD 2025 5 15) (daysFrom 7 (ofYMD 2025 5 8)) in
  RemoteView.workCount row = 3%nat /\
  RemoteView.regularCount row = 2%nat /\
  RemoteView.className row =
    "grid grid-cols-7 gap-1 mb-1 rounded bg-gray-600 text-white" /\
  map (fun cell => match cell with
                   | Blank => None
                   | Shown c => Some (bgColor c, option_map icon (badge c))
                   end) (RemoteView.cells row) =
    [ Some ("", None); Some ("", Some "🎉"); Some ("", Some "🎉");
      Some ("", Some "🏢"); Some ("", Some "🏢"); Some ("", Some "🏢");
      Some ("", None) ].
Proof. vm_compute. repeat split. Qed.

(* ================================================================== *)
(** ** Counting the holidays of a week *)
(* ================================================================== *)

Lemma countStep_eq hs ty m (acc : gset string) day :
  RemoteView.countStep hs ty m acc day =
  if countsDay hs ty m day then {[format_yyyy_MM_dd day]} ∪ acc else acc.
Proof.
  unfold RemoteView.countStep, countsDay. cbv zeta.
  destruct (getMonth day =? m); [|done]. cbn [negb andb].
  by destruct (0 <? _)%nat.
Qed.

Lemma countStep_fold hs ty m (week : list Date) : forall acc : gset string,
  fold_left (RemoteView.countStep hs ty m) week acc =
  list_to_set (map format_yyyy_MM_dd (filter (countsDay hs ty m) week)) ∪ acc.
Proof.
  induction week as [|day week IH]; intros acc; cbn [fold_left].
  - rewrite filter_nil. cbn [map list_to_set]. by rewrite union_empty_l_L.
  - rewrite IH, countStep_eq, filter_cons.
    destruct (countsDay hs ty m day) eqn:E.
    + rewrite decide_True by done. cbn [map list_to_set]. set_solver.
    + rewrite decide_False by (cbn; tauto). done.
Qed.

Lemma countHolidaysInWeekByMonth_set hs (week : list Date) ty m :
  RemoteView.countHolidaysInWeekByMonth hs week ty m =
  size (list_to_set (map format_yyyy_MM_dd (filter (countsDay hs ty m) week))
          : gset string).
Proof.
  unfold RemoteView.countHolidaysInWeekByMonth.
  by rewrite countStep_fold, union_empty_r_L.
Qed.

Lemma has_match_iff {A : Type} (P : A -> bool) (l : list A) :
  (0 <? List.length (filter P l))%nat = true <-> exists x, x ∈ l /\ P x = true.
Proof.
  rewrite Nat.ltb_lt. split.
  - intros Hlen. destruct (filter P l) as [|x r] eqn:E; [cbn in Hlen; lia|].
    assert (Hx : x ∈ filter P l) by (rewrite E; left).
    apply list_elem_of_filter in Hx as [HP Hx].
    exists x. split; [done | by apply Is_true_true].
  - intros (x & Hx & HP).
    assert (Hin : x ∈ filter P l)
      by (apply list_elem_of_filter; split; [by apply Is_true_true | done]).
    destruct (filter P l); [by apply elem_of_nil in Hin | cbn; lia].
Qed.

(** Only which records there are matters to [countsDay], not how many
    times each is there. *)
Lemma countsDay_same_records hs hs' ty m day :
  (forall h, h ∈ hs <-> h ∈ hs') ->
  countsDay hs ty m day = countsDay hs' ty m day.
Proof.
  intros Hsame. unfold countsDay. f_equal.
  apply eq_true_iff_eq. rewrite !has_match_iff.
  split; intros (h & Hh & HP); exists h; (split; [by apply Hsame | done]).
Qed.

Lemma filter_countsDay_in_month hs ty m (week : list Date) :
  filter (countsDay hs ty m) (filter (fun day => getMonth day =? m) week) =
  filter (countsDay hs ty m) week.
Proof.
  apply list_filter_filter_l. intros day. unfold countsDay.
  destruct (getMonth day =? m); [done | by cbn].
Qed.

Lemma size_list_to_set_le (l : list string) :
  (size (list_to_set l : gset string) <= List.length l)%nat.
Proof.
  induction l as [|x l IH]; cbn [list_to_set List.length].
  - by rewrite size_empty.
  - rewrite size_union_alt, size_singleton.
    assert (Hsub : (size ((list_to_set l : gset string) ∖ {[x]})
                    <= size (list_to_set l : gset string))%nat)
      by (apply subseteq_size; set_solver).
    lia.
Qed.

Lemma countWorkHolidaysInWeek_sum hs (week : list Date) :
  ImportView.countWorkHolidaysInWeek hs week =
  sum_list (map (workRecordsOn hs) week).
Proof.
  unfold ImportView.countWorkHolidaysInWeek.
  enough (H : forall acc,
    fold_left (fun count day =>
        (count + List.length
           (filter (fun h => bool_decide (date h = format_yyyy_MM_dd day)
                             && bool_decide (type h = work)) hs))%nat)
      week acc = (acc + sum_list (map (workRecordsOn hs) week))%nat)
    by (by rewrite H).
  induction week as [|day week IH]; intros acc; cbn [fold_left map sum_list].
  - lia.
  - rewrite IH. fold (workRecordsOn hs day). unfold id. lia.
Qed.

(** The counter of the file-import view adds up records and does not look
    at the month, as the two lists below show; neither list is a state
    the view can be in (see [importRun_holidays]), the remote-service
    counter is given for comparison. *)
Lemma countWorkHolidaysInWeek_counts_records :
  ImportView.countWorkHolidaysInWeek
    [ mkHoliday "2025-06-10" "Company Retreat" work;
      mkHoliday "2025-06-10" "Team Offsite" work ]
    (daysFrom 7 (ofYMD 2025 5 8)) = 2%nat /\
  RemoteView.countHolidaysInWeekByMonth
    [ mkHoliday "2025-06-10" "Company Retreat" work;
      mkHoliday "2025-06-10" "Team Offsite" work ]
    (daysFrom 7 (ofYMD 2025 5 8)) work 5 = 1%nat /\
  ImportView.countWorkHolidaysInWeek
    [ mkHoliday "2025-07-01" "Summer Day" work ]
    (daysFrom 7 (ofYMD 2025 5 29)) = 1%nat /\
  RemoteView.countHolidaysInWeekByMonth
    [ mkHoliday "2025-07-01" "Summer Day" work ]
    (daysFrom 7 (ofYMD 2025 5 29)) work 5 = 0%nat.
Proof. vm_compute. repeat split. Qed.

(* ================================================================== *)
(** ** The colour and the badge of a day *)
(* ================================================================== *)

(** A non-empty list of holidays with no work holiday has a regular one. *)
Lemma hasType_regular_of_no_work (l : list Holiday) :
  l <> [] -> RemoteView.hasType work l = false ->
  RemoteView.hasType regular l = true.
Proof.
  destruct l as [|[d n ty] l]; [done|]. intros _.
  unfold RemoteView.hasType. cbn [existsb type].
  destruct ty.
  - intros _. by rewrite (bool_decide_eq_true_2 (regular = regular)).
  - rewrite (bool_decide_eq_true_2 (work = work)) by done. cbn [orb]. done.
Qed.

Lemma remote_renderDay_eq hs flt now monthDate ov day :
  RemoteView.renderDay hs flt now monthDate ov day =
  let dh := remoteDayHolidays hs monthDate day in
  if flt && (List.length dh =? 0)%nat then Blank
  else Shown (mkDayCell
    (if negb ov then
       if isToday now day then "bg-blue-300"
       else if RemoteView.hasType work dh then "bg-green-300"
       else if RemoteView.hasType regular dh then "bg-yellow-200"
       else ""
     else "")
    (if ov then "text-white"
     else if getMonth monthDate =? getMonth day then "text-gray-900"
     else "text-gray-400")
    (Some (join ", " (map name dh)))
    (format_d day)
    (if (0 <? List.length dh)%nat then
       Some (mkBadge
         ("text-[10px] mt-1 " +:+ (if ov then "text-white" else "text-gray-700"))
         (if RemoteView.hasType work dh then "🏢"
          else if RemoteView.hasType regular dh then "🎉" else ""))
     else None)).
Proof. reflexivity. Qed.

Lemma import_renderDay_eq hs flt now monthDate day :
  ImportView.renderDay hs flt now monthDate day =
  let dh := importDayHolidays hs day in
  if flt && (List.length dh =? 0)%nat then Blank
  else Shown (mkDayCell
    (if isToday now day then "bg-blue-300"
     else if ImportView.hasType work dh then "bg-green-300"
     else if ImportView.hasType regular dh then "bg-yellow-200"
     else "")
    (if getMonth monthDate =? getMonth day then "text-gray-900"
     else "text-gray-400")
    None
    (format_d day)
    (if (0 <? List.length dh)%nat then
       Some (mkBadge "text-[10px] mt-1 text-gray-700"
         (join " " (map (fun h => if bool_decide (type h = work)
                                  then "🏢" else "🎉") dh)))
     else None)).
Proof. reflexivity. Qed.

Lemma nonempty_length_pos {A : Type} (l : list A) :
  l <> [] -> (0 <? List.length l)%nat = true /\ (List.length l =? 0)%nat = false.
Proof. destruct l; [done | by cbn]. Qed.

(** C3 (as amended).  In each view a day cell is replaced by the empty
    placeholder exactly when the filter is on and the cell carries no
    holiday; the holidays a cell carries are those dated on its day,
    except that in the remote-service view a cell of a day outside the
    panel's month carries none.  For every cell that is drawn, in a week
    that is not in override mode: today gets the today background
    whatever its holidays; otherwise a cell carrying a work holiday gets
    the work colour; otherwise a cell carrying a regular holiday gets the
    regular colour.  In the remote-service view a cell carrying holidays
    shows exactly one icon, the work icon when a work holiday is among
    them and the regular icon otherwise.  In the file-import view it
    shows one icon per holiday record, in order, so a day with both
    types shows both. *)
Theorem day_decision (hs : list Holiday) (flt : bool)
    (now monthDate day : Date) :
  (RemoteView.renderDay hs flt now monthDate false day = Blank <->
     flt = true /\ remoteDayHolidays hs monthDate day = []) /\
  (forall c : DayCell,
     RemoteView.renderDay hs flt now monthDate false day = Shown c ->
     (bgColor c =
        if isToday now day then "bg-blue-300"
        else if RemoteView.hasType work (remoteDayHolidays hs monthDate day)
        then "bg-green-300"
        else if RemoteView.hasType regular (remoteDayHolidays hs monthDate day)
        then "bg-yellow-200" else "") /\
     (badge c =
        if (0 <? List.length (remoteDayHolidays hs monthDate day))%nat
        then Some (mkBadge "text-[10px] mt-1 text-gray-700"
                     (if RemoteView.hasType work
                           (remoteDayHolidays hs monthDate day)
                      then "🏢" else "🎉"))
        else None)) /\
  (ImportView.renderDay hs flt now monthDate day = Blank <->
     flt = true /\ importDayHolidays hs day = []) /\
  (forall c' : DayCell,
     ImportView.renderDay hs flt now monthDate day = Shown c' ->
     (bgColor c' =
        if isToday now day then "bg-blue-300"
        else if ImportView.hasType work (importDayHolidays hs day)
        then "bg-green-300"
        else if ImportView.hasType regular (importDayHolidays hs day)
        then "bg-yellow-200" else "") /\
     (badge c' =
        if (0 <? List.length (importDayHolidays hs day))%nat
        then Some (mkBadge "text-[10px] mt-1 text-gray-700"
                     (join " " (map (fun h => if bool_decide (type h = work)
                                              then "🏢" else "🎉")
                                    (importDayHolidays hs day))))
        else None)).
Proof.
  rewrite remote_renderDay_eq, import_renderDay_eq. cbv zeta.
  generalize (remoteDayHolidays hs monthDate day) as dh.
  generalize (importDayHolidays hs day) as dh'.
  intros dh' dh.
  split; [|split; [|split]].
  - destruct flt; cbn [andb].
    + destruct dh; cbn [List.length Nat.eqb]; split; try done.
      by intros [_ ?].
    + split; [done | by intros [? _]].
  - intros c. destruct (flt && (List.length dh =? 0)%nat); [done|].
    intros [= <-]. cbn [bgColor badge negb]. split; [done|].
    destruct dh as [|h dh]; [done|].
    destruct (nonempty_length_pos (h :: dh)) as [-> _]; [done|].
    destruct (RemoteView.hasType work (h :: dh)) eqn:Ew; [done|].
    by rewrite (hasType_regular_of_no_work (h :: dh)).
  - destruct flt; cbn [andb].
    + destruct dh'; cbn [List.length Nat.eqb]; split; try done.
      by intros [_ ?].
    + split; [done | by intros [? _]].
  - intros c'. destruct (flt && (List.length dh' =? 0)%nat); [done|].
    by intros [= <-].
Qed.

(** 10 June 2025 with the shipped mock data, seen from both views. *)
Lemma day_decision_witness :
  RemoteView.renderDay ImportView.initialHolidays false
    (ofYMD 2025 5 15) (ofYMD 2025 5 15) false (ofYMD 2025 5 10)
  = Shown (mkDayCell "bg-green-300" "text-gray-900"
             (Some "Company Retreat, National Day") "10"
             (Some (mkBadge "text-[10px] mt-1 text-gray-700" "🏢"))) /\
  ImportView.renderDay ImportView.initialHolidays false
    (ofYMD 2025 5 15) (ofYMD 2025 5 15) (ofYMD 2025 5 10)
  = Shown (mkDayCell "bg-green-300" "text-gray-900" None "10"
             (Some (mkBadge "text-[10px] mt-1 text-gray-700" "🏢 🎉"))) /\
  "bg-green-300" =
     (if isToday (ofYMD 2025 5 15) (ofYMD 2025 5 10) then "bg-blue-300"
      else if RemoteView.hasType work
                (remoteDayHolidays ImportView.initialHolidays
                   (ofYMD 2025 5 15) (ofYMD 2025 5 10))
      then "bg-green-300"
      else if RemoteView.hasType regular
                (remoteDayHolidays ImportView.initialHolidays
                   (ofYMD 2025 5 15) (ofYMD 2025 5 10))
      then "bg-yellow-200" else "").
Proof.
  assert (H1 : RemoteView.renderDay ImportView.initialHolidays false
    (ofYMD 2025 5 15) (ofYMD 2025 5 15) false (ofYMD 2025 5 10)
  = Shown (mkDayCell "bg-green-300" "text-gray-900"
             (Some "Company Retreat, National Day") "10"
             (Some (mkBadge "text-[10px] mt-1 text-gray-700" "🏢"))))
    by (vm_compute; reflexivity).
  assert (H2 : ImportView.renderDay ImportView.initialHolidays false
    (ofYMD 2025 5 15) (ofYMD 2025 5 15) (ofYMD 2025 5 10)
  = Shown (mkDayCell "bg-green-300" "text-gray-900" None "10"
             (Some (mkBadge "text-[10px] mt-1 text-gray-700" "🏢 🎉"))))
    by (vm_compute; reflexivity).
  split; [exact H1|]. split; [exact H2|].
  destruct (day_decision ImportView.initialHolidays false (ofYMD 2025 5 15)
              (ofYMD 2025 5 15) (ofYMD 2025 5 10)) as (_ & Hr & _).
  exact (proj1 (Hr _ H1)).
Defined.

(** C3, the claim at its failing inputs.  In the file-import view, with
    the shipped mock data, the cell of 10 June 2025 carries a work and a
    regular holiday and shows both icons.  With the filter on, the cell
    of today (15 June 2025, no holiday) is the empty placeholder in both
    views and so has no today background.  In the remote-service view,
    with the one holiday the service sends for 4 July 2025 stored, the
    cell of 4 July in the June panel, in a week that is not in override
    mode, has no colour, no title and no badge, while the same day in the
    July panel has the regular colour and icon. *)
Lemma day_cell_counterexamples :
  ImportView.renderDay ImportView.initialHolidays false
    (ofYMD 2025 5 15) (ofYMD 2025 5 15) (ofYMD 2025 5 10)
  = Shown (mkDayCell "bg-green-300" "text-gray-900" None "10"
             (Some (mkBadge "text-[10px] mt-1 text-gray-700" "🏢 🎉"))) /\
  ImportView.renderDay ImportView.initialHolidays true
    (ofYMD 2025 5 15) (ofYMD 2025 5 15) (ofYMD 2025 5 15) = Blank /\
  RemoteView.renderDay [] true
    (ofYMD 2025 5 15) (ofYMD 2025 5 15) false (ofYMD 2025 5 15) = Blank /\
  RemoteView.normalize 0
    [ RemoteView.RawObj
        (RemoteView.mkRaw (Some "2025-07-04") (Some "Independence Day")) ]
  = Return [ mkHoliday "2025-07-04" "Independence Day" regular ] /\
  RemoteView.overrideWeekDarkGrey
    (RemoteView.renderWeek
       [ mkHoliday "2025-07-04" "Independence Day" regular ] false
       (ofYMD 2025 5 15) (ofYMD 2025 5 15) (daysFrom 7 (ofYMD 2025 5 29)))
  = false /\
  RemoteView.renderDay
    [ mkHoliday "2025-07-04" "Independence Day" regular ] false
    (ofYMD 2025 5 15) (ofYMD 2025 5 15) false (ofYMD 2025 6 4)
  = Shown (mkDayCell "" "text-gray-400" (Some "") "4" None) /\
  RemoteView.renderDay
    [ mkHoliday "2025-07-04" "Independence Day" regular ] false
    (ofYMD 2025 5 15) (ofYMD 2025 6 15) false (ofYMD 2025 6 4)
  = Shown (mkDayCell "bg-yellow-200" "text-gray-900"
             (Some "Independence Day") "4"
             (Some (mkBadge "text-[10px] mt-1 text-gray-700" "🎉"))).
Proof. vm_compute. repeat split. Qed.

(* ================================================================== *)
(** ** Normalizing what the holiday sources deliver *)
(* ================================================================== *)

Lemma trimEnd_idem s : trimEnd (trimEnd s) = trimEnd s.
Proof.
  induction s as [|c s IH]; [done|].
  cbn [trimEnd]. destruct (trimEnd s) as [|c' r] eqn:E.
  - destruct (isWhiteSpace c) eqn:Ec; [done|].
    cbn [trimEnd]. by rewrite Ec.
  - cbn [trimEnd]. cbn [trimEnd] in IH. by rewrite IH.
Qed.

Lemma trimStart_head s :
  trimStart s = "" \/
  exists c r, trimStart s = String c r /\ isWhiteSpace c = false.
Proof.
  induction s as [|c s IH]; [by left|].
  cbn [trimStart]. destruct (isWhiteSpace c) eqn:Ec; [done|].
  right. by exists c, s.
Qed.

Lemma trimEnd_head c r :
  isWhiteSpace c = false -> exists r', trimEnd (String c r) = String c r'.
Proof.
  intros Ec. cbn [trimEnd]. destruct (trimEnd r) as [|c' r'].
  - rewrite Ec. by exists "".
  - by eexists.
Qed.

Lemma trim_idem s : trim (trim s) = trim s.
Proof.
  unfold trim. destruct (trimStart_head s) as [-> | (c & r & -> & Ec)]; [done|].
  destruct (trimEnd_head c r Ec) as (r' & E).
  rewrite E. cbn [trimStart]. rewrite Ec, <- E. apply trimEnd_idem.
Qed.

Import RemoteView.

Lemma unique_step_eq (seen : gset string) kept h :
  unique_step (seen, kept) h =
  if bool_decide (keyOf h ∈ seen) then (seen, kept)
  else ({[keyOf h]} ∪ seen, kept ++ [h]).
Proof. reflexivity. Qed.

(** After the second filter has run over [l], [seen] holds the keys of [l]. *)
Lemma unique_fold_seen (l : list RawHoliday) :
  (fold_left unique_step l (∅, [])).1 = list_to_set (map keyOf l).
Proof.
  induction l as [|x l IH] using rev_ind; [done|].
  rewrite fold_left_app. cbn [fold_left].
  destruct (fold_left unique_step l (∅, [])) as [seen kept] eqn:E.
  cbn [fst] in IH. rewrite unique_step_eq, map_app, list_to_set_app_L.
  cbn [map list_to_set]. rewrite <- IH.
  case_bool_decide; cbn [fst]; set_solver.
Qed.

(** First occurrence wins: a record is kept exactly when no record before
    it has its key. *)
Lemma uniqueHolidays_snoc (l : list RawHoliday) x :
  uniqueHolidays (l ++ [x]) =
  uniqueHolidays l ++
  (if bool_decide (keyOf x ∈ map keyOf l) then [] else [x]).
Proof.
  unfold uniqueHolidays. rewrite fold_left_app. cbn [fold_left].
  pose proof (unique_fold_seen l) as Hseen.
  destruct (fold_left unique_step l (∅, [])) as [seen kept].
  cbn [fst snd] in *. rewrite unique_step_eq. subst seen.
  assert (Hiff : keyOf x ∈ (list_to_set (map keyOf l) : gset string)
                 <-> keyOf x ∈ map keyOf l) by apply elem_of_list_to_set.
  destruct (decide (keyOf x ∈ map keyOf l)) as [Hin | Hnin].
  - rewrite !bool_decide_eq_true_2 by tauto. cbn [snd]. by rewrite app_nil_r.
  - rewrite !bool_decide_eq_false_2 by tauto. done.
Qed.

Lemma uniqueHolidays_nil : uniqueHolidays [] = [].
Proof. reflexivity. Qed.

Lemma uniqueHolidays_keys (l : list RawHoliday) k :
  k ∈ map keyOf (uniqueHolidays l) <-> k ∈ map keyOf l.
Proof.
  induction l as [|x l IH] using rev_ind; [done|].
  rewrite uniqueHolidays_snoc, !map_app, !elem_of_app, IH.
  case_bool_decide as Hx; cbn [map].
  - rewrite elem_of_nil, list_elem_of_singleton. split; [tauto|].
    intros [? | ->]; tauto.
  - tauto.
Qed.

Lemma uniqueHolidays_NoDup (l : list RawHoliday) :
  NoDup (map keyOf (uniqueHolidays l)).
Proof.
  induction l as [|x l IH] using rev_ind; [constructor|].
  rewrite uniqueHolidays_snoc, map_app.
  case_bool_decide as Hx; cbn [map].
  - by rewrite app_nil_r.
  - apply NoDup_app. split; [done|]. split.
    + intros k Hk Hk'. apply list_elem_of_singleton in Hk' as ->.
      exact (Hx (proj1 (uniqueHolidays_keys l (keyOf x)) Hk)).
    + apply NoDup_singleton.
Qed.

Lemma uniqueHolidays_id (l : list RawHoliday) :
  NoDup (map keyOf l) -> uniqueHolidays l = l.
Proof.
  induction l as [|x l IH] using rev_ind; [done|].
  rewrite map_app. cbn [map]. intros Hnd.
  apply NoDup_app in Hnd as (Hl & Hx & _).
  rewrite uniqueHolidays_snoc, IH by done.
  rewrite bool_decide_eq_false_2; [done|].
  intros Hin. apply (Hx _ Hin). by left.
Qed.

Lemma uniqueHolidays_sublist (l : list RawHoliday) :
  sublist (uniqueHolidays l) l.
Proof.
  induction l as [|x l IH] using rev_ind; [done|].
  rewrite uniqueHolidays_snoc. case_bool_decide.
  - rewrite app_nil_r. by apply sublist_inserts_r.
  - by apply sublist_app.
Qed.

Section Normalize.
Variable tza : Z.

Lemma filtered_objects (l : list RawHoliday) :
  filtered tza (map RawObj l) = Return (filter (fun h => keepRecord tza h) l).
Proof.
  induction l as [|h l IH]; [done|].
  cbn [map filtered]. rewrite IH, filter_cons.
  destruct (keepRecord tza h).
  - by rewrite decide_True.
  - by rewrite decide_False by (cbn; tauto).
Qed.

(** Every record that passes the first filter has a non-empty date that
    [isWeekend] rejects, and a name that is a string. *)
Lemma filtered_kept data f :
  filtered tza data = Return f ->
  Forall (fun h => keepRecord tza h = true) f.
Proof.
  revert f. induction data as [|[|h] data IH]; intros f.
  - intros [= <-]. constructor.
  - done.
  - cbn [filtered]. destruct (filtered tza data) as [e | r]; [done|].
    cbn. intros [= <-]. specialize (IH r eq_refl).
    destruct (keepRecord tza h) eqn:E; [by constructor | done].
Qed.

(** The record [toRaw] makes of a canonical holiday, without the
    [RawObj] wrapper. *)
Lemma keepRecord_inv h :
  keepRecord tza h = true ->
  exists d n, raw_date h = Some d /\ localName h = Some n /\
              d <> "" /\ isWeekend tza d = false.
Proof.
  unfold keepRecord. destruct (raw_date h) as [d|]; [|done].
  destruct (localName h) as [n|]; [|done].
  case_bool_decide; [done|]. destruct (isWeekend tza d) eqn:E; [done|].
  intros _. by exists d, n.
Qed.

Lemma reraw_kept h :
  keepRecord tza h = true ->
  keepRecord tza (mkRaw (Some (dateOf h)) (Some (nameOf h))) = true /\
  keyOf (mkRaw (Some (dateOf h)) (Some (nameOf h))) = keyOf h /\
  dateOf (mkRaw (Some (dateOf h)) (Some (nameOf h))) = dateOf h /\
  nameOf (mkRaw (Some (dateOf h)) (Some (nameOf h))) = nameOf h.
Proof.
  intros (d & n & Hd & Hn & Hne & Hw)%keepRecord_inv.
  assert (Ed : dateOf h = d) by (unfold dateOf; by rewrite Hd).
  assert (En : nameOf (mkRaw (Some (dateOf h)) (Some (nameOf h))) = nameOf h).
  { unfold nameOf at 1. cbn [localName default]. unfold nameOf. apply trim_idem. }
  split.
  { unfold keepRecord. cbn [raw_date localName]. rewrite Ed.
    rewrite bool_decide_eq_false_2 by done. by rewrite Hw. }
  split; [|by split].
  unfold keyOf. by rewrite En.
Qed.
End Normalize.

Lemma mapExn_length {A B : Type} (f : A -> Exn B) (l : list A) (r : list B) :
  ImportView.mapExn f l = Return r -> List.length r = List.length l.
Proof.
  revert r. induction l as [|x l IH]; intros r.
  - by intros [= <-].
  - cbn [ImportView.mapExn]. destruct (f x) as [e | y]; [done|].
    destruct (ImportView.mapExn f l) as [e | ys]; [done|].
    cbn. intros [= <-]. cbn [List.length]. by rewrite (IH ys).
Qed.

Lemma parsed_pairs (l : list RawHoliday) :
  map keyOf l =
  map (fun p : string * string => p.1 +:+ "|" +:+ p.2)
      (map (fun h => (date h, name h)) (parsed l)).
Proof.
  unfold parsed. rewrite !map_map. by apply map_ext.
Qed.

Lemma mapExn_Return {A B : Type} (f : A -> Exn B) (l : list A) (r : list B) :
  ImportView.mapExn f l = Return r <-> Forall2 (fun x y => f x = Return y) l r.
Proof.
  revert r. induction l as [|x l IH]; intros r; cbn [ImportView.mapExn].
  - split; [intros [= <-]; constructor | by intros ->%Forall2_nil_inv_l].
  - destruct (f x) as [e|y] eqn:Ex; cbn [mbind Exn_bind].
    + split; [done|]. intros (y & r' & Hy & _ & _)%Forall2_cons_inv_l. congruence.
    + destruct (ImportView.mapExn f l) as [e|ys] eqn:El; cbn [mbind Exn_bind].
      * split; [done|]. intros (y' & r' & _ & Hr & _)%Forall2_cons_inv_l.
        by apply IH in Hr.
      * split.
        -- intros [= <-]. constructor; [done | by apply IH].
        -- intros (y' & r' & Hy & Hr & ->)%Forall2_cons_inv_l.
           apply IH in Hr. congruence.
Qed.

Lemma handleICSFile_unfold ICAL text s :
  ImportView.handleICSFile ICAL (Some text) s =
  match vevents ← ICAL text; ImportView.mapExn ImportView.toHoliday vevents with
  | Return parsedHolidays =>
      ImportView.mkState (ImportView.baseDate s) parsedHolidays false
        (ImportView.alerts s) (ImportView.console s)
  | Throw error =>
      ImportView.mkState (ImportView.baseDate s) (ImportView.holidays s)
        (ImportView.showOnlyHolidays s)
        (ImportView.alerts s ++ [ImportView.msgImportFailed])
        (ImportView.console s ++ ["Failed to parse ICS file: " +:+ error])
  end.
Proof.
  destruct s as [b h f a k]. unfold ImportView.handleICSFile.
  destruct (_ ≫= _); reflexivity.
Qed.

(** C4 (as amended).  Whatever the remote service sends, the holidays that
    the remote adapter stores hold no two records with the same date and
    name, the names being trimmed; of records with the same date and
    trimmed name the first is kept and the later ones dropped; and
    normalizing the stored list once more gives it back.  The file-import
    adapter removes no duplicates: on a successful import the list it
    stores holds one record per event of the file, in the order of the
    file, each made of its event by the callback of [vevents.map]. *)
Theorem remote_normalize_unique (tza : Z) (data : list RawItem)
    (hs : list Holiday) :
  normalize tza data = Return hs ->
  NoDup (map (fun h => (date h, name h)) hs) /\
  Forall (fun h => trim (name h) = name h /\ type h = regular) hs /\
  normalize tza (map toRaw hs) = Return hs /\
  (forall (l : list RawHoliday) (x : RawHoliday),
     uniqueHolidays (l ++ [x]) =
     uniqueHolidays l ++
       (if bool_decide (keyOf x ∈ map keyOf l) then [] else [x])) /\
  (forall (ICAL_vevents : string -> Exn (list ImportView.VEvent))
          (text : string) (vevents : list ImportView.VEvent)
          (stored : list Holiday) (s : ImportView.State),
     ICAL_vevents text = Return vevents ->
     ImportView.mapExn ImportView.toHoliday vevents = Return stored ->
     ImportView.holidays
       (ImportView.handleICSFile ICAL_vevents (Some text) s) = stored /\
     Forall2 (fun e h => ImportView.toHoliday e = Return h) vevents stored).
Proof.
  intros Hnorm.
  assert (Himp : forall (ICAL_vevents : string -> Exn (list ImportView.VEvent))
            (text : string) (vevents : list ImportView.VEvent)
            (stored : list Holiday) (s : ImportView.State),
     ICAL_vevents text = Return vevents ->
     ImportView.mapExn ImportView.toHoliday vevents = Return stored ->
     ImportView.holidays
       (ImportView.handleICSFile ICAL_vevents (Some text) s) = stored /\
     Forall2 (fun e h => ImportView.toHoliday e = Return h) vevents stored).
  { intros ICAL text vevents stored s HI Hs.
    rewrite handleICSFile_unfold, HI. cbn [mbind Exn_bind]. rewrite Hs.
    split; [reflexivity | by apply mapExn_Return]. }
  revert Hnorm.
  unfold normalize at 1. cbn [tryBody negb].
  destruct (filtered tza data) as [e | f] eqn:Ef; [done|].
  cbn. intros [= <-].
  pose proof (filtered_kept tza data f Ef) as Hkept.
  assert (Hsub : Forall (fun h => keepRecord tza h = true) (uniqueHolidays f)).
  { apply Forall_forall. intros h Hh.
    apply (proj1 (Forall_forall _ _) Hkept).
    exact (elem_of_sublist _ _ _ Hh (uniqueHolidays_sublist f)). }
  set (U := uniqueHolidays f) in *.
  assert (Hnd : NoDup (map keyOf U)) by apply uniqueHolidays_NoDup.
  split.
  { rewrite parsed_pairs in Hnd. by apply NoDup_fmap_1 in Hnd. }
  split.
  { apply Forall_forall. intros h Hh.
    apply list_elem_of_In, in_map_iff in Hh as (r & <- & _).
    cbn [name type]. split; [apply trim_idem | done]. }
  split; [|split; [apply uniqueHolidays_snoc | exact Himp]].
  unfold normalize. cbn [tryBody negb].
  assert (Eraw : map toRaw (parsed U) =
                 map RawObj (map (fun h => mkRaw (Some (dateOf h)) (Some (nameOf h))) U)).
  { unfold parsed. rewrite !map_map. by apply map_ext. }
  rewrite Eraw, filtered_objects. cbn.
  set (R := map (fun h => mkRaw (Some (dateOf h)) (Some (nameOf h))) U).
  assert (Hall : filter (fun h => keepRecord tza h) R = R).
  { subst R. clear Hnd Eraw. induction U as [|h U IH]; [done|].
    apply Forall_cons in Hsub as [Hh HU].
    cbn [map]. rewrite filter_cons.
    destruct (reraw_kept tza h Hh) as (Hk & _).
    rewrite decide_True by (by rewrite Hk). by rewrite IH. }
  assert (Hkeys : map keyOf R = map keyOf U).
  { subst R. rewrite map_map. apply Forall_fmap_ext_1.
    apply Forall_forall. intros h Hh.
    apply (proj1 (Forall_forall _ _) Hsub) in Hh.
    by destruct (reraw_kept tza h Hh) as (_ & -> & _). }
  rewrite Hall, uniqueHolidays_id by (by rewrite Hkeys).
  f_equal. subst R. unfold parsed. rewrite map_map.
  apply Forall_fmap_ext_1. apply Forall_forall. intros h Hh.
  apply (proj1 (Forall_forall _ _) Hsub) in Hh.
  destruct (reraw_kept tza h Hh) as (_ & _ & -> & ->). done.
Qed.

(** A December answer with a record repeated up to surrounding spaces, a
    Saturday and a record without a date, in a zone on UTC. *)
Lemma remote_normalize_unique_witness :
  normalize 0
    [ RawObj (mkRaw (Some "2025-12-25") (Some " Christmas Day "));
      RawObj (mkRaw (Some "2025-12-25") (Some "Christmas Day"));
      RawObj (mkRaw (Some "2025-12-26") (Some "Boxing Day"));
      RawObj (mkRaw (Some "2025-12-27") (Some "Saturday Fair"));
      RawObj (mkRaw None (Some "No date")) ]
  = Return [ mkHoliday "2025-12-25" "Christmas Day" regular;
             mkHoliday "2025-12-26" "Boxing Day" regular ] /\
  NoDup (map (fun h => (date h, name h))
           [ mkHoliday "2025-12-25" "Christmas Day" regular;
             mkHoliday "2025-12-26" "Boxing Day" regular ]) /\
  normalize 0
    (map toRaw [ mkHoliday "2025-12-25" "Christmas Day" regular;
                 mkHoliday "2025-12-26" "Boxing Day" regular ])
  = Return [ mkHoliday "2025-12-25" "Christmas Day" regular;
             mkHoliday "2025-12-26" "Boxing Day" regular ].
Proof.
  assert (H : normalize 0
    [ RawObj (mkRaw (Some "2025-12-25") (Some " Christmas Day "));
      RawObj (mkRaw (Some "2025-12-25") (Some "Christmas Day"));
      RawObj (mkRaw (Some "2025-12-26") (Some "Boxing Day"));
      RawObj (mkRaw (Some "2025-12-27") (Some "Saturday Fair"));
      RawObj (mkRaw None (Some "No date")) ]
  = Return [ mkHoliday "2025-12-25" "Christmas Day" regular;
             mkHoliday "2025-12-26" "Boxing Day" regular ])
    by (vm_compute; reflexivity).
  split; [exact H|].
  destruct (remote_normalize_unique 0 _ _ H) as (Hnd & _ & Hidem & _).
  split; [exact Hnd | exact Hidem].
Defined.

(** C4, counterexample on the file-import adapter: a calendar file with the
    same event twice stores the same record twice. *)
Lemma import_keeps_duplicates :
  ImportView.holidays
    (ImportView.handleICSFile
       (fun _ => Return
          [ ImportView.mkVEvent (Some (ofYMD 2025 11 25)) (Some "Christmas Day");
            ImportView.mkVEvent (Some (ofYMD 2025 11 25)) (Some "Christmas Day") ])
       (Some "BEGIN:VCALENDAR")
       (ImportView.initialState (ofYMD 2025 5 15)))
  = [ mkHoliday "2025-12-25" "Christmas Day" regular;
      mkHoliday "2025-12-25" "Christmas Day" regular ].
Proof. vm_compute. reflexivity. Qed.

(* ================================================================== *)
(** ** The weekend filter and the local zone *)
(* ================================================================== *)

(** East of Greenwich, up to a day, the local weekday of midnight UTC is
    the weekday of the date written in the string. *)
Lemma isWeekend_east (tza : Z) (s : string) :
  0 <= tza < msPerDay -> isWeekend tza s = isWeekend 0 s.
Proof.
  intros Htz. unfold isWeekend, newDate.
  destruct (parseDateOnly s) as [[[y m] d]|]; [|done].
  cbn [mbind option_bind]. unfold getDay, WeekDay.
  rewrite Z.add_0_r.
  generalize (MakeDay y (m - 1) d) as D. intros D.
  unfold MakeDate. rewrite Z.add_0_r.
  by rewrite Day_mul, (Day_mul_add D tza Htz).
Qed.

(** West of Greenwich, by up to a day, it is the weekday of the day
    before. *)
Lemma isWeekend_west_weekday (tza : Z) (y m d : Z) :
  - msPerDay <= tza < 0 ->
  WeekDay (MakeDate (MakeDay y (m - 1) d) 0 + tza)
  = (WeekDay (MakeDate (MakeDay y (m - 1) d) 0) + 6) mod 7.
Proof.
  intros Htz. unfold WeekDay.
  generalize (MakeDay y (m - 1) d) as D. intros D.
  unfold MakeDate. rewrite Z.add_0_r, Day_mul.
  replace (D * msPerDay + tza) with ((D - 1) * msPerDay + (tza + msPerDay)) by lia.
  rewrite Day_mul_add by lia. zlia.
Qed.

(** C7, the code at a failing input.  Five hours west of Greenwich a
    record dated Saturday 5 July 2025 passes the weekend filter and is
    stored, and a record dated Monday 7 July 2025 is discarded as if it
    fell on a Sunday; on Greenwich time the same answer is filtered by the
    dates as written. *)
Theorem weekend_filter_west_of_utc :
  getDay (ofYMD 2025 6 5) = 6 /\
  getDay (ofYMD 2025 6 7) = 1 /\
  isWeekend (-18000000) "2025-07-05" = false /\
  isWeekend (-18000000) "2025-07-07" = true /\
  normalize (-18000000)
    [ RawObj (mkRaw (Some "2025-07-05") (Some "Summer Fair"));
      RawObj (mkRaw (Some "2025-07-07") (Some "Harbour Day")) ]
  = Return [ mkHoliday "2025-07-05" "Summer Fair" regular ] /\
  normalize 0
    [ RawObj (mkRaw (Some "2025-07-05") (Some "Summer Fair"));
      RawObj (mkRaw (Some "2025-07-07") (Some "Harbour Day")) ]
  = Return [ mkHoliday "2025-07-07" "Harbour Day" regular ].
Proof. vm_compute. repeat split. Qed.

(** The stored Saturday record is then drawn on the Saturday cell: the
    grid matches the record's date against the local date of the day. *)
Example weekend_record_is_displayed :
  map (fun cell => match cell with
                   | Blank => None
                   | Shown c => Some (label c, bgColor c, option_map icon (badge c))
                   end)
      (cells (renderWeek [ mkHoliday "2025-07-05" "Summer Fair" regular ]
                false (ofYMD 2025 6 1) (ofYMD 2025 6 15)
                (daysFrom 7 (ofYMD 2025 5 29))))
  = [ Some ("29", "", None); Some ("30", "", None);
      Some ("1", "bg-blue-300", None); Some ("2", "", None);
      Some ("3", "", None); Some ("4", "", None);
      Some ("5", "bg-yellow-200", Some "🎉") ].
Proof. vm_compute. reflexivity. Qed.

(* ================================================================== *)
(** ** Failures and what they leave behind *)
(* ================================================================== *)

(** Every way the remote answer can go wrong ends in the [catch] block. *)
Lemma tryBody_failures (tza : Z) (body : RemoteView.Body)
    (before after : list RemoteView.RawItem) :
  (exists e, RemoteView.tryBody tza RemoteView.FetchRejected = Throw e) /\
  (exists e, RemoteView.tryBody tza (RemoteView.FetchResponse false body) = Throw e) /\
  (exists e, RemoteView.tryBody tza
               (RemoteView.FetchResponse true RemoteView.BodyInvalid) = Throw e) /\
  (exists e, RemoteView.tryBody tza
               (RemoteView.FetchResponse true RemoteView.BodyNotArray) = Throw e) /\
  (exists e, RemoteView.tryBody tza
               (RemoteView.FetchResponse true
                  (RemoteView.BodyArray (map RemoteView.RawObj
                     (omap (fun i => match i with
                                     | RemoteView.RawObj h => Some h
                                     | RemoteView.RawNull => None
                                     end) before)
                   ++ RemoteView.RawNull :: after))) = Throw e).
Proof.
  repeat split; try by eexists.
  cbn [RemoteView.tryBody negb].
  generalize (omap (fun i => match i with
                             | RemoteView.RawObj h => Some h
                             | RemoteView.RawNull => None
                             end) before) as l.
  intros l. induction l as [|h l [e IH]]; [by eexists|].
  cbn [map app RemoteView.filtered] in *.
  destruct (RemoteView.filtered tza (map RemoteView.RawObj l ++ RemoteView.RawNull :: after))
    as [e' | r]; [by eexists | done].
Qed.

(** C8.  Each kind of failure leaves the holidays as said.  For the
    blocked country code the holidays are emptied, the message says the
    data is unavailable, and no URL is handed to [fetch].  When the request
    or the reading of its answer fails, the holidays are emptied and the
    message says the load failed, which is another message.  When a
    calendar file cannot be read, the user is alerted and the holidays and
    the filter stay as they were. *)
Theorem failure_post_states (tza : Z) (net : string -> RemoteView.FetchOutcome)
    (ICAL_vevents : string -> Exn (list ImportView.VEvent))
    (s : RemoteView.State) (si : ImportView.State) :
  (RemoteView.countryCode s = "IN" ->
     RemoteView.holidays (RemoteView.fetchHolidays tza net s) = [] /\
     RemoteView.errorMessage (RemoteView.fetchHolidays tza net s)
       = Some RemoteView.msgDataUnavailable /\
     RemoteView.requests (RemoteView.fetchHolidays tza net s)
       = RemoteView.requests s) /\
  (RemoteView.countryCode s <> "IN" ->
   forall e,
     RemoteView.tryBody tza
       (net (RemoteView.holidaysUrl (getFullYear (RemoteView.baseDate s))
               (RemoteView.countryCode s))) = Throw e ->
     RemoteView.holidays (RemoteView.fetchHolidays tza net s) = [] /\
     RemoteView.errorMessage (RemoteView.fetchHolidays tza net s)
       = Some RemoteView.msgFetchFailed) /\
  RemoteView.msgFetchFailed <> RemoteView.msgDataUnavailable /\
  (forall text e,
     (vevents ← ICAL_vevents text;
      ImportView.mapExn ImportView.toHoliday vevents) = Throw e ->
     ImportView.holidays
       (ImportView.handleICSFile ICAL_vevents (Some text) si)
       = ImportView.holidays si /\
     ImportView.showOnlyHolidays
       (ImportView.handleICSFile ICAL_vevents (Some text) si)
       = ImportView.showOnlyHolidays si /\
     ImportView.alerts
       (ImportView.handleICSFile ICAL_vevents (Some text) si)
       = ImportView.alerts si ++ [ImportView.msgImportFailed]).
Proof.
  split.
  { intros Hc. unfold RemoteView.fetchHolidays. cbv zeta.
    cbn [RemoteView.setErrorMessage RemoteView.countryCode].
    rewrite bool_decide_eq_true_2 by done. done. }
  split.
  { intros Hc e He. unfold RemoteView.fetchHolidays. cbv zeta.
    cbn [RemoteView.setErrorMessage RemoteView.countryCode
         RemoteView.baseDate RemoteView.logRequest].
    rewrite bool_decide_eq_false_2 by done.
    cbn [RemoteView.baseDate RemoteView.countryCode]. by rewrite He. }
  split; [done|].
  intros text e He. unfold ImportView.handleICSFile. by rewrite He.
Qed.

(** The three failures on concrete states: stale holidays are emptied for
    the blocked country and for an unreachable service, and kept when a
    file cannot be parsed. *)
Lemma failure_post_states_witness :
  RemoteView.holidays
    (RemoteView.fetchHolidays 0 (fun _ => RemoteView.FetchRejected)
       (RemoteView.mkState (ofYMD 2025 5 15) "IN"
          [mkHoliday "2025-07-04" "Independence Day" regular] false None [] []))
    = [] /\
  RemoteView.requests
    (RemoteView.fetchHolidays 0 (fun _ => RemoteView.FetchRejected)
       (RemoteView.mkState (ofYMD 2025 5 15) "IN"
          [mkHoliday "2025-07-04" "Independence Day" regular] false None [] []))
    = [] /\
  RemoteView.holidays
    (RemoteView.fetchHolidays 0 (fun _ => RemoteView.FetchRejected)
       (RemoteView.mkState (ofYMD 2025 5 15) "US"
          [mkHoliday "2025-07-04" "Independence Day" regular] false None [] []))
    = [] /\
  RemoteView.errorMessage
    (RemoteView.fetchHolidays 0 (fun _ => RemoteView.FetchRejected)
       (RemoteView.mkState (ofYMD 2025 5 15) "US"
          [mkHoliday "2025-07-04" "Independence Day" regular] false None [] []))
    = Some "Failed to load holiday data." /\
  ImportView.holidays
    (ImportView.handleICSFile (fun _ => Throw "ParserError")
       (Some "not a calendar") (ImportView.initialState (ofYMD 2025 5 15)))
    = ImportView.initialHolidays.
Proof.
  pose proof (failure_post_states 0 (fun _ => RemoteView.FetchRejected)
    (fun _ => Throw "ParserError")
    (RemoteView.mkState (ofYMD 2025 5 15) "IN"
       [mkHoliday "2025-07-04" "Independence Day" regular] false None [] [])
    (ImportView.initialState (ofYMD 2025 5 15))) as (Hin & _ & _ & Himp).
  pose proof (failure_post_states 0 (fun _ => RemoteView.FetchRejected)
    (fun _ => Throw "ParserError")
    (RemoteView.mkState (ofYMD 2025 5 15) "US"
       [mkHoliday "2025-07-04" "Independence Day" regular] false None [] [])
    (ImportView.initialState (ofYMD 2025 5 15))) as (_ & Hus & _ & _).
  destruct (Hin eq_refl) as (H1 & _ & H2).
  destruct (Hus ltac:(discriminate) _ eq_refl) as (H3 & H4).
  destruct (Himp "not a calendar" "ParserError" eq_refl) as (H5 & _ & _).
  repeat split; assumption.
Defined.

(* ================================================================== *)
(** ** The show-only-holidays filter *)
(* ================================================================== *)

(** With the filter on, a cell is the cell drawn with the filter off, or
    the empty placeholder when the day carries no holiday. *)
Lemma renderDay_filter hs now monthDate ov day :
  RemoteView.renderDay hs true now monthDate ov day =
  if (List.length (remoteDayHolidays hs monthDate day) =? 0)%nat then Blank
  else RemoteView.renderDay hs false now monthDate ov day.
Proof.
  rewrite !remote_renderDay_eq. cbv zeta. cbn [andb].
  by destruct (List.length (remoteDayHolidays hs monthDate day) =? 0)%nat.
Qed.

(** C9.  The counts of a week, and with them its highlight, do not depend
    on the show-only-holidays filter: two states that differ only in that
    flag give every week row of every month panel the same work count,
    regular count, override flag and class.  The filter only replaces the
    cells of days without holidays by an empty placeholder; every other
    cell is drawn the same. *)
Theorem counts_ignore_filter (now : Date) (s : RemoteView.State) (b : bool) :
  map (map (fun row => (RemoteView.workCount row, RemoteView.regularCount row,
                        RemoteView.overrideWeekDarkGrey row,
                        RemoteView.className row)))
      (RemoteView.render now (RemoteView.setShowOnlyHolidays b s))
  = map (map (fun row => (RemoteView.workCount row, RemoteView.regularCount row,
                          RemoteView.overrideWeekDarkGrey row,
                          RemoteView.className row)))
        (RemoteView.render now s) /\
  (forall monthDate ov day,
     RemoteView.renderDay (RemoteView.holidays s) true now monthDate ov day =
     if (List.length (remoteDayHolidays (RemoteView.holidays s) monthDate day)
         =? 0)%nat
     then Blank
     else RemoteView.renderDay (RemoteView.holidays s) false now monthDate ov day).
Proof.
  split; [|intros; apply renderDay_filter].
  unfold RemoteView.render.
  cbn [RemoteView.setShowOnlyHolidays RemoteView.holidays
       RemoteView.showOnlyHolidays RemoteView.baseDate].
  rewrite !map_map. apply map_ext. intros monthDate.
  unfold RemoteView.renderMonth. cbv zeta.
  rewrite !map_map. apply map_ext. intros week. reflexivity.
Qed.

(* ================================================================== *)
(** ** Date strings and the weekend test *)
(* ================================================================== *)

Ltac nlia := zify; Z.to_euclidean_division_equations; lia.

Lemma pretty_N_char_digitChar (x : N) :
  (x < 10)%N -> pretty_N_char x = digitChar (Z.of_N x).
Proof.
  intros Hx.
  assert (Hin : x ∈ [0;1;2;3;4;5;6;7;8;9]%N) by (rewrite !elem_of_cons; lia).
  rewrite !elem_of_cons in Hin.
  repeat (destruct Hin as [-> | Hin]; [reflexivity|]).
  by apply elem_of_nil in Hin.
Qed.

(** The decimal digits of a number below 10000, most significant first,
    without leading zeros. *)
Lemma pretty_N_digits (x : N) :
  (x < 10000)%N ->
  pretty x =
    if decide (x < 10)%N then String (pretty_N_char x) ""
    else if decide (x < 100)%N
    then String (pretty_N_char (x / 10)) (String (pretty_N_char (x mod 10)) "")
    else if decide (x < 1000)%N
    then String (pretty_N_char (x / 100))
           (String (pretty_N_char ((x / 10) mod 10))
              (String (pretty_N_char (x mod 10)) ""))
    else String (pretty_N_char (x / 1000))
           (String (pretty_N_char ((x / 100) mod 10))
              (String (pretty_N_char ((x / 10) mod 10))
                 (String (pretty_N_char (x mod 10)) ""))).
Proof.
  intros Hx. unfold pretty, pretty_N.
  destruct (decide (x = 0)%N) as [-> | Hne]; [done|].
  rewrite pretty_N_go_step by lia.
  destruct (decide (x < 10)%N) as [H1 | H1].
  { replace (x `div` 10)%N with 0%N by nlia. rewrite pretty_N_go_0.
    by replace (x `mod` 10)%N with x by nlia. }
  rewrite pretty_N_go_step by nlia.
  destruct (decide (x < 100)%N) as [H2 | H2].
  { replace ((x `div` 10) `div` 10)%N with 0%N by nlia. rewrite pretty_N_go_0.
    by replace ((x `div` 10) `mod` 10)%N with (x `div` 10)%N by nlia. }
  rewrite pretty_N_go_step by nlia.
  destruct (decide (x < 1000)%N) as [H3 | H3].
  { replace (((x `div` 10) `div` 10) `div` 10)%N with 0%N by nlia.
    rewrite pretty_N_go_0.
    replace (((x `div` 10) `div` 10) `mod` 10)%N with (x `div` 100)%N by nlia.
    done. }
  rewrite pretty_N_go_step by nlia.
  replace ((((x `div` 10) `div` 10) `div` 10) `div` 10)%N with 0%N by nlia.
  rewrite pretty_N_go_0.
  replace ((((x `div` 10) `div` 10) `div` 10) `mod` 10)%N with (x `div` 1000)%N by nlia.
  replace (((x `div` 10) `div` 10) `mod` 10)%N with ((x `div` 100) `mod` 10)%N by nlia.
  done.
Qed.

Ltac pad_digits :=
  unfold padStart0;
  cbn [String.length Nat.sub replicate String.string_of_list_ascii];
  cbv beta iota fix delta [String.append];
  change "0"%char with (digitChar 0);
  rewrite ?pretty_N_char_digitChar by nlia;
  repeat f_equal; nlia.

Lemma addLeadingZeros_4 n : 0 <= n < 10000 -> addLeadingZeros n 4 = fourDigits n.
Proof.
  intros Hn. unfold addLeadingZeros. cbv zeta.
  destruct (Z.ltb_spec n 0); [lia|].
  rewrite pretty_N_digits by lia. unfold fourDigits.
  repeat case_decide; pad_digits.
Qed.

Lemma addLeadingZeros_2 n : 0 <= n < 100 -> addLeadingZeros n 2 = twoDigits n.
Proof.
  intros Hn. unfold addLeadingZeros. cbv zeta.
  destruct (Z.ltb_spec n 0); [lia|].
  rewrite pretty_N_digits by lia. unfold twoDigits.
  repeat case_decide; try lia; pad_digits.
Qed.

Lemma addLeadingZeros_1 n : 0 <= n < 100 ->
  addLeadingZeros n 1 =
  if n <? 10 then String (digitChar n) "" else twoDigits n.
Proof.
  intros Hn. unfold addLeadingZeros. cbv zeta.
  destruct (Z.ltb_spec n 0); [lia|].
  rewrite pretty_N_digits by lia. unfold twoDigits.
  destruct (Z.ltb_spec n 10); repeat case_decide; try lia; pad_digits.
Qed.

Lemma digit_digitChar k : 0 <= k <= 9 -> digit (digitChar k) = Some k.
Proof.
  intros Hk.
  assert (Hin : k ∈ [0;1;2;3;4;5;6;7;8;9]) by (rewrite !elem_of_cons; lia).
  rewrite !elem_of_cons in Hin.
  repeat (destruct Hin as [-> | Hin]; [reflexivity|]).
  by apply elem_of_nil in Hin.
Qed.

Lemma format_yyyy_MM_dd_digits d :
  1 <= getFullYear d <= 9999 ->
  format_yyyy_MM_dd d =
  fourDigits (getFullYear d) +:+ "-" +:+ twoDigits (getMonth d + 1)
    +:+ "-" +:+ twoDigits (getDate d).
Proof.
  intros Hy. unfold format_yyyy_MM_dd. cbv zeta.
  pose proof (MonthFromTime_range d) as Hm.
  pose proof (DateFromTime_range d) as Hd.
  rewrite <- getMonth_unfold in Hm. rewrite <- getDate_unfold in Hd.
  revert Hy Hm Hd.
  generalize (getFullYear d) as y, (getMonth d) as m, (getDate d) as dt.
  intros y m dt Hy Hm Hd.
  destruct (Z.ltb_spec 0 y); [|lia].
  by rewrite addLeadingZeros_4, !addLeadingZeros_2 by lia.
Qed.

Lemma parseDateOnly_digits y m dt :
  0 <= y <= 9999 -> 1 <= m <= 12 -> 1 <= dt <= 31 ->
  parseDateOnly (fourDigits y +:+ "-" +:+ twoDigits m +:+ "-" +:+ twoDigits dt)
  = Some (y, m, dt).
Proof.
  intros Hy Hm Hd. unfold parseDateOnly, fourDigits, twoDigits.
  cbv beta iota fix delta [String.append String.list_ascii_of_string].
  rewrite !digit_digitChar by zlia. cbn [mbind option_bind].
  rewrite !bool_decide_eq_true_2 by done.
  replace (1000 * (y / 1000) + 100 * ((y / 100) mod 10)
           + 10 * ((y / 10) mod 10) + y mod 10) with y by zlia.
  replace (10 * (m / 10) + m mod 10) with m by zlia.
  replace (10 * (dt / 10) + dt mod 10) with dt by zlia.
  destruct (Z.leb_spec 1 m); [|lia]. destruct (Z.leb_spec m 12); [|lia].
  destruct (Z.leb_spec 1 dt); [|lia]. destruct (Z.leb_spec dt 31); [|lia].
  done.
Qed.

(** Reading back the date string of a day gives its year, month and day. *)
Lemma parseDateOnly_format d :
  1 <= getFullYear d <= 9999 ->
  parseDateOnly (format_yyyy_MM_dd d)
  = Some (getFullYear d, getMonth d + 1, getDate d).
Proof.
  intros Hy. rewrite format_yyyy_MM_dd_digits by done.
  pose proof (MonthFromTime_range d) as Hm.
  pose proof (DateFromTime_range d) as Hd.
  rewrite <- getMonth_unfold in Hm. rewrite <- getDate_unfold in Hd.
  apply parseDateOnly_digits; lia.
Qed.

Lemma MakeDay_civil d :
  MakeDay (getFullYear d) (getMonth d) (getDate d) = Day d.
Proof.
  rewrite getFullYear_unfold, getMonth_unfold, getDate_unfold.
  rewrite <- (Z.add_0_r (DateFromTime d)), MakeDay_rel. lia.
Qed.

Lemma newDate_format tza d :
  1 <= getFullYear d <= 9999 ->
  newDate tza (format_yyyy_MM_dd d) = Some (startOfDay d + tza).
Proof.
  intros Hy. unfold newDate. rewrite parseDateOnly_format by done.
  cbn [mbind option_bind].
  replace (getMonth d + 1 - 1) with (getMonth d) by lia.
  rewrite MakeDay_civil, startOfDay_eq. unfold MakeDate. f_equal. lia.
Qed.

Lemma format_inj d1 d2 :
  1 <= getFullYear d1 <= 9999 -> 1 <= getFullYear d2 <= 9999 ->
  format_yyyy_MM_dd d1 = format_yyyy_MM_dd d2 ->
  startOfDay d1 = startOfDay d2 /\ getMonth d1 = getMonth d2.
Proof.
  intros H1 H2 E.
  pose proof (parseDateOnly_format d1 H1) as P1.
  pose proof (parseDateOnly_format d2 H2) as P2.
  rewrite E, P2 in P1. injection P1 as Ey Em Ed.
  assert (Em' : getMonth d1 = getMonth d2) by lia.
  split; [|done].
  rewrite !startOfDay_eq, <- (MakeDay_civil d1), <- (MakeDay_civil d2).
  by rewrite Ey, Em', Ed.
Qed.

(** X1.  The weekend test on the date string of a day.  For a day of the
    years 1 to 9999, [isWeekend] applied to the string that [format] makes
    of the day answers by the day's own weekday when the local zone is on
    or east of Greenwich, and by the weekday of the day before when it is
    west of it. *)
Theorem isWeekend_format (tza : Z) (d : Date) :
  1 <= getFullYear d <= 9999 ->
  - msPerDay <= tza < msPerDay ->
  RemoteView.isWeekend tza (format_yyyy_MM_dd d) =
    if 0 <=? tza
    then (getDay d =? 0) || (getDay d =? 6)
    else ((getDay d + 6) mod 7 =? 0) || ((getDay d + 6) mod 7 =? 6).
Proof.
  intros Hy Htz. unfold RemoteView.isWeekend.
  rewrite newDate_format by done. cbv zeta.
  rewrite startOfDay_eq. unfold getDay, WeekDay.
  destruct (Z.leb_spec 0 tza).
  - by rewrite Day_mul_add by lia.
  - replace (Day d * msPerDay + tza)
      with ((Day d - 1) * msPerDay + (tza + msPerDay)) by lia.
    rewrite Day_mul_add by lia.
    replace ((Day d - 1 + 4) mod 7) with (((Day d + 4) mod 7 + 6) mod 7) by zlia.
    done.
Qed.

(** Saturday 5 July 2025, five hours west of Greenwich. *)
Lemma isWeekend_format_witness :
  RemoteView.isWeekend (-18000000) (format_yyyy_MM_dd (ofYMD 2025 6 5)) = false.
Proof.
  rewrite (isWeekend_format (-18000000) (ofYMD 2025 6 5));
    [reflexivity | vm_compute; split; discriminate
     | unfold msPerDay; lia].
Defined.

(* ================================================================== *)
(** ** The rows of a panel *)
(* ================================================================== *)

Lemma daysFrom_app n m : forall t,
  daysFrom (n + m) t = daysFrom n t ++ daysFrom m (t + Z.of_nat n * msPerDay).
Proof.
  induction n as [|n IH]; intros t.
  - cbn [Nat.add daysFrom app]. f_equal. lia.
  - cbn [Nat.add daysFrom app]. rewrite IH. do 3 f_equal. unfold msPerDay. lia.
Qed.

Lemma chunks7_daysFrom n : forall t,
  chunks7 n (daysFrom (7 * n) t) =
  map (fun i => daysFrom 7 (t + 7 * Z.of_nat i * msPerDay)) (seq 0 n).
Proof.
  induction n as [|n IH]; intros t; [done|].
  replace (7 * S n)%nat with (7 + 7 * n)%nat by lia.
  rewrite daysFrom_app. cbn [chunks7 seq map].
  rewrite take_app_length' by (by rewrite daysFrom_length).
  rewrite drop_app_length' by (by rewrite daysFrom_length).
  f_equal.
  - f_equal. lia.
  - rewrite IH, <- seq_shift, map_map. apply map_ext. intros i.
    f_equal. unfold msPerDay. lia.
Qed.

(** On a whole number of weeks [getWeeks] cuts groups of seven. *)
Lemma getWeeks_multiple {A : Type} (days : list A) :
  (List.length days mod 7 = 0)%nat ->
  getWeeks days = chunks7 (List.length days / 7) days.
Proof.
  intros Hm.
  destruct (getWeeks_decompose days) as (full & rest & E & Hf & Hd & Hn & Hr).
  rewrite Hm in Hr. apply nil_length_inv in Hr. subst rest.
  cbn in E. rewrite app_nil_r in Hd.
  rewrite E, <- Hn, Hd.
  rewrite <- (app_nil_r (concat full)). symmetry.
  by apply chunks7_concat_app.
Qed.

Lemma getDay_next t : getDay (t + msPerDay) = (getDay t + 1) mod 7.
Proof.
  unfold getDay, WeekDay.
  replace (Day (t + msPerDay)) with (Day t + 1)
    by (unfold Day, msPerDay; zlia).
  zlia.
Qed.

Lemma getDay_daysFrom7 t :
  getDay t = 0 -> map getDay (daysFrom 7 t) = [0; 1; 2; 3; 4; 5; 6].
Proof.
  intros Hw. cbn [daysFrom map]. by rewrite !getDay_next, Hw.
Qed.

Lemma gridStart_unfold t : gridStart t = firstDay t - (firstDay t + 4) mod 7.
Proof. reflexivity. Qed.

Lemma gridEnd_unfold t : gridEnd t = lastDay t + 6 - (lastDay t + 4) mod 7.
Proof. reflexivity. Qed.

Lemma gridStart_same a b :
  getFullYear a = getFullYear b -> getMonth a = getMonth b ->
  gridStart a = gridStart b /\ gridEnd a = gridEnd b.
Proof.
  rewrite !getFullYear_unfold, !getMonth_unfold. intros Hy Hm.
  pose proof (InLeapYear_same_year b a Hy) as Hl.
  assert (Hf : firstDay a = firstDay b).
  { rewrite !firstDay_unfold. rewrite Hy, Hm, Hl. reflexivity. }
  assert (Hla : lastDay a = lastDay b).
  { rewrite !lastDay_unfold. rewrite Hy, Hm, Hl. reflexivity. }
  rewrite !gridStart_unfold, !gridEnd_unfold. rewrite Hf, Hla.
  split; reflexivity.
Qed.

Lemma getMonthDays_same_month a b :
  getFullYear a = getFullYear b -> getMonth a = getMonth b ->
  getMonthDays a = getMonthDays b.
Proof.
  intros Hy Hm. destruct (gridStart_same a b Hy Hm) as [Hs He].
  by rewrite !getMonthDays_eq, Hs, He.
Qed.

Lemma getWeeks_getMonthDays a :
  exists n : nat, (n = 4 \/ n = 5 \/ n = 6)%nat /\
    getWeeks (getMonthDays a) =
    map (fun i => daysFrom 7 ((gridStart a + 7 * Z.of_nat i) * msPerDay))
        (seq 0 n).
Proof.
  destruct (grid_length a) as (n & Hn & E). exists n. split; [done|].
  rewrite getMonthDays_eq.
  replace (Z.to_nat (gridEnd a - gridStart a + 1)) with (7 * n)%nat by lia.
  rewrite getWeeks_multiple; rewrite daysFrom_length.
  2: { rewrite Nat.mul_comm. apply Nat.Div0.mod_mul. }
  rewrite Nat.mul_comm, Nat.div_mul by done. rewrite Nat.mul_comm.
  rewrite chunks7_daysFrom. apply map_ext. intros i. f_equal. lia.
Qed.

(** Years move by at most one over a year's worth of days. *)
Lemma YearFromTime_near a t :
  Day a - 365 <= Day t <= Day a + 365 ->
  YearFromTime a - 1 <= YearFromTime t <= YearFromTime a + 1.
Proof.
  intros Hd.
  pose proof (YearFromTime_spec a) as Ha. pose proof (YearFromTime_spec t) as Ht.
  generalize dependent (YearFromTime a). generalize dependent (YearFromTime t).
  generalize dependent (Day a). generalize dependent (Day t).
  intros Dt Da Hd yt Ht ya Ha.
  split.
  - destruct (Z.le_gt_cases (ya - 1) yt) as [|Hlt]; [done|].
    pose proof (DayFromYear_mono (yt + 1) (ya - 1) ltac:(lia)).
    pose proof (DayFromYear_succ (ya - 1)) as Hs.
    replace (ya - 1 + 1) with ya in Hs by lia.
    destruct (DaysInYear_cases (ya - 1)); lia.
  - destruct (Z.le_gt_cases yt (ya + 1)) as [|Hlt]; [done|].
    pose proof (DayFromYear_mono (ya + 2) yt ltac:(lia)).
    pose proof (DayFromYear_succ (ya + 1)) as Hs.
    replace (ya + 1 + 1) with (ya + 2) in Hs by lia.
    destruct (DaysInYear_cases (ya + 1)); lia.
Qed.

Lemma getMonthDays_elem a x :
  x ∈ getMonthDays a ->
  x = Day x * msPerDay /\ gridStart a <= Day x <= gridEnd a.
Proof.
  rewrite getMonthDays_eq. intros Hin%list_elem_of_In%In_daysFrom.
  destruct Hin as (k & Hk & ->).
  replace (gridStart a * msPerDay + Z.of_nat k * msPerDay)
    with ((gridStart a + Z.of_nat k) * msPerDay) by lia.
  rewrite Day_mul. split; [done | lia].
Qed.

Lemma getMonthDays_year a x :
  x ∈ getMonthDays a ->
  getFullYear a - 1 <= getFullYear x <= getFullYear a + 1.
Proof.
  intros (_ & Hx)%getMonthDays_elem.
  rewrite !getFullYear_unfold. apply YearFromTime_near.
  pose proof (grid_covers_month a) as (Hs & He & _).
  pose proof (Day_in_month a). pose proof (month_length a). lia.
Qed.

Lemma NoDup_daysFrom n : forall t, NoDup (daysFrom n t).
Proof.
  induction n as [|n IH]; intros t; cbn [daysFrom]; constructor; [|apply IH].
  intros Hin%list_elem_of_In%In_daysFrom. destruct Hin as (k & _ & E).
  unfold msPerDay in E. lia.
Qed.

Lemma NoDup_map_format (l : list Date) :
  Forall (fun x => 1 <= getFullYear x <= 9999 /\ x = Day x * msPerDay) l ->
  NoDup l -> NoDup (map format_yyyy_MM_dd l).
Proof.
  intros Hall Hnd. apply NoDup_fmap_2_strong; [|done].
  intros x y Hx Hy E.
  destruct (proj1 (Forall_forall _ _) Hall x Hx) as [Yx Ex].
  destruct (proj1 (Forall_forall _ _) Hall y Hy) as [Yy Ey].
  destruct (format_inj x y Yx Yy E) as [Es _].
  rewrite !startOfDay_eq in Es. rewrite Ex, Ey. exact Es.
Qed.

Lemma getMonthDays_format_NoDup a :
  2 <= getFullYear a <= 9998 ->
  NoDup (map format_yyyy_MM_dd (getMonthDays a)).
Proof.
  intros Hy. apply NoDup_map_format.
  - apply Forall_forall. intros x Hx.
    pose proof (getMonthDays_year a x Hx).
    apply getMonthDays_elem in Hx as [Ex _]. split; [lia | exact Ex].
  - rewrite getMonthDays_eq. apply NoDup_daysFrom.
Qed.

Section GetWeeksMap.
Context {A B : Type} (f : A -> B).

Lemma getWeeks_fold_map (days : list A) : forall weeks week,
  fold_left getWeeks_step (map f days) (map (map f) weeks, map f week)
  = (map (map f) (fold_left getWeeks_step days (weeks, week)).1,
     map f (fold_left getWeeks_step days (weeks, week)).2).
Proof.
  induction days as [|d days IH]; intros weeks week; [done|].
  cbn [map fold_left]. rewrite !getWeeks_step_eq.
  rewrite !length_app, !length_map. cbn [List.length].
  change [f d] with (map f [d]). rewrite <- List.map_app.
  destruct (_ =? 7)%nat.
  - change [map f (week ++ [d])] with (map (map f) [week ++ [d]]).
    rewrite <- List.map_app.
    exact (IH (weeks ++ [week ++ [d]]) []).
  - exact (IH weeks (week ++ [d])).
Qed.

Lemma getWeeks_map (days : list A) :
  getWeeks (map f days) = map (map f) (getWeeks days).
Proof.
  rewrite !getWeeks_unfold. cbv zeta.
  pose proof (getWeeks_fold_map days [] []) as E. cbn [map] in E.
  rewrite E. cbn [fst snd]. rewrite length_map.
  destruct (_ =? 0)%nat; [done|]. by rewrite List.map_app.
Qed.

End GetWeeksMap.

(** X2.  The rows of a month panel.  In a local zone whose offset from
    UTC does not change, for every anchor, [getWeeks] applied to
    [getMonthDays] gives four, five or six rows; each row is seven
    consecutive days running from a Sunday to a Saturday, the rows follow
    one another without a gap, and together they are the grid.  On UTC
    time values, read through a zone with one offset, the running code
    gives these same rows.  Where the zone changes its offset the last
    row can fall short: in Samoa the rows of December 2011 have 7, 7, 7,
    7 and 6 days. *)
Theorem panel_rows (anchor : Date) :
  exists n : nat,
    (n = 4 \/ n = 5 \/ n = 6)%nat /\
    List.length (getWeeks (getMonthDays anchor)) = n /\
    getWeeks (getMonthDays anchor) =
      map (fun i => daysFrom 7
                      (addDays (startOfWeek (startOfMonth anchor) 0)
                               (7 * Z.of_nat i)))
          (seq 0 n) /\
    Forall (fun row => map getDay row = [0; 1; 2; 3; 4; 5; 6])
           (getWeeks (getMonthDays anchor)) /\
    concat (getWeeks (getMonthDays anchor)) = getMonthDays anchor /\
    (forall z : Zone, zoneBefore z = zoneAfter z ->
       getWeeks (Zoned.getMonthDays z (Zoned.UTC z anchor))
       = map (map (Zoned.UTC z)) (getWeeks (getMonthDays anchor))) /\
    map (@List.length Date)
      (getWeeks (Zoned.getMonthDays pacificApia
                   (Zoned.UTC pacificApia (ofYMD 2011 11 15))))
    = [7; 7; 7; 7; 6]%nat.
Proof.
  assert (Hzone : forall z : Zone, zoneBefore z = zoneAfter z ->
       getWeeks (Zoned.getMonthDays z (Zoned.UTC z anchor))
       = map (map (Zoned.UTC z)) (getWeeks (getMonthDays anchor))).
  { intros z Hc. rewrite (zoned_getMonthDays_UTC z anchor Hc).
    apply getWeeks_map. }
  assert (Hapia : map (@List.length Date)
      (getWeeks (Zoned.getMonthDays pacificApia
                   (Zoned.UTC pacificApia (ofYMD 2011 11 15))))
    = [7; 7; 7; 7; 6]%nat) by (vm_compute; reflexivity).
  revert Hzone Hapia.
  generalize (Zoned.getMonthDays pacificApia
                (Zoned.UTC pacificApia (ofYMD 2011 11 15))) as apia.
  intros apia Hzone Hapia.
  destruct (getWeeks_getMonthDays anchor) as (n & Hn & E).
  destruct (grid_bounds_eq anchor) as [Es _].
  exists n. split; [done|]. revert Hzone. rewrite E. intros Hzone.
  split; [by rewrite length_map, length_seq|].
  split.
  { apply map_ext. intros i. f_equal. rewrite addDays_eq, Es. lia. }
  split.
  { apply Forall_forall. intros row Hrow.
    apply list_elem_of_In, in_map_iff in Hrow as (i & <- & _).
    apply getDay_daysFrom7. unfold getDay. rewrite WeekDay_mul.
    destruct (grid_covers_month anchor) as (_ & _ & Hsun & _). zlia. }
  split; [rewrite <- E; apply concat_getWeeks|].
  split; [exact Hzone | exact Hapia].
Qed.

Lemma remote_renderMonth_unfold hs flt now monthDate :
  RemoteView.renderMonth hs flt now monthDate =
  map (RemoteView.renderWeek hs flt now monthDate)
      (getWeeks (getMonthDays monthDate)).
Proof. reflexivity. Qed.

Lemma import_renderMonth_unfold hs flt now monthDate :
  ImportView.renderMonth hs flt now monthDate =
  map (ImportView.renderWeek hs flt now monthDate)
      (getWeeks (getMonthDays monthDate)).
Proof. reflexivity. Qed.

Lemma remote_renderWeek_unfold hs flt now monthDate week :
  RemoteView.renderWeek hs flt now monthDate week =
  RemoteView.mkWeekRow
    (RemoteView.countHolidaysInWeekByMonth hs week work (getMonth monthDate))
    (RemoteView.countHolidaysInWeekByMonth hs week regular (getMonth monthDate))
    (2 <=? RemoteView.countHolidaysInWeekByMonth hs week regular
             (getMonth monthDate))%nat
    ("grid grid-cols-7 gap-1 " +:+
       trim (RemoteView.weekClass
               (RemoteView.countHolidaysInWeekByMonth hs week regular
                  (getMonth monthDate))
               (RemoteView.countHolidaysInWeekByMonth hs week work
                  (getMonth monthDate))))
    (map (RemoteView.renderDay hs flt now monthDate
            (2 <=? RemoteView.countHolidaysInWeekByMonth hs week regular
                     (getMonth monthDate))%nat) week).
Proof. reflexivity. Qed.

Lemma import_renderWeek_unfold hs flt now monthDate week :
  ImportView.renderWeek hs flt now monthDate week =
  ImportView.mkWeekRow
    (ImportView.countWorkHolidaysInWeek hs week)
    ("grid grid-cols-7 gap-1 " +:+
       ImportView.weekClass (ImportView.countWorkHolidaysInWeek hs week))
    (map (ImportView.renderDay hs flt now monthDate) week).
Proof. reflexivity. Qed.

Lemma remoteDayHolidays_unfold hs monthDate day :
  remoteDayHolidays hs monthDate day =
  if getMonth monthDate =? getMonth day
  then filter (fun h => bool_decide (date h = format_yyyy_MM_dd day)) hs
  else [].
Proof. reflexivity. Qed.

Lemma renderMonth_same_month hs flt now a b :
  getFullYear a = getFullYear b -> getMonth a = getMonth b ->
  RemoteView.renderMonth hs flt now a = RemoteView.renderMonth hs flt now b /\
  ImportView.renderMonth hs flt now a = ImportView.renderMonth hs flt now b.
Proof.
  intros Hy Hm. pose proof (getMonthDays_same_month a b Hy Hm) as Hg.
  rewrite !remote_renderMonth_unfold, !import_renderMonth_unfold, Hg.
  split; apply map_ext; intros week.
  - rewrite !remote_renderWeek_unfold, Hm. f_equal.
    apply map_ext. intros day.
    rewrite !remote_renderDay_eq, !remoteDayHolidays_unfold, Hm. reflexivity.
  - rewrite !import_renderWeek_unfold. f_equal.
    apply map_ext. intros day.
    rewrite !import_renderDay_eq, Hm. reflexivity.
Qed.

(** X3.  A panel depends on its anchor only through the month.  Two
    anchors in the same month of the same year give the same grid and, in
    both views, the same rendered panel, whatever the day of the month and
    the time of day of the anchors. *)
Theorem panel_same_month (hs : list Holiday) (flt : bool)
    (now a b : Date) :
  getFullYear a = getFullYear b -> getMonth a = getMonth b ->
  getMonthDays a = getMonthDays b /\
  RemoteView.renderMonth hs flt now a = RemoteView.renderMonth hs flt now b /\
  ImportView.renderMonth hs flt now a = ImportView.renderMonth hs flt now b.
Proof.
  intros Hy Hm. split; [by apply getMonthDays_same_month|].
  by apply renderMonth_same_month.
Qed.

(** The first of June 2025 at midnight and the last of June at noon. *)
Lemma panel_same_month_witness :
  getMonthDays (ofYMD 2025 5 1) = getMonthDays (ofYMD 2025 5 30 + 43200000) /\
  RemoteView.renderMonth ImportView.initialHolidays false (ofYMD 2025 5 15)
    (ofYMD 2025 5 1)
  = RemoteView.renderMonth ImportView.initialHolidays false (ofYMD 2025 5 15)
      (ofYMD 2025 5 30 + 43200000).
Proof.
  destruct (panel_same_month ImportView.initialHolidays false (ofYMD 2025 5 15)
              (ofYMD 2025 5 1) (ofYMD 2025 5 30 + 43200000)
              ltac:(vm_compute; reflexivity) ltac:(vm_compute; reflexivity))
    as (H1 & H2 & _).
  split; [exact H1 | exact H2].
Defined.

Lemma panel_rows_shape a :
  Forall (fun row : list Date => List.length row = 7%nat)
         (getWeeks (getMonthDays a)) /\
  concat (getWeeks (getMonthDays a)) = getMonthDays a.
Proof.
  split; [|apply concat_getWeeks].
  destruct (getWeeks_getMonthDays a) as (n & _ & E). rewrite E.
  apply Forall_forall. intros row Hrow.
  apply list_elem_of_In, in_map_iff in Hrow as (i & <- & _).
  apply daysFrom_length.
Qed.

Lemma elem_sublist_concat {A : Type} (ls : list (list A)) (l : list A) :
  l ∈ ls -> sublist l (concat ls).
Proof.
  induction ls as [|x ls IH]; [by intros ?%elem_of_nil|].
  intros [-> | Hin]%elem_of_cons; cbn [concat].
  - by apply sublist_inserts_r.
  - by apply sublist_inserts_l, IH.
Qed.

Lemma count_NoDup hs (week : list Date) ty m :
  NoDup (map format_yyyy_MM_dd week) ->
  RemoteView.countHolidaysInWeekByMonth hs week ty m =
  List.length (filter (countsDay hs ty m) week).
Proof.
  intros Hnd. rewrite countHolidaysInWeekByMonth_set.
  rewrite size_list_to_set, length_map; [done|].
  eapply sublist_NoDup; [exact Hnd|].
  apply fmap_sublist, sublist_filter.
Qed.

(** X4.  Date strings tell the days of a panel apart.  For an anchor in
    the years 2 to 9998 no two days of the grid have the same date string,
    so a holiday record matches at most one day of a panel; and in every
    row of the panel the count of a type is the number of days of the row
    that lie in the month and carry a holiday of the type, seven at most. *)
Theorem panel_days_distinct (anchor : Date) (hs : list Holiday)
    (ty : HolidayType) (currentMonth : Z) :
  2 <= getFullYear anchor <= 9998 ->
  NoDup (map format_yyyy_MM_dd (getMonthDays anchor)) /\
  (forall s : string,
     List.length (filter (fun day => bool_decide (format_yyyy_MM_dd day = s))
                         (getMonthDays anchor)) <= 1)%nat /\
  Forall (fun week =>
            RemoteView.countHolidaysInWeekByMonth hs week ty currentMonth =
              List.length (filter (countsDay hs ty currentMonth) week) /\
            (RemoteView.countHolidaysInWeekByMonth hs week ty currentMonth
             <= 7)%nat)
         (getWeeks (getMonthDays anchor)).
Proof.
  intros Hy. pose proof (getMonthDays_format_NoDup anchor Hy) as Hnd.
  split; [done|]. split.
  { intros s. revert Hnd. generalize (getMonthDays anchor) as l. intros l Hnd.
    assert (Hf : NoDup (map format_yyyy_MM_dd
               (filter (fun day => bool_decide (format_yyyy_MM_dd day = s)) l))).
    { eapply sublist_NoDup; [exact Hnd|]. apply fmap_sublist, sublist_filter. }
    assert (Hall : Forall (fun day => format_yyyy_MM_dd day = s)
               (filter (fun day => bool_decide (format_yyyy_MM_dd day = s)) l)).
    { apply Forall_forall. intros y [Hb _]%list_elem_of_filter.
      by apply bool_decide_unpack in Hb. }
    destruct (filter _ l) as [|x [|y r]]; [cbn; lia | cbn; lia |].
    apply Forall_cons in Hall as [Ex Hall]. apply Forall_cons in Hall as [Ey _].
    cbn [map] in Hf. apply NoDup_cons in Hf as [Hx _].
    exfalso. apply Hx. rewrite Ex, <- Ey. left. }
  destruct (panel_rows_shape anchor) as (Hlen & Hcat).
  revert Hnd Hlen Hcat.
  generalize (getMonthDays anchor) as g, (getWeeks (getMonthDays anchor)) as ws.
  intros g ws Hnd Hlen Hcat.
  apply Forall_forall. intros week Hw.
  assert (Hwnd : NoDup (map format_yyyy_MM_dd week)).
  { eapply sublist_NoDup; [exact Hnd|].
    apply fmap_sublist. rewrite <- Hcat.
    by apply elem_sublist_concat. }
  rewrite (count_NoDup hs week ty currentMonth Hwnd). split; [done|].
  etrans; [apply length_filter|].
  by rewrite (proj1 (Forall_forall _ _) Hlen week Hw).
Qed.

Lemma panel_days_distinct_witness :
  NoDup (map format_yyyy_MM_dd (getMonthDays (ofYMD 2025 5 10))) /\
  (List.length
     (filter (fun day => bool_decide (format_yyyy_MM_dd day = "2025-06-10"))
             (getMonthDays (ofYMD 2025 5 10))) <= 1)%nat.
Proof.
  destruct (panel_days_distinct (ofYMD 2025 5 10) ImportView.initialHolidays
              work 5 ltac:(vm_compute; split; discriminate)) as (H1 & H2 & _).
  split; [exact H1 | exact (H2 "2025-06-10")].
Defined.

(* ================================================================== *)
(** ** The counter the component no longer calls *)
(* ================================================================== *)

Lemma countStepAll_fold hs ty (week : list Date) : forall acc : gset string,
  fold_left (countStepAll hs ty) week acc =
  list_to_set (map format_yyyy_MM_dd (filter (hasHolidayOn hs ty) week)) ∪ acc.
Proof.
  induction week as [|day week IH]; intros acc; cbn [fold_left].
  - rewrite filter_nil. cbn [map list_to_set]. by rewrite union_empty_l_L.
  - rewrite IH, filter_cons. unfold countStepAll at 1. cbv zeta.
    fold (hasHolidayOn hs ty day).
    destruct (hasHolidayOn hs ty day) eqn:E.
    + rewrite decide_True by done. cbn [map list_to_set].
      set_solver.
    + rewrite decide_False by (cbn; tauto). done.
Qed.

Lemma countHolidaysInWeek_set hs (week : list Date) ty :
  countHolidaysInWeek hs week ty =
  size (list_to_set (map format_yyyy_MM_dd (filter (hasHolidayOn hs ty) week))
          : gset string).
Proof.
  unfold countHolidaysInWeek. by rewrite countStepAll_fold, union_empty_r_L.
Qed.

Lemma countsDay_hasHolidayOn hs ty m day :
  countsDay hs ty m day = (getMonth day =? m) && hasHolidayOn hs ty day.
Proof. reflexivity. Qed.

Lemma filter_countsDay_split hs ty m (week : list Date) :
  filter (countsDay hs ty m) week =
  filter (fun day => getMonth day =? m) (filter (hasHolidayOn hs ty) week).
Proof.
  rewrite list_filter_filter. apply list_filter_iff. intros day.
  rewrite countsDay_hasHolidayOn. destruct (getMonth day =? m), (hasHolidayOn hs ty day); cbn; tauto.
Qed.

Lemma elem_of_date_set (P : Date -> bool) (week : list Date) (x : string) :
  x ∈ (list_to_set (map format_yyyy_MM_dd (filter P week)) : gset string) <->
  exists d, d ∈ week /\ P d = true /\ format_yyyy_MM_dd d = x.
Proof.
  rewrite elem_of_list_to_set, list_elem_of_In, in_map_iff. split.
  - intros (d & E & Hin). apply list_elem_of_In, list_elem_of_filter in Hin as [HP Hin].
    exists d. split; [done|]. split; [by apply Is_true_true | done].
  - intros (d & Hin & HP & E). exists d. split; [done|].
    apply list_elem_of_In, list_elem_of_filter. split; [by apply Is_true_true | done].
Qed.

Lemma filter_all_id {A : Type} (P : A -> bool) (l : list A) :
  Forall (fun x => P x = true) l -> filter P l = l.
Proof.
  induction 1 as [|x l Hx _ IH]; [done|].
  rewrite filter_cons, decide_True by (by rewrite Hx). by rewrite IH.
Qed.

(** X5.  The two week counters of the remote-service view.  The count
    restricted to a month never exceeds the unrestricted count of
    [countHolidaysInWeek]; the two agree on a week that lies in the month;
    and on a week whose days, of the years 1 to 9999, lie in two different
    months the unrestricted count is the sum of the counts of the two
    months, so that no day is counted for both. *)
Theorem countHolidaysInWeek_by_month (hs : list Holiday) (week : list Date)
    (ty : HolidayType) :
  (forall m,
     (RemoteView.countHolidaysInWeekByMonth hs week ty m
      <= countHolidaysInWeek hs week ty)%nat) /\
  (forall m,
     Forall (fun d => getMonth d = m) week ->
     RemoteView.countHolidaysInWeekByMonth hs week ty m
     = countHolidaysInWeek hs week ty) /\
  (forall m1 m2,
     m1 <> m2 ->
     Forall (fun d => 1 <= getFullYear d <= 9999 /\
                      (getMonth d = m1 \/ getMonth d = m2)) week ->
     countHolidaysInWeek hs week ty
     = (RemoteView.countHolidaysInWeekByMonth hs week ty m1
        + RemoteView.countHolidaysInWeekByMonth hs week ty m2)%nat).
Proof.
  split; [|split].
  - intros m. rewrite countHolidaysInWeekByMonth_set, countHolidaysInWeek_set.
    apply subseteq_size. intros x.
    rewrite !elem_of_date_set. intros (d & Hin & HP & E).
    exists d. rewrite countsDay_hasHolidayOn in HP.
    apply andb_true_iff in HP as [_ HP]. done.
  - intros m Hall.
    rewrite countHolidaysInWeekByMonth_set, countHolidaysInWeek_set.
    do 3 f_equal. rewrite filter_countsDay_split.
    apply filter_all_id, Forall_forall. intros d [_ Hin]%list_elem_of_filter.
    rewrite (proj1 (Forall_forall _ _) Hall d Hin), Z.eqb_refl. done.
  - intros m1 m2 Hne Hall.
    rewrite !countHolidaysInWeekByMonth_set, countHolidaysInWeek_set.
    rewrite <- size_union.
    + f_equal. apply set_eq. intros x.
      rewrite elem_of_union, !elem_of_date_set. split.
      * intros (d & Hin & HP & E).
        destruct (proj1 (Forall_forall _ _) Hall d Hin) as [_ [Hm | Hm]];
          [left | right]; exists d; rewrite countsDay_hasHolidayOn, Hm, Z.eqb_refl;
          by rewrite HP.
      * intros [(d & Hin & HP & E) | (d & Hin & HP & E)]; exists d;
          rewrite countsDay_hasHolidayOn in HP;
          apply andb_true_iff in HP as [_ HP]; done.
    + intros x. rewrite !elem_of_date_set.
      intros (d1 & Hin1 & HP1 & E1) (d2 & Hin2 & HP2 & E2).
      rewrite countsDay_hasHolidayOn in HP1, HP2.
      apply andb_true_iff in HP1 as [Hm1 _]. apply andb_true_iff in HP2 as [Hm2 _].
      apply Z.eqb_eq in Hm1, Hm2.
      destruct (proj1 (Forall_forall _ _) Hall d1 Hin1) as [Y1 _].
      destruct (proj1 (Forall_forall _ _) Hall d2 Hin2) as [Y2 _].
      destruct (format_inj d1 d2 Y1 Y2) as [_ Em]; [congruence|].
      apply Hne. congruence.
Qed.

(* ================================================================== *)
(** ** What the remote adapter stores *)
(* ================================================================== *)

(** A bar separates the two parts of a key unambiguously when the first
    part has none. *)
Lemma append_bar_inj (d1 d2 n1 n2 : string) :
  ~ In "|"%char (String.list_ascii_of_string d1) ->
  ~ In "|"%char (String.list_ascii_of_string d2) ->
  d1 +:+ "|" +:+ n1 = d2 +:+ "|" +:+ n2 -> d1 = d2 /\ n1 = n2.
Proof.
  revert d2. induction d1 as [|c d1 IH]; intros [|c' d2] H1 H2 E;
    cbn [String.append String.list_ascii_of_string In] in *.
  - by injection E.
  - injection E as <- _. tauto.
  - injection E as -> _. tauto.
  - injection E as <- E. destruct (IH d2) as [-> ->]; [tauto | tauto | done | done].
Qed.

Lemma keyOf_inj (r1 r2 : RawHoliday) :
  ~ In "|"%char (String.list_ascii_of_string (dateOf r1)) ->
  ~ In "|"%char (String.list_ascii_of_string (dateOf r2)) ->
  keyOf r1 = keyOf r2 -> dateOf r1 = dateOf r2 /\ nameOf r1 = nameOf r2.
Proof. unfold keyOf. apply append_bar_inj. Qed.

Section Exact.
Variable tza : Z.

Lemma filtered_elem data f :
  filtered tza data = Return f ->
  forall r, r ∈ f <-> RawObj r ∈ data /\ keepRecord tza r = true.
Proof.
  revert f. induction data as [|[|h] data IH]; intros f.
  - intros [= <-] r. split; [by intros ?%elem_of_nil | by intros [?%elem_of_nil _]].
  - done.
  - cbn [filtered]. destruct (filtered tza data) as [e | f'] eqn:Ef; [done|].
    cbn. intros [= <-] r. specialize (IH f' eq_refl r).
    rewrite elem_of_cons.
    destruct (keepRecord tza h) eqn:Ek.
    + rewrite elem_of_cons, IH. split.
      * intros [-> | [? ?]]; [by split; [left|] | by split; [right|]].
      * intros [[[= ->] | Hin] Hk]; [by left | by right].
    + rewrite IH. split.
      * intros [? ?]. by split; [right|].
      * intros [[[= ->] | Hin] Hk]; [congruence | done].
Qed.

Lemma filtered_throws data :
  (exists e, filtered tza data = Throw e) <-> RawNull ∈ data.
Proof.
  induction data as [|[|h] data IH].
  - split; [by intros [e ?] | by intros ?%elem_of_nil].
  - split; [intros _; left | intros _; by eexists].
  - cbn [filtered]. rewrite elem_of_cons, <- IH. split.
    + intros [e He]. right. destruct (filtered tza data) as [e' | f]; [by eexists | done].
    + intros [[=] | [e He]]. rewrite He. by eexists.
Qed.

Lemma filtered_no_null data :
  RawNull ∉ data ->
  filtered tza data =
  Return (filter (fun r => keepRecord tza r)
            (omap (fun i => match i with
                            | RawObj r => Some r
                            | RawNull => None
                            end) data)).
Proof.
  induction data as [|[|h] data IH]; intros Hn.
  - done.
  - exfalso. apply Hn. left.
  - cbn [filtered omap list_omap]. rewrite IH by (intros ?; apply Hn; by right).
    cbn [mbind Exn_bind]. rewrite filter_cons. destruct (keepRecord tza h).
    + by rewrite decide_True.
    + by rewrite decide_False by (cbn; tauto).
Qed.
End Exact.

(** X6.  What the remote adapter stores.  An answer with a null element
    makes the normalization throw.  Otherwise it returns a list in which
    every holiday is the canonical form of a record of the answer that
    passed the filter, in the order of the answer; and when no date of the
    answer contains a bar, every record that passed the filter has its
    canonical form in the list, so that only exact repetitions of a date
    and trimmed name are dropped. *)
Theorem normalize_exact (tza : Z) (data : list RawItem) :
  (RawNull ∈ data -> exists e, normalize tza data = Throw e) /\
  (RawNull ∉ data ->
   exists hs,
     normalize tza data = Return hs /\
     sublist hs
       (parsed (filter (fun r => keepRecord tza r)
                  (omap (fun i => match i with
                                  | RawObj r => Some r
                                  | RawNull => None
                                  end) data))) /\
     (forall h, h ∈ hs ->
        exists r, RawObj r ∈ data /\ keepRecord tza r = true /\
                  h = mkHoliday (dateOf r) (nameOf r) regular) /\
     ((forall r, RawObj r ∈ data ->
         ~ In "|"%char (String.list_ascii_of_string (dateOf r))) ->
      forall r, RawObj r ∈ data -> keepRecord tza r = true ->
        mkHoliday (dateOf r) (nameOf r) regular ∈ hs)).
Proof.
  split.
  { intros [e He]%(filtered_throws tza). exists e.
    unfold normalize. cbn [tryBody negb]. by rewrite He. }
  intros Hn. pose proof (filtered_no_null tza data Hn) as Ef.
  set (f := filter _ _) in Ef.
  exists (parsed (uniqueHolidays f)).
  split. { unfold normalize. cbn [tryBody negb]. by rewrite Ef. }
  split. { apply fmap_sublist, uniqueHolidays_sublist. }
  pose proof (filtered_elem tza data f Ef) as Hel.
  split.
  { intros h Hh. apply list_elem_of_In, in_map_iff in Hh as (r & <- & Hr).
    apply list_elem_of_In in Hr.
    pose proof (elem_of_sublist _ _ _ Hr (uniqueHolidays_sublist f)) as Hrf.
    apply Hel in Hrf as [Hin Hk]. by exists r. }
  intros Hbar r Hin Hk.
  assert (Hrf : r ∈ f) by (by apply Hel).
  assert (Hkey : keyOf r ∈ map keyOf (uniqueHolidays f)).
  { apply uniqueHolidays_keys, list_elem_of_In, in_map. by apply list_elem_of_In. }
  apply list_elem_of_In, in_map_iff in Hkey as (r' & Ek & Hr').
  apply list_elem_of_In in Hr'.
  pose proof (elem_of_sublist _ _ _ Hr' (uniqueHolidays_sublist f)) as Hr'f.
  apply Hel in Hr'f as [Hin' _].
  destruct (keyOf_inj r' r (Hbar r' Hin') (Hbar r Hin) Ek) as [Ed En].
  apply list_elem_of_In, in_map_iff. exists r'.
  split; [by rewrite Ed, En | by apply list_elem_of_In].
Qed.

(* ================================================================== *)
(** ** The fetch as a state transformer *)
(* ================================================================== *)

Lemma fetchHolidays_unfold tza net s :
  fetchHolidays tza net s =
  if bool_decide (countryCode s = "IN") then
    mkState (baseDate s) (countryCode s) [] (showOnlyHolidays s)
      (Some msgDataUnavailable) (requests s) (console s)
  else
    match tryBody tza (net (holidaysUrl (getFullYear (baseDate s))
                              (countryCode s))) with
    | Return parsed =>
        mkState (baseDate s) (countryCode s) parsed (showOnlyHolidays s) None
          (requests s ++ [holidaysUrl (getFullYear (baseDate s))
                            (countryCode s)])
          (console s)
    | Throw error =>
        mkState (baseDate s) (countryCode s) [] (showOnlyHolidays s)
          (Some msgFetchFailed)
          (requests s ++ [holidaysUrl (getFullYear (baseDate s))
                            (countryCode s)])
          (console s ++ [error])
    end.
Proof.
  destruct s as [b c h f e r k]. unfold fetchHolidays.
  cbn [setErrorMessage setHolidays logRequest consoleError baseDate
       countryCode holidays showOnlyHolidays errorMessage requests console].
  case_bool_decide; [reflexivity|].
  destruct (tryBody tza _); reflexivity.
Qed.

Lemma tryBody_regular tza o hs :
  tryBody tza o = Return hs -> Forall (fun h => type h = regular) hs.
Proof.
  destruct o as [|[] [| |data]]; cbn [tryBody negb]; try done.
  destruct (filtered tza data) as [e|f]; cbn [mbind Exn_bind]; [done|].
  intros [= <-]. unfold parsed. apply Forall_forall.
  intros h (r & <- & _)%list_elem_of_In%in_map_iff. reflexivity.
Qed.

Lemma fetchHolidays_regular tza net s :
  Forall (fun h => type h = regular) (holidays (fetchHolidays tza net s)).
Proof.
  rewrite fetchHolidays_unfold. case_bool_decide; [constructor|].
  destruct (tryBody tza _) as [e|hs] eqn:E; cbn [holidays]; [constructor|].
  by eapply tryBody_regular.
Qed.

Lemma fetchHolidays_start_unfold s :
  fetchHolidays_start s =
  if bool_decide (countryCode s = "IN") then
    (mkState (baseDate s) (countryCode s) [] (showOnlyHolidays s)
       (Some msgDataUnavailable) (requests s) (console s), None)
  else
    (mkState (baseDate s) (countryCode s) (holidays s) (showOnlyHolidays s)
       None
       (requests s ++ [holidaysUrl (getFullYear (baseDate s)) (countryCode s)])
       (console s),
     Some (holidaysUrl (getFullYear (baseDate s)) (countryCode s))).
Proof.
  destruct s as [b c h f e r k]. unfold fetchHolidays_start.
  cbn [setErrorMessage setHolidays logRequest baseDate countryCode holidays
       showOnlyHolidays errorMessage requests console].
  case_bool_decide; reflexivity.
Qed.

Lemma fetchHolidays_settle_unfold tza o s :
  fetchHolidays_settle tza o s =
  match tryBody tza o with
  | Return parsed =>
      mkState (baseDate s) (countryCode s) parsed (showOnlyHolidays s)
        (errorMessage s) (requests s) (console s)
  | Throw error =>
      mkState (baseDate s) (countryCode s) [] (showOnlyHolidays s)
        (Some msgFetchFailed) (requests s) (console s ++ [error])
  end.
Proof.
  destruct s as [b c h f e r k]. unfold fetchHolidays_settle.
  destruct (tryBody tza o); reflexivity.
Qed.

(** X7.  The fetch in its two stretches.  Run without interruption they
    make up [fetchHolidays].  The first stretch never keeps an earlier
    message: it leaves the India message for the refused country and no
    message otherwise, asks the service at most once, and touches neither
    the anchor, the country, the filter nor the console.  The second
    stretch, on whatever state it finds, stores the holidays of a good
    answer and leaves the message alone, or empties the list, shows the
    failure message and writes one console line; it touches neither the
    anchor, the country, the filter nor the request log.  Hence a good
    answer that arrives after the refused country has been selected
    stores its holidays beside the India message. *)
Theorem fetchHolidays_phases (tza : Z) (net : string -> FetchOutcome)
    (s : State) :
  fetchHolidays tza net s =
    match fetchHolidays_start s with
    | (s1, Some url) => fetchHolidays_settle tza (net url) s1
    | (s1, None) => s1
    end /\
  (baseDate (fetchHolidays_start s).1 = baseDate s /\
   countryCode (fetchHolidays_start s).1 = countryCode s /\
   showOnlyHolidays (fetchHolidays_start s).1 = showOnlyHolidays s /\
   console (fetchHolidays_start s).1 = console s /\
   errorMessage (fetchHolidays_start s).1 =
     (if bool_decide (countryCode s = "IN") then Some msgDataUnavailable
      else None) /\
   holidays (fetchHolidays_start s).1 =
     (if bool_decide (countryCode s = "IN") then [] else holidays s) /\
   requests (fetchHolidays_start s).1 =
     requests s ++ option_list (fetchHolidays_start s).2 /\
   (fetchHolidays_start s).2 =
     (if bool_decide (countryCode s = "IN") then None
      else Some (holidaysUrl (getFullYear (baseDate s)) (countryCode s)))) /\
  (forall (o : FetchOutcome),
     baseDate (fetchHolidays_settle tza o s) = baseDate s /\
     countryCode (fetchHolidays_settle tza o s) = countryCode s /\
     showOnlyHolidays (fetchHolidays_settle tza o s) = showOnlyHolidays s /\
     requests (fetchHolidays_settle tza o s) = requests s /\
     match tryBody tza o with
     | Return parsed =>
         holidays (fetchHolidays_settle tza o s) = parsed /\
         errorMessage (fetchHolidays_settle tza o s) = errorMessage s /\
         console (fetchHolidays_settle tza o s) = console s
     | Throw error =>
         holidays (fetchHolidays_settle tza o s) = [] /\
         errorMessage (fetchHolidays_settle tza o s) = Some msgFetchFailed /\
         console (fetchHolidays_settle tza o s) = console s ++ [error]
     end) /\
  (forall (o : FetchOutcome) (parsed : list Holiday),
     tryBody tza o = Return parsed ->
     countryCode
       (fetchHolidays_settle tza o
          (fetchHolidays_start
             (setCountryCode "IN" (fetchHolidays_start s).1)).1) = "IN" /\
     errorMessage
       (fetchHolidays_settle tza o
          (fetchHolidays_start
             (setCountryCode "IN" (fetchHolidays_start s).1)).1)
       = Some msgDataUnavailable /\
     holidays
       (fetchHolidays_settle tza o
          (fetchHolidays_start
             (setCountryCode "IN" (fetchHolidays_start s).1)).1)
       = parsed).
Proof.
  split.
  { rewrite fetchHolidays_unfold, fetchHolidays_start_unfold.
    case_bool_decide; [reflexivity|].
    rewrite fetchHolidays_settle_unfold.
    destruct (tryBody tza _); reflexivity. }
  split.
  { rewrite fetchHolidays_start_unfold.
    case_bool_decide; cbn [fst snd baseDate countryCode showOnlyHolidays
      console errorMessage holidays requests option_list];
      repeat split; by rewrite ?app_nil_r. }
  split.
  { intros o. rewrite fetchHolidays_settle_unfold.
    destruct (tryBody tza o); repeat split. }
  intros o parsed Ho.
  rewrite fetchHolidays_settle_unfold, Ho.
  cbn [countryCode errorMessage holidays].
  generalize (fetchHolidays_start s).1. intros s1.
  rewrite fetchHolidays_start_unfold.
  destruct s1 as [b c h f e r k].
  cbn [setCountryCode countryCode baseDate holidays showOnlyHolidays
       errorMessage requests console].
  rewrite bool_decide_eq_true_2 by reflexivity.
  cbn [fst countryCode errorMessage]. done.
Qed.

(* ================================================================== *)
(** ** A list of regular holidays in the remote-service view *)
(* ================================================================== *)

Section AllRegular.
Variable hs : list Holiday.
Hypothesis Hreg : Forall (fun h => type h = regular) hs.

Lemma countsDay_work_regular m day : countsDay hs work m day = false.
Proof.
  unfold countsDay. destruct (getMonth day =? m); [|done].
  cbn [andb]. apply not_true_iff_false. intros (h & Hin & Hm)%has_match_iff.
  unfold matchesDay in Hm. apply andb_prop in Hm as [_ Ht].
  apply bool_decide_eq_true in Ht.
  rewrite Forall_forall in Hreg. by rewrite (Hreg h Hin) in Ht.
Qed.

Lemma workCount_regular (week : list Date) m :
  countHolidaysInWeekByMonth hs week work m = 0%nat.
Proof.
  rewrite countHolidaysInWeekByMonth_set.
  assert (E : filter (countsDay hs work m) week = []).
  { induction week as [|d w IH]; [done|].
    rewrite filter_cons, decide_False by (rewrite countsDay_work_regular; cbn; tauto).
    exact IH. }
  rewrite E. reflexivity.
Qed.

Lemma remoteDayHolidays_regular monthDate day :
  Forall (fun h => type h = regular) (remoteDayHolidays hs monthDate day).
Proof.
  rewrite remoteDayHolidays_unfold. destruct (_ =? _); [|constructor].
  apply Forall_forall. intros h [_ Hin]%list_elem_of_filter.
  rewrite Forall_forall in Hreg. by apply Hreg.
Qed.

Lemma hasType_work_regular (l : list Holiday) :
  Forall (fun h => type h = regular) l -> hasType work l = false.
Proof.
  induction 1 as [|h l Hh _ IH]; [done|].
  cbn [hasType existsb]. rewrite Hh. exact IH.
Qed.

Lemma renderDay_regular flt now monthDate ov day :
  match renderDay hs flt now monthDate ov day with
  | Blank => True
  | Shown c =>
      bgColor c <> "bg-green-300" /\
      match badge c with
      | Some b => icon b = "🎉"
      | None => True
      end
  end.
Proof.
  rewrite remote_renderDay_eq. cbv zeta.
  pose proof (remoteDayHolidays_regular monthDate day) as Hr.
  generalize dependent (remoteDayHolidays hs monthDate day). intros dh Hr.
  rewrite (hasType_work_regular dh Hr).
  destruct (flt && _); [done|]. cbn [bgColor badge]. split.
  - destruct (negb ov), (isToday now day), (hasType regular dh); discriminate.
  - destruct dh as [|h dh']; [done|]. cbn [List.length Nat.ltb Nat.leb icon].
    rewrite (hasType_regular_of_no_work (h :: dh')); [done | done|].
    by apply hasType_work_regular.
Qed.

Lemma renderWeek_regular flt now monthDate (week : list Date) :
  workCount (renderWeek hs flt now monthDate week) = 0%nat /\
  (className (renderWeek hs flt now monthDate week)
     = "grid grid-cols-7 gap-1 mb-1 rounded" \/
   className (renderWeek hs flt now monthDate week)
     = "grid grid-cols-7 gap-1 mb-1 rounded border-2 border-gray-300" \/
   className (renderWeek hs flt now monthDate week)
     = "grid grid-cols-7 gap-1 mb-1 rounded bg-gray-600 text-white") /\
  Forall (fun cell =>
            match cell with
            | Blank => True
            | Shown c =>
                bgColor c <> "bg-green-300" /\
                match badge c with
                | Some b => icon b = "🎉"
                | None => True
                end
            end) (cells (renderWeek hs flt now monthDate week)).
Proof.
  rewrite remote_renderWeek_unfold. cbn [workCount className cells].
  rewrite trim_weekClass, workCount_regular.
  split; [done|]. split.
  - generalize (countHolidaysInWeekByMonth hs week regular (getMonth monthDate)).
    intros n. destruct (2 <=? n)%nat; [by right; right|].
    cbn [Nat.ltb Nat.leb Nat.eqb]. destruct (n =? 1)%nat; [by right; left | by left].
  - generalize (2 <=? countHolidaysInWeekByMonth hs week regular
                        (getMonth monthDate))%nat. intros ov.
    induction week as [|d w IH]; [constructor|].
    cbn [map]. constructor; [apply renderDay_regular | exact IH].
Qed.

Lemma renderMonth_regular flt now monthDate :
  Forall (fun row =>
    workCount row = 0%nat /\
    (className row = "grid grid-cols-7 gap-1 mb-1 rounded" \/
     className row
       = "grid grid-cols-7 gap-1 mb-1 rounded border-2 border-gray-300" \/
     className row
       = "grid grid-cols-7 gap-1 mb-1 rounded bg-gray-600 text-white") /\
    Forall (fun cell =>
              match cell with
              | Blank => True
              | Shown c =>
                  bgColor c <> "bg-green-300" /\
                  match badge c with
                  | Some b => icon b = "🎉"
                  | None => True
                  end
              end) (cells row))
    (renderMonth hs flt now monthDate).
Proof.
  rewrite remote_renderMonth_unfold.
  generalize (getWeeks (getMonthDays monthDate)). intros weeks.
  induction weeks as [|w ws IH]; [constructor|].
  cbn [map]. constructor; [apply renderWeek_regular | exact IH].
Qed.

End AllRegular.

Lemma remote_render_unfold now s :
  render now s =
  map (renderMonth (holidays s) (showOnlyHolidays s) now) (months (baseDate s)).
Proof. reflexivity. Qed.

(** X8.  The remote-service view never shows a work holiday.  Whatever
    the service answers, every holiday the fetch stores is a regular one;
    so in all three panels the work count of every row is zero, no row
    gets one of the two green week styles, no cell gets the work colour,
    and every badge shows the regular icon. *)
Theorem remote_view_never_work (tza : Z) (net : string -> FetchOutcome)
    (s : State) (now : Date) :
  Forall (fun h => type h = regular) (holidays (fetchHolidays tza net s)) /\
  Forall (Forall (fun row =>
    workCount row = 0%nat /\
    (className row = "grid grid-cols-7 gap-1 mb-1 rounded" \/
     className row
       = "grid grid-cols-7 gap-1 mb-1 rounded border-2 border-gray-300" \/
     className row
       = "grid grid-cols-7 gap-1 mb-1 rounded bg-gray-600 text-white") /\
    Forall (fun cell =>
              match cell with
              | Blank => True
              | Shown c =>
                  bgColor c <> "bg-green-300" /\
                  match badge c with
                  | Some b => icon b = "🎉"
                  | None => True
                  end
              end) (cells row)))
    (render now (fetchHolidays tza net s)).
Proof.
  pose proof (fetchHolidays_regular tza net s) as Hreg.
  split; [exact Hreg|].
  rewrite remote_render_unfold.
  generalize dependent (fetchHolidays tza net s). intros s' Hreg.
  generalize (months (baseDate s')). intros ms.
  induction ms as [|m ms IH]; [constructor|].
  cbn [map]. constructor; [by apply renderMonth_regular | exact IH].
Qed.

(* ================================================================== *)
(** ** The import as a state transformer *)
(* ================================================================== *)

Lemma mapExn_Throw {A B : Type} (f : A -> Exn B) (l : list A) :
  (exists e, ImportView.mapExn f l = Throw e) <->
  Exists (fun x => exists e, f x = Throw e) l.
Proof.
  induction l as [|x l IH]; cbn [ImportView.mapExn].
  - split; [by intros [e ?] | by intros ?%Exists_nil].
  - rewrite Exists_cons, <- IH.
    destruct (f x) as [e|y]; cbn [mbind Exn_bind].
    + split; [intros _; left; by exists e | intros _; by exists e].
    + destruct (ImportView.mapExn f l) as [e|ys]; cbn [mbind Exn_bind].
      * split; [intros _; right; by exists e | intros _; by exists e].
      * split; [by intros [e ?] | by intros [[e ?] | [e ?]]].
Qed.

Lemma Forall2_elem_l {A B : Type} (P : A -> B -> Prop) (l : list A)
    (r : list B) (x : A) :
  Forall2 P l r -> x ∈ l -> exists y, P x y.
Proof.
  induction 1 as [|a b l r Hab _ IH]; [by intros ?%elem_of_nil|].
  intros [-> | Hin]%elem_of_cons; [by exists b | by apply IH].
Qed.

Lemma toHoliday_Throw e :
  (exists x, ImportView.toHoliday e = Throw x) <-> ImportView.startDate e = None.
Proof.
  unfold ImportView.toHoliday. destruct (ImportView.startDate e).
  - split; [by intros [x ?] | done].
  - split; [done | intros _; by eexists].
Qed.

(** X9.  The import is all or nothing.  When the parser delivers the
    events of the file: if every event has a start date, the stored list
    is replaced by one holiday per event, in the order of the file, the
    filter is switched off and nothing is reported; if a single event has
    no start date, no event of the file is stored, the list and the
    filter stay as they were, and one alert and one console line are
    written.  The anchor date is kept in both cases, and without a file
    the state is untouched. *)
Theorem handleICSFile_all_or_nothing
    (ICAL_vevents : string -> Exn (list ImportView.VEvent)) (text : string)
    (vevents : list ImportView.VEvent) (s : ImportView.State) :
  ICAL_vevents text = Return vevents ->
  (Forall (fun e => is_Some (ImportView.startDate e)) vevents ->
     Forall2 (fun e h => ImportView.toHoliday e = Return h) vevents
       (ImportView.holidays
          (ImportView.handleICSFile ICAL_vevents (Some text) s)) /\
     ImportView.showOnlyHolidays
       (ImportView.handleICSFile ICAL_vevents (Some text) s) = false /\
     ImportView.alerts (ImportView.handleICSFile ICAL_vevents (Some text) s)
       = ImportView.alerts s /\
     ImportView.console (ImportView.handleICSFile ICAL_vevents (Some text) s)
       = ImportView.console s) /\
  (Exists (fun e => ImportView.startDate e = None) vevents ->
     ImportView.holidays (ImportView.handleICSFile ICAL_vevents (Some text) s)
       = ImportView.holidays s /\
     ImportView.showOnlyHolidays
       (ImportView.handleICSFile ICAL_vevents (Some text) s)
       = ImportView.showOnlyHolidays s /\
     ImportView.alerts (ImportView.handleICSFile ICAL_vevents (Some text) s)
       = ImportView.alerts s ++ [ImportView.msgImportFailed] /\
     exists line,
       ImportView.console (ImportView.handleICSFile ICAL_vevents (Some text) s)
         = ImportView.console s ++ [line]) /\
  ImportView.baseDate (ImportView.handleICSFile ICAL_vevents (Some text) s)
    = ImportView.baseDate s /\
  ImportView.handleICSFile ICAL_vevents None s = s.
Proof.
  intros HI. rewrite handleICSFile_unfold, HI. cbn [mbind Exn_bind].
  destruct (ImportView.mapExn ImportView.toHoliday vevents) as [e|hs] eqn:E.
  - assert (Hex : Exists (fun e => ImportView.startDate e = None) vevents).
    { assert (H : exists e, ImportView.mapExn ImportView.toHoliday vevents = Throw e)
        by by exists e.
      apply mapExn_Throw in H. eapply Exists_impl; [exact H|].
      intros x Hx. by apply toHoliday_Throw. }
    split; [|split; [|split; reflexivity]].
    + intros Hall. exfalso. apply Exists_exists in Hex as (x & Hin & Hx).
      rewrite Forall_forall in Hall. specialize (Hall x Hin).
      rewrite Hx in Hall. by destruct Hall.
    + intros _. cbn [ImportView.holidays ImportView.showOnlyHolidays
                     ImportView.alerts ImportView.console].
      repeat split. by eexists.
  - apply mapExn_Return in E. split; [|split; [|split; reflexivity]].
    + intros _. by repeat split.
    + intros Hex. exfalso. apply Exists_exists in Hex as (x & Hin & Hx).
      destruct (Forall2_elem_l _ _ _ _ E Hin) as (h & Hh).
      unfold ImportView.toHoliday in Hh. by rewrite Hx in Hh.
Qed.

Lemma handleICSFile_all_or_nothing_witness :
  ImportView.holidays
    (ImportView.handleICSFile
       (fun _ => Return [ ImportView.mkVEvent (Some (ofYMD 2025 11 25))
                            (Some "Christmas Day");
                          ImportView.mkVEvent None (Some "Floating") ])
       (Some "BEGIN:VCALENDAR") (ImportView.initialState (ofYMD 2025 5 15)))
    = ImportView.initialHolidays /\
  ImportView.alerts
    (ImportView.handleICSFile
       (fun _ => Return [ ImportView.mkVEvent (Some (ofYMD 2025 11 25))
                            (Some "Christmas Day");
                          ImportView.mkVEvent None (Some "Floating") ])
       (Some "BEGIN:VCALENDAR") (ImportView.initialState (ofYMD 2025 5 15)))
    = ["Failed to parse ICS file. Please check console."].
Proof.
  pose proof (handleICSFile_all_or_nothing
    (fun _ => Return [ ImportView.mkVEvent (Some (ofYMD 2025 11 25))
                         (Some "Christmas Day");
                       ImportView.mkVEvent None (Some "Floating") ])
    "BEGIN:VCALENDAR"
    [ ImportView.mkVEvent (Some (ofYMD 2025 11 25)) (Some "Christmas Day");
      ImportView.mkVEvent None (Some "Floating") ]
    (ImportView.initialState (ofYMD 2025 5 15)) eq_refl) as (_ & H & _).
  destruct H as (H1 & _ & H2 & _).
  { apply Exists_cons_tl, Exists_cons_hd. reflexivity. }
  split; assumption.
Defined.

(* ================================================================== *)
(** ** A list of regular holidays in the file-import view *)
(* ================================================================== *)

Lemma filter_work_regular (l : list Holiday) (s : string) :
  Forall (fun h => type h = regular) l ->
  filter (fun h => bool_decide (date h = s) && bool_decide (type h = work)) l
  = [].
Proof.
  induction 1 as [|h l Hh _ IH]; [done|].
  rewrite filter_cons, decide_False; [exact IH|].
  rewrite Hh. rewrite andb_false_r. cbn. tauto.
Qed.

Section ImportAllRegular.
Variable hs : list Holiday.
Hypothesis Hreg : Forall (fun h => type h = regular) hs.

Lemma workRecordsOn_regular day : workRecordsOn hs day = 0%nat.
Proof.
  unfold workRecordsOn. by rewrite filter_work_regular.
Qed.

Lemma countWorkHolidaysInWeek_regular (week : list Date) :
  ImportView.countWorkHolidaysInWeek hs week = 0%nat.
Proof.
  rewrite countWorkHolidaysInWeek_sum.
  induction week as [|d w IH]; [done|].
  cbn [map sum_list sum_list_with]. rewrite workRecordsOn_regular.
  exact IH.
Qed.

Lemma importDayHolidays_regular day :
  Forall (fun h => type h = regular) (importDayHolidays hs day).
Proof.
  unfold importDayHolidays. apply Forall_forall.
  intros h [_ Hin]%list_elem_of_filter.
  rewrite Forall_forall in Hreg. by apply Hreg.
Qed.

Lemma import_hasType_work_regular (l : list Holiday) :
  Forall (fun h => type h = regular) l -> ImportView.hasType work l = false.
Proof.
  induction 1 as [|h l Hh _ IH]; [done|].
  cbn [ImportView.hasType existsb]. rewrite Hh. exact IH.
Qed.

Lemma icons_regular (l : list Holiday) :
  Forall (fun h => type h = regular) l ->
  map (fun h => if bool_decide (type h = work) then "🏢" else "🎉") l
  = replicate (List.length l) "🎉".
Proof.
  induction 1 as [|h l Hh _ IH]; [done|].
  cbn [map List.length replicate]. by rewrite Hh, IH.
Qed.

Lemma import_renderDay_regular now monthDate day :
  exists c,
    ImportView.renderDay hs false now monthDate day = Shown c /\
    bgColor c <> "bg-green-300" /\
    badge c =
      (if (0 <? List.length (importDayHolidays hs day))%nat
       then Some (mkBadge "text-[10px] mt-1 text-gray-700"
                    (join " " (replicate
                       (List.length (importDayHolidays hs day)) "🎉")))
       else None).
Proof.
  rewrite import_renderDay_eq. cbv zeta.
  pose proof (importDayHolidays_regular day) as Hr.
  generalize dependent (importDayHolidays hs day). intros dh Hr.
  rewrite (import_hasType_work_regular dh Hr), (icons_regular dh Hr).
  cbn [andb]. eexists. split; [reflexivity|]. cbn [bgColor badge].
  split; [|done].
  destruct (isToday now day), (ImportView.hasType regular dh); discriminate.
Qed.

Lemma import_renderWeek_regular now monthDate (week : list Date) :
  ImportView.workHolidayCount
    (ImportView.renderWeek hs false now monthDate week) = 0%nat /\
  ImportView.className (ImportView.renderWeek hs false now monthDate week)
    = "grid grid-cols-7 gap-1 mb-1" /\
  Forall2 (fun day cell =>
      exists c, cell = Shown c /\ bgColor c <> "bg-green-300" /\
        badge c =
          (if (0 <? List.length (importDayHolidays hs day))%nat
           then Some (mkBadge "text-[10px] mt-1 text-gray-700"
                        (join " " (replicate
                           (List.length (importDayHolidays hs day)) "🎉")))
           else None))
    week (ImportView.cells (ImportView.renderWeek hs false now monthDate week)).
Proof.
  rewrite import_renderWeek_unfold.
  cbn [ImportView.workHolidayCount ImportView.className ImportView.cells].
  rewrite countWorkHolidaysInWeek_regular. split; [done|]. split; [done|].
  induction week as [|d w IH]; [constructor|].
  cbn [map]. constructor; [|exact IH].
  destruct (import_renderDay_regular now monthDate d) as (c & -> & ? & ?).
  by exists c.
Qed.

End ImportAllRegular.

Lemma toHoliday_regular e h :
  ImportView.toHoliday e = Return h -> type h = regular.
Proof.
  unfold ImportView.toHoliday. destruct (ImportView.startDate e); [|done].
  by intros [= <-].
Qed.

Lemma import_render_unfold now s :
  ImportView.render now s =
  map (ImportView.renderMonth (ImportView.holidays s)
         (ImportView.showOnlyHolidays s) now)
      (months (ImportView.baseDate s)).
Proof. reflexivity. Qed.

(** X10.  What the file-import view shows after an import.  A call of
    the handler either leaves the stored list as it was, or stores a list
    of regular holidays and switches the filter off; in the second case,
    in all three panels, no row is highlighted, every cell of the grid is
    drawn, none has the work colour, and the badge of a day repeats the
    regular icon once per holiday stored for that day. *)
Theorem import_view_after_import
    (ICAL_vevents : string -> Exn (list ImportView.VEvent))
    (file : option string) (s : ImportView.State) (now : Date) :
  ImportView.holidays (ImportView.handleICSFile ICAL_vevents file s)
    = ImportView.holidays s \/
  (Forall (fun h => type h = regular)
     (ImportView.holidays (ImportView.handleICSFile ICAL_vevents file s)) /\
   ImportView.showOnlyHolidays (ImportView.handleICSFile ICAL_vevents file s)
     = false /\
   Forall2 (fun monthDate panel =>
     Forall2 (fun week row =>
       ImportView.workHolidayCount row = 0%nat /\
       ImportView.className row = "grid grid-cols-7 gap-1 mb-1" /\
       Forall2 (fun day cell =>
         exists c, cell = Shown c /\ bgColor c <> "bg-green-300" /\
           badge c =
             (if (0 <? List.length
                         (importDayHolidays
                            (ImportView.holidays
                               (ImportView.handleICSFile ICAL_vevents file s))
                            day))%nat
              then Some (mkBadge "text-[10px] mt-1 text-gray-700"
                     (join " " (replicate
                        (List.length
                           (importDayHolidays
                              (ImportView.holidays
                                 (ImportView.handleICSFile ICAL_vevents file s))
                              day)) "🎉")))
              else None))
         week (ImportView.cells row))
       (getWeeks (getMonthDays monthDate)) panel)
     (months (ImportView.baseDate s))
     (ImportView.render now (ImportView.handleICSFile ICAL_vevents file s))).
Proof.
  destruct file as [text|]; [|by left].
  rewrite handleICSFile_unfold.
  destruct (_ ≫= _) as [e|hs] eqn:E; [by left|]. right.
  assert (Hreg : Forall (fun h => type h = regular) hs).
  { destruct (ICAL_vevents text) as [e|evs]; [done|]. cbn [mbind Exn_bind] in E.
    apply mapExn_Return in E. clear -E.
    induction E as [|x y l r Hxy _ IH]; constructor; [|exact IH].
    by eapply toHoliday_regular. }
  cbn [ImportView.holidays ImportView.showOnlyHolidays].
  split; [exact Hreg|]. split; [reflexivity|].
  rewrite import_render_unfold.
  cbn [ImportView.holidays ImportView.showOnlyHolidays ImportView.baseDate].
  generalize (months (ImportView.baseDate s)). intros ms.
  induction ms as [|m ms IH]; [constructor|].
  cbn [map]. constructor; [|exact IH].
  rewrite import_renderMonth_unfold.
  generalize (getWeeks (getMonthDays m)). intros weeks.
  induction weeks as [|w ws IHw]; [constructor|].
  cbn [map]. constructor; [|exact IHw].
  by apply import_renderWeek_regular.
Qed.

(* ================================================================== *)
(** ** The date string depends on the local day only *)
(* ================================================================== *)

Lemma YearFromTime_Day t1 t2 : Day t1 = Day t2 -> YearFromTime t1 = YearFromTime t2.
Proof.
  intros E. apply YearFromTime_unique. rewrite E. apply YearFromTime_spec.
Qed.

Lemma civil_Day t1 t2 :
  Day t1 = Day t2 ->
  getFullYear t1 = getFullYear t2 /\ getMonth t1 = getMonth t2 /\
  getDate t1 = getDate t2.
Proof.
  intros E. pose proof (YearFromTime_Day t1 t2 E) as Ey.
  pose proof (InLeapYear_same_year t2 t1 Ey) as El.
  assert (Ew : DayWithinYear t1 = DayWithinYear t2)
    by (by rewrite !DayWithinYear_unfold, E, Ey).
  assert (Em : MonthFromTime t1 = MonthFromTime t2)
    by (by rewrite !MonthFromTime_monthOf, El, Ew).
  rewrite !getFullYear_unfold, !getMonth_unfold, !getDate_unfold.
  rewrite !DateFromTime_unfold. by rewrite Ey, Em, El, Ew.
Qed.

Lemma format_yyyy_MM_dd_unfold d :
  format_yyyy_MM_dd d =
  addLeadingZeros (if 0 <? getFullYear d then getFullYear d
                   else 1 - getFullYear d) 4 +:+ "-" +:+
  addLeadingZeros (getMonth d + 1) 2 +:+ "-" +:+
  addLeadingZeros (getDate d) 2.
Proof. reflexivity. Qed.

Lemma format_Day t1 t2 :
  Day t1 = Day t2 -> format_yyyy_MM_dd t1 = format_yyyy_MM_dd t2.
Proof.
  intros (Ey & Em & Ed)%civil_Day.
  rewrite !format_yyyy_MM_dd_unfold. by rewrite Ey, Em, Ed.
Qed.

Lemma startOfDay_Day t1 t2 : startOfDay t1 = startOfDay t2 <-> Day t1 = Day t2.
Proof.
  rewrite !startOfDay_eq. unfold msPerDay. lia.
Qed.

Lemma format_same_day d1 d2 :
  1 <= getFullYear d1 <= 9999 -> 1 <= getFullYear d2 <= 9999 ->
  format_yyyy_MM_dd d1 = format_yyyy_MM_dd d2 <-> startOfDay d1 = startOfDay d2.
Proof.
  intros H1 H2. split.
  - intros E. by destruct (format_inj d1 d2 H1 H2 E).
  - intros E%startOfDay_Day. by apply format_Day.
Qed.

(** X11.  An imported event is drawn on the day it starts, and only
    there.  For events and a day of the years 1 to 9999: the holidays the
    file-import view finds for the day are those made of the events whose
    start falls on that local day, one per event and in the order of the
    file. *)
Theorem import_event_on_its_day (vevents : list ImportView.VEvent)
    (stored : list Holiday) (day : Date) :
  ImportView.mapExn ImportView.toHoliday vevents = Return stored ->
  1 <= getFullYear day <= 9999 ->
  Forall (fun e => forall d, ImportView.startDate e = Some d ->
                             1 <= getFullYear d <= 9999) vevents ->
  ImportView.mapExn ImportView.toHoliday
    (filter (fun e => bool_decide
               (startOfDay <$> ImportView.startDate e = Some (startOfDay day)))
            vevents)
  = Return (importDayHolidays stored day).
Proof.
  intros E%mapExn_Return Hday Hev. unfold importDayHolidays.
  induction E as [|e h evs hs Heh _ IH]; [done|].
  apply Forall_cons in Hev as [He Hev]. specialize (IH Hev).
  unfold ImportView.toHoliday in Heh.
  destruct (ImportView.startDate e) as [d|] eqn:Ed; [|done].
  injection Heh as Heh. specialize (He d eq_refl).
  assert (Hd : date h = format_yyyy_MM_dd d) by (by rewrite <- Heh).
  rewrite !filter_cons.
  destruct (decide (startOfDay d = startOfDay day)) as [Hs|Hs].
  - rewrite decide_True.
    2: { apply bool_decide_spec. rewrite Ed. cbn. by rewrite Hs. }
    rewrite decide_True.
    2: { apply bool_decide_spec. rewrite Hd. by apply format_same_day. }
    cbn [ImportView.mapExn]. rewrite IH.
    unfold ImportView.toHoliday at 1. rewrite Ed. cbv zeta. rewrite Heh.
    reflexivity.
  - rewrite decide_False.
    2: { intros Hb%bool_decide_spec. rewrite Ed in Hb. cbn in Hb.
         by injection Hb. }
    rewrite decide_False.
    2: { intros Hb%bool_decide_spec. rewrite Hd in Hb.
         by apply format_same_day in Hb. }
    exact IH.
Qed.

Lemma import_event_on_its_day_witness :
  ImportView.mapExn ImportView.toHoliday
    (filter (fun e => bool_decide
               (startOfDay <$> ImportView.startDate e
                = Some (startOfDay (ofYMD 2025 11 25))))
       [ ImportView.mkVEvent (Some (ofYMD 2025 11 25 + 3600000))
           (Some "Christmas Day");
         ImportView.mkVEvent (Some (ofYMD 2025 11 26)) None ])
  = Return
      (importDayHolidays
         [ mkHoliday "2025-12-25" "Christmas Day" regular;
           mkHoliday "2025-12-26" "Unnamed Event" regular ]
         (ofYMD 2025 11 25)).
Proof.
  apply (import_event_on_its_day
    [ ImportView.mkVEvent (Some (ofYMD 2025 11 25 + 3600000))
        (Some "Christmas Day");
      ImportView.mkVEvent (Some (ofYMD 2025 11 26)) None ]
    [ mkHoliday "2025-12-25" "Christmas Day" regular;
      mkHoliday "2025-12-26" "Unnamed Event" regular ]
    (ofYMD 2025 11 25)).
  - vm_compute. reflexivity.
  - vm_compute. split; discriminate.
  - constructor; [intros d [= <-]; vm_compute; split; discriminate|].
    constructor; [intros d [= <-]; vm_compute; split; discriminate|].
    constructor.
Defined.

(* ================================================================== *)
(** ** The cell of today *)
(* ================================================================== *)

Lemma isToday_unfold now day :
  isToday now day = bool_decide (startOfDay day = startOfDay now).
Proof. reflexivity. Qed.

Lemma today_in_daysFrom (n : nat) : forall g D : Z,
  List.length (filter (fun day => isToday (D * msPerDay) day)
                 (daysFrom n (g * msPerDay))) =
  if (g <=? D) && (D <? g + Z.of_nat n) then 1%nat else 0%nat.
Proof.
  induction n as [|n IH]; intros g D.
  - cbn [daysFrom]. destruct (Z.leb_spec g D), (Z.ltb_spec D (g + Z.of_nat 0));
      try reflexivity. lia.
  - cbn [daysFrom]. replace (g * msPerDay + msPerDay) with ((g + 1) * msPerDay)
      by (unfold msPerDay; lia).
    rewrite filter_cons. specialize (IH (g + 1) D).
    destruct (decide (isToday (D * msPerDay) (g * msPerDay))) as [Ht|Ht].
    + rewrite isToday_unfold in Ht. apply bool_decide_spec in Ht.
      apply startOfDay_Day in Ht. rewrite !Day_mul in Ht. subst D.
      cbn [List.length]. rewrite IH.
      destruct (Z.leb_spec (g + 1) g), (Z.leb_spec g g),
        (Z.ltb_spec g (g + Z.of_nat (S n))); cbn [andb]; try reflexivity; lia.
    + rewrite IH. rewrite isToday_unfold in Ht.
      rewrite bool_decide_spec, startOfDay_Day, !Day_mul in Ht.
      destruct (Z.leb_spec (g + 1) D), (Z.ltb_spec D (g + 1 + Z.of_nat n)),
        (Z.leb_spec g D), (Z.ltb_spec D (g + Z.of_nat (S n)));
        cbn [andb]; try reflexivity; lia.
Qed.

Lemma isToday_Day now now' day :
  Day now = Day now' -> isToday now day = isToday now' day.
Proof.
  intros E%startOfDay_Day. rewrite !isToday_unfold. by rewrite E.
Qed.

Lemma filter_ext_bool {A : Type} (P Q : A -> bool) (l : list A) :
  (forall x, P x = Q x) -> filter P l = filter Q l.
Proof.
  intros H. induction l as [|x l IH]; [done|].
  rewrite !filter_cons, IH, (H x). reflexivity.
Qed.

(** X12.  The cell of today.  A month grid holds the day of the clock
    once when the clock reading lies between the first instant and the
    last millisecond the grid spans, and not at all otherwise; so at most
    one cell of a panel can get the today colour, and the panel of the
    month the clock is in always has that cell. *)
Theorem today_cell (anchor now : Date) :
  List.length (filter (fun day => isToday now day) (getMonthDays anchor)) =
    (if (startOfWeek (startOfMonth anchor) 0 <=? now)
        && (now <=? endOfWeek (endOfMonth anchor) 0)
     then 1%nat else 0%nat) /\
  (getFullYear now = getFullYear anchor -> getMonth now = getMonth anchor ->
   List.length (filter (fun day => isToday now day) (getMonthDays anchor))
     = 1%nat).
Proof.
  assert (Hc : List.length (filter (fun day => isToday now day)
                               (getMonthDays anchor)) =
               if (gridStart anchor <=? Day now) && (Day now <=? gridEnd anchor)
               then 1%nat else 0%nat).
  { rewrite getMonthDays_eq.
    rewrite (filter_ext_bool _ (fun day => isToday (Day now * msPerDay) day)).
    2: { intros x. apply isToday_Day. by rewrite Day_mul. }
    rewrite today_in_daysFrom.
    destruct (grid_length anchor) as (n & _ & Hn). rewrite Hn.
    rewrite Z2Nat.id by lia.
    generalize dependent (gridStart anchor). intros g Hn.
    generalize dependent (gridEnd anchor). intros e Hn.
    generalize (Day now). intros D.
    destruct (Z.leb_spec g D), (Z.ltb_spec D (g + 7 * Z.of_nat n)),
      (Z.leb_spec D e); cbn [andb]; try reflexivity; lia. }
  split.
  - rewrite Hc. destruct (grid_bounds_eq anchor) as [-> ->].
    generalize (gridStart anchor) (gridEnd anchor). intros g e.
    assert (Hn : Day now * msPerDay <= now < Day now * msPerDay + msPerDay).
    { unfold Day, msPerDay. Z.div_mod_to_equations. lia. }
    generalize dependent (Day now). intros D Hn. unfold msPerDay in *.
    destruct (Z.leb_spec g D), (Z.leb_spec D e),
      (Z.leb_spec (g * 86400000) now), (Z.leb_spec now (e * 86400000 + 86399999));
      cbn [andb]; try reflexivity; lia.
  - intros Hy Hm. rewrite Hc.
    assert (Hin : firstDay anchor <= Day now <= lastDay anchor)
      by (by apply same_month_iff).
    destruct (grid_covers_month anchor) as (H1 & H2 & _).
    generalize dependent (gridStart anchor). intros g H1.
    generalize dependent (gridEnd anchor). intros e H2.
    generalize dependent (Day now). intros D Hin.
    destruct (Z.leb_spec g D), (Z.leb_spec D e); cbn [andb];
      try reflexivity; lia.
Qed.

(* ================================================================== *)
(** ** Moving by months *)
(* ================================================================== *)





















(* ================================================================== *)
(** ** The week counts on the states the file-import view can reach *)
(* ================================================================== *)

Lemma append_nil_l (t : string) : "" +:+ t = t.
Proof. reflexivity. Qed.

Lemma append_cons_l c (s t : string) : String c s +:+ t = String c (s +:+ t).
Proof. reflexivity. Qed.

Lemma length_append (s t : string) :
  String.length (s +:+ t) = (String.length s + String.length t)%nat.
Proof.
  induction s as [|c s IH]; [by rewrite append_nil_l|].
  rewrite append_cons_l. cbn [String.length Nat.add]. by rewrite IH.
Qed.

Lemma append_inj_suffix (s1 s2 t1 t2 : string) :
  String.length t1 = String.length t2 ->
  s1 +:+ t1 = s2 +:+ t2 -> s1 = s2 /\ t1 = t2.
Proof.
  intros Hl. revert s2. induction s1 as [|c s1 IH]; intros [|c' s2] E;
    rewrite ?append_nil_l, ?append_cons_l in E.
  - done.
  - exfalso. apply (f_equal String.length) in E. cbn [String.length] in E.
    rewrite length_append in E. lia.
  - exfalso. apply (f_equal String.length) in E. cbn [String.length] in E.
    rewrite length_append in E. lia.
  - injection E as -> E. by destruct (IH s2 E) as [-> ->].
Qed.

Lemma digitChar_inj j k :
  0 <= j <= 9 -> 0 <= k <= 9 -> digitChar j = digitChar k -> j = k.
Proof.
  intros Hj Hk E. apply (f_equal digit) in E.
  rewrite !digit_digitChar in E by done. by injection E.
Qed.

Lemma twoDigits_inj m n :
  0 <= m < 100 -> 0 <= n < 100 -> twoDigits m = twoDigits n -> m = n.
Proof.
  intros Hm Hn E. unfold twoDigits in E. injection E as E1 E2.
  apply digitChar_inj in E1; [|zlia|zlia].
  apply digitChar_inj in E2; [|zlia|zlia]. zlia.
Qed.

(** A day whose date string is that of the shipped work holiday is a
    tenth of June, whatever its year. *)
Lemma format_june_10 d :
  format_yyyy_MM_dd d = "2025-06-10" -> getMonth d = 5 /\ getDate d = 10.
Proof.
  rewrite format_yyyy_MM_dd_unfold.
  pose proof (MonthFromTime_range d) as Hm. rewrite <- getMonth_unfold in Hm.
  pose proof (DateFromTime_range d) as Hd. rewrite <- getDate_unfold in Hd.
  rewrite (addLeadingZeros_2 (getMonth d + 1)) by lia.
  rewrite (addLeadingZeros_2 (getDate d)) by lia.
  generalize (addLeadingZeros (if 0 <? getFullYear d then getFullYear d
                               else 1 - getFullYear d) 4).
  revert Hm Hd. generalize (getMonth d) (getDate d). intros m dt Hm Hd y E.
  apply (append_inj_suffix y "2025" _ "-06-10") in E as [_ E]; [|reflexivity].
  unfold twoDigits in E. rewrite !append_cons_l, !append_nil_l in E.
  injection E as E1 E2 E3 E4.
  change "0"%char with (digitChar 0) in E1.
  change "6"%char with (digitChar 6) in E2.
  change "1"%char with (digitChar 1) in E3.
  change "0"%char with (digitChar 0) in E4.
  apply digitChar_inj in E1; [|zlia|lia].
  apply digitChar_inj in E2; [|zlia|lia].
  apply digitChar_inj in E3; [|zlia|lia].
  apply digitChar_inj in E4; [|zlia|lia].
  split; zlia.
Qed.

Lemma getDate_firstDay x : getDate x = Day x - firstDay x + 1.
Proof.
  rewrite getDate_unfold, DateFromTime_unfold, DayWithinYear_unfold,
    firstDay_unfold. lia.
Qed.

Lemma firstDay_same_month a x :
  getFullYear x = getFullYear a -> getMonth x = getMonth a ->
  firstDay x = firstDay a.
Proof.
  rewrite (getFullYear_unfold x), (getFullYear_unfold a),
    (getMonth_unfold x), (getMonth_unfold a). intros Hy Hm.
  rewrite !firstDay_unfold, (InLeapYear_same_year a x Hy), Hy, Hm. done.
Qed.

(** Months do not overlap. *)
Lemma month_before a x : Day x < firstDay a -> lastDay x < firstDay a.
Proof.
  intros Hlt. destruct (Z.lt_ge_cases (lastDay x) (firstDay a)) as [|Hge]; [done|].
  exfalso. pose proof (Day_in_month x) as Hx.
  pose proof (firstDay_le_lastDay a) as Ha.
  assert (Ht : Day (firstDay a * msPerDay) = firstDay a) by apply Day_mul.
  assert (H1 : firstDay x <= Day (firstDay a * msPerDay) <= lastDay x)
    by (rewrite Ht; lia).
  assert (H2 : firstDay a <= Day (firstDay a * msPerDay) <= lastDay a)
    by (rewrite Ht; lia).
  apply same_month_iff in H1 as [Hy1 Hm1]. apply same_month_iff in H2 as [Hy2 Hm2].
  assert (H3 : firstDay a <= Day x <= lastDay a).
  { apply same_month_iff. split; congruence. }
  lia.
Qed.

Lemma month_after a x : lastDay a < Day x -> lastDay a < firstDay x.
Proof.
  intros Hlt. destruct (Z.lt_ge_cases (lastDay a) (firstDay x)) as [|Hge]; [done|].
  exfalso. pose proof (Day_in_month x) as Hx.
  pose proof (firstDay_le_lastDay a) as Ha.
  assert (Ht : Day (lastDay a * msPerDay) = lastDay a) by apply Day_mul.
  assert (H1 : firstDay x <= Day (lastDay a * msPerDay) <= lastDay x)
    by (rewrite Ht; lia).
  assert (H2 : firstDay a <= Day (lastDay a * msPerDay) <= lastDay a)
    by (rewrite Ht; lia).
  apply same_month_iff in H1 as [Hy1 Hm1]. apply same_month_iff in H2 as [Hy2 Hm2].
  assert (H3 : firstDay a <= Day x <= lastDay a).
  { apply same_month_iff. split; congruence. }
  lia.
Qed.

(** The days a grid borrows from the adjacent months are at most six at
    either end: the last days of the month before, from the 23rd on at
    the earliest, and the first days of the month after, up to the 6th. *)
Lemma grid_day_outside a x :
  x ∈ getMonthDays a ->
  (getFullYear x = getFullYear a /\ getMonth x = getMonth a) \/
  getDate x <= 6 \/ 23 <= getDate x.
Proof.
  intros [_ Hg]%getMonthDays_elem.
  destruct (grid_covers_month a) as (H1 & H2 & _).
  destruct (Z.lt_ge_cases (Day x) (firstDay a)) as [Hlt | Hge].
  - right; right. pose proof (month_before a x Hlt).
    pose proof (month_length x). rewrite getDate_firstDay. lia.
  - destruct (Z.lt_ge_cases (lastDay a) (Day x)) as [Hgt | Hle].
    + right; left. pose proof (month_after a x Hgt).
      rewrite getDate_firstDay. lia.
    + left. apply same_month_iff. lia.
Qed.

Lemma grid_tenth a x :
  x ∈ getMonthDays a -> getDate x = 10 ->
  getMonth x = getMonth a /\ x = (firstDay a + 9) * msPerDay.
Proof.
  intros Hin Hd. destruct (grid_day_outside a x Hin) as [[Hy Hm] | ?]; [|lia].
  split; [done|]. destruct (getMonthDays_elem a x Hin) as [Hx _].
  rewrite getDate_firstDay, (firstDay_same_month a x Hy Hm) in Hd.
  rewrite Hx at 1. f_equal. lia.
Qed.

(** The shipped list holds one work holiday, on 10 June 2025. *)
Lemma workRecordsOn_initial day :
  workRecordsOn ImportView.initialHolidays day =
  if bool_decide (format_yyyy_MM_dd day = "2025-06-10") then 1%nat else 0%nat.
Proof.
  unfold workRecordsOn, ImportView.initialHolidays.
  generalize (format_yyyy_MM_dd day). intros s.
  rewrite !filter_cons, filter_nil. cbn [date type].
  destruct (decide (s = "2025-06-10")) as [-> | Hn].
  - reflexivity.
  - rewrite (bool_decide_eq_false_2 ("2025-06-10" = s)) by congruence.
    rewrite (bool_decide_eq_false_2 (s = "2025-06-10")) by done.
    cbn [andb]. rewrite decide_False by (cbn; tauto).
    rewrite (bool_decide_eq_false_2 (regular = work)) by done.
    rewrite !andb_false_r. rewrite !decide_False by (cbn; tauto). reflexivity.
Qed.

Lemma countsDay_initial m day :
  countsDay ImportView.initialHolidays work m day =
  (getMonth day =? m) && bool_decide (format_yyyy_MM_dd day = "2025-06-10").
Proof.
  unfold countsDay. f_equal. unfold ImportView.initialHolidays, matchesDay.
  generalize (format_yyyy_MM_dd day). intros s.
  rewrite !filter_cons, filter_nil. cbn [date type].
  destruct (decide (s = "2025-06-10")) as [-> | Hn].
  - reflexivity.
  - rewrite (bool_decide_eq_false_2 ("2025-06-10" = s)) by congruence.
    rewrite (bool_decide_eq_false_2 (s = "2025-06-10")) by done.
    cbn [andb]. rewrite decide_False by (cbn; tauto).
    rewrite (bool_decide_eq_false_2 (regular = work)) by done.
    rewrite !andb_false_r. rewrite !decide_False by (cbn; tauto). reflexivity.
Qed.

Lemma sum_indicator {A : Type} (P : A -> bool) (l : list A) :
  sum_list (map (fun x => if P x then 1%nat else 0%nat) l)
  = List.length (filter P l).
Proof.
  induction l as [|x l IH]; [done|].
  cbn [map sum_list sum_list_with]. rewrite filter_cons.
  destruct (P x).
  - rewrite decide_True by done. cbn [List.length]. by rewrite <- IH.
  - rewrite decide_False by (cbn; tauto). by rewrite <- IH.
Qed.

Lemma filter_ext_in {A : Type} (P Q : A -> bool) (l : list A) :
  Forall (fun x => P x = Q x) l -> filter P l = filter Q l.
Proof.
  induction 1 as [|x l Hx _ IH]; [done|].
  by rewrite !filter_cons, IH, Hx.
Qed.

Lemma NoDup_filter_const {A : Type} (P : A -> bool) (l : list A) (v : A) :
  NoDup l -> Forall (fun x => P x = true -> x = v) l ->
  (List.length (filter P l) <= 1)%nat.
Proof.
  intros Hnd Hall.
  assert (Hf : NoDup (filter P l)) by (by apply NoDup_filter).
  assert (Hv : Forall (fun x => x = v) (filter P l)).
  { apply Forall_forall. intros x [Hp Hin]%list_elem_of_filter.
    rewrite Forall_forall in Hall. apply Hall; [done|].
    by destruct (P x). }
  destruct (filter P l) as [|x [|y r]]; [cbn; lia | cbn; lia |].
  exfalso. apply Forall_cons in Hv as [-> Hv]. apply Forall_cons in Hv as [-> _].
  apply NoDup_cons in Hf as [Hx _]. apply Hx. left.
Qed.

Lemma size_singleton_list (f : Date -> string) (l : list Date) :
  (List.length l <= 1)%nat ->
  size (list_to_set (map f l) : gset string) = List.length l.
Proof.
  destruct l as [|x [|y r]]; cbn [List.length map list_to_set]; [done| |lia].
  intros _. by rewrite union_empty_r_L, size_singleton.
Qed.

(** On the shipped data a row of a panel counts the same whether work
    holiday records or distinct days of the panel's month are counted. *)
Lemma count_initial_row a (week : list Date) :
  week ∈ getWeeks (getMonthDays a) ->
  ImportView.countWorkHolidaysInWeek ImportView.initialHolidays week =
  size (list_to_set
          (map format_yyyy_MM_dd
             (filter (countsDay ImportView.initialHolidays work (getMonth a))
                     week)) : gset string).
Proof.
  intros Hw.
  assert (Hsub : sublist week (getMonthDays a)).
  { rewrite <- (concat_getWeeks (getMonthDays a)). by apply elem_sublist_concat. }
  assert (Hnd : NoDup week).
  { eapply sublist_NoDup; [|exact Hsub]. rewrite getMonthDays_eq.
    apply NoDup_daysFrom. }
  assert (Hin : Forall (fun x => x ∈ getMonthDays a) week).
  { apply Forall_forall. intros x Hx. by eapply elem_of_sublist. }
  assert (grid_tenth_g : forall x, x ∈ getMonthDays a -> getDate x = 10 ->
            getMonth x = getMonth a /\ x = (firstDay a + 9) * msPerDay)
    by (intros x; apply grid_tenth).
  revert Hnd Hin grid_tenth_g. clear Hw Hsub. generalize (getMonthDays a).
  intros g Hnd Hin grid_tenth_g.
  rewrite countWorkHolidaysInWeek_sum.
  rewrite (map_ext _ _ workRecordsOn_initial).
  rewrite (sum_indicator
             (fun day => bool_decide (format_yyyy_MM_dd day = "2025-06-10"))).
  rewrite (filter_ext_in (countsDay ImportView.initialHolidays work (getMonth a))
             (fun day => bool_decide (format_yyyy_MM_dd day = "2025-06-10"))).
  2: { eapply Forall_impl; [exact Hin|]. intros x Hx. cbv beta.
       rewrite countsDay_initial.
       destruct (bool_decide_reflect (format_yyyy_MM_dd x = "2025-06-10"))
         as [E|]; [|by rewrite andb_false_r].
       apply format_june_10 in E as [Em Ed].
       destruct (grid_tenth_g x Hx Ed) as [Hm _].
       rewrite <- Hm, Em. reflexivity. }
  symmetry. apply size_singleton_list.
  apply (NoDup_filter_const _ _ ((firstDay a + 9) * msPerDay) Hnd).
  eapply Forall_impl; [exact Hin|]. intros x Hx. cbv beta.
  intros [_ Ed]%bool_decide_eq_true%format_june_10.
  by destruct (grid_tenth_g x Hx Ed).
Qed.

Lemma importStep_holidays ICAL s ev :
  ImportView.holidays (importStep ICAL s ev) = ImportView.holidays s \/
  Forall (fun h => type h = regular)
    (ImportView.holidays (importStep ICAL s ev)).
Proof.
  destruct ev as [[text|]| | |]; cbn [importStep]; try (by left).
  rewrite handleICSFile_unfold.
  destruct (_ ≫= _) as [e|hs] eqn:E; [by left|]. right.
  cbn [ImportView.holidays].
  destruct (ICAL text) as [e|evs]; [done|]. cbn [mbind Exn_bind] in E.
  apply mapExn_Return in E.
  induction E as [|x y l r Hxy _ IH]; constructor; [|exact IH].
  by eapply toHoliday_regular.
Qed.

(** The file-import view only ever holds the shipped list or a list of
    regular holidays. *)
Lemma importRun_holidays ICAL now (events : list ImportEvent) :
  ImportView.holidays (importRun ICAL now events) = ImportView.initialHolidays \/
  Forall (fun h => type h = regular)
    (ImportView.holidays (importRun ICAL now events)).
Proof.
  unfold importRun.
  assert (H0 : ImportView.holidays (ImportView.initialState now)
               = ImportView.initialHolidays \/
               Forall (fun h => type h = regular)
                 (ImportView.holidays (ImportView.initialState now)))
    by (by left).
  revert H0. generalize (ImportView.initialState now).
  induction events as [|ev events IH]; intros s Hs; [exact Hs|].
  cbn [fold_left]. apply IH.
  destruct (importStep_holidays ICAL s ev) as [-> | Hr]; [exact Hs | by right].
Qed.

Lemma import_row_count ICAL now (events : list ImportEvent) a
    (week : list Date) :
  week ∈ getWeeks (getMonthDays a) ->
  ImportView.countWorkHolidaysInWeek
    (ImportView.holidays (importRun ICAL now events)) week =
  size (list_to_set
          (map format_yyyy_MM_dd
             (filter (countsDay (ImportView.holidays (importRun ICAL now events))
                        work (getMonth a)) week)) : gset string).
Proof.
  intros Hw. destruct (importRun_holidays ICAL now events) as [-> | Hreg].
  - by apply count_initial_row.
  - revert Hreg. generalize (ImportView.holidays (importRun ICAL now events)).
    intros hs Hreg. rewrite (countWorkHolidaysInWeek_regular hs Hreg).
    rewrite <- countHolidaysInWeekByMonth_set.
    by rewrite (workCount_regular hs Hreg).
Qed.

(** C2.  In the remote-service view, for every list of holidays, the
    count of a week is the number of distinct dates among the days of the
    week that lie in the month being rendered and carry at least one
    holiday of the type: days of adjacent months contribute nothing, a
    day contributes at most one however many records fall on it, and
    only which records there are matters.  In the file-import view the
    work count of every row of every panel is that same number, in every
    state the view can reach from its start by choosing files, ticking
    the filter and pressing the buttons: the counter adds up records over
    all days of the row, but the view only ever holds the shipped list,
    whose one work holiday falls on a tenth of June and so inside its
    month, or an imported list, which has no work holiday. *)
Theorem week_counts (hs : list Holiday) (week : list Date)
    (ty : HolidayType) (currentMonth : Z) :
  RemoteView.countHolidaysInWeekByMonth hs week ty currentMonth =
    size (list_to_set
            (map format_yyyy_MM_dd (filter (countsDay hs ty currentMonth) week))
          : gset string) /\
  RemoteView.countHolidaysInWeekByMonth hs week ty currentMonth =
    RemoteView.countHolidaysInWeekByMonth hs
      (filter (fun day => getMonth day =? currentMonth) week) ty currentMonth /\
  (RemoteView.countHolidaysInWeekByMonth hs week ty currentMonth
   <= List.length (filter (fun day => (getMonth day =? currentMonth)%Z) week))%nat /\
  (forall hs', (forall h, h ∈ hs <-> h ∈ hs') ->
     RemoteView.countHolidaysInWeekByMonth hs' week ty currentMonth =
     RemoteView.countHolidaysInWeekByMonth hs week ty currentMonth) /\
  (forall (ICAL_vevents : string -> Exn (list ImportView.VEvent))
          (now : Date) (events : list ImportEvent)
          (monthDate : Date) (row : list Date),
     row ∈ getWeeks (getMonthDays monthDate) ->
     ImportView.countWorkHolidaysInWeek
       (ImportView.holidays (importRun ICAL_vevents now events)) row =
     size (list_to_set
             (map format_yyyy_MM_dd
                (filter (countsDay
                           (ImportView.holidays
                              (importRun ICAL_vevents now events))
                           work (getMonth monthDate)) row))
           : gset string)).
Proof.
  split; [apply countHolidaysInWeekByMonth_set|].
  split.
  { by rewrite !countHolidaysInWeekByMonth_set, filter_countsDay_in_month. }
  split.
  { rewrite countHolidaysInWeekByMonth_set, <- filter_countsDay_in_month.
    etrans; [apply size_list_to_set_le|].
    rewrite length_map. apply length_filter. }
  split; [|intros ICAL now events monthDate row; apply import_row_count].
  intros hs' Hsame. rewrite !countHolidaysInWeekByMonth_set.
  do 3 f_equal. apply list_filter_iff. intros day.
  by rewrite (countsDay_same_records hs hs' ty currentMonth day Hsame).
Qed.
